(** * Arazzo document validation (models/arazzo.py)

    A shallow embedding of the pydantic models of [models/arazzo.py] and of
    the validators attached to them, together with the properties that the
    specification states about validated documents.

    The repository declares its grammar with pydantic.  The declarations
    (field types, [Field(...)] constraints, [field_validator]s and
    [model_validator]s) are embedded here as functions from a decoded
    document tree to a validation outcome; the part of pydantic that
    interprets the declarations is written out in the section
    "Field machinery" below. *)

From Stdlib Require Import List String Ascii ZArith Bool Lia Arith.
From Stdlib Require Import Sorted Permutation SpecFloat.
Import ListNotations.
Local Open Scope string_scope.
Local Open Scope list_scope.

Set Implicit Arguments.

(* ================================================================== *)
(** * Decoded document trees *)
(* ================================================================== *)

(** The value handed over by the YAML or JSON decoder: [None], a boolean, an
    integer, a float, a string, a list, or a dict with string keys in
    insertion order.  A float is a binary64 value, in the form the Standard
    Library gives to IEEE 754 values: a signed zero, a signed infinity, nan,
    or a sign with mantissa and exponent.  A string is a [str] whose
    characters lie below code point 256, one [ascii] for each. *)
Unset Elimination Schemes.
Inductive Json : Type :=
| JNull
| JBool (b : bool)
| JInt (z : Z)
| JFloat (f : spec_float)
| JStr (s : string)
| JList (l : list Json)
| JMap (m : list (string * Json)).
Set Elimination Schemes.

Section JsonInduction.
Variable P : Json -> Prop.
Hypothesis Hnull : P JNull.
Hypothesis Hbool : forall b, P (JBool b).
Hypothesis Hint : forall z, P (JInt z).
Hypothesis Hfloat : forall f, P (JFloat f).
Hypothesis Hstr : forall s, P (JStr s).
Hypothesis Hlist : forall l, Forall P l -> P (JList l).
Hypothesis Hmap : forall m, Forall (fun kv => P (snd kv)) m -> P (JMap m).

Fixpoint Json_ind (j : Json) : P j :=
    match j with
    | JNull => Hnull
    | JBool b => Hbool b
    | JInt z => Hint z
    | JFloat f => Hfloat f
    | JStr s => Hstr s
    | JList l =>
        Hlist ((fix items (l : list Json) : Forall P l :=
                  match l with
                  | [] => Forall_nil _
                  | x :: r => Forall_cons x (Json_ind x) (items r)
                  end) l)
    | JMap m =>
        Hmap ((fix entries (m : list (string * Json))
                 : Forall (fun kv => P (snd kv)) m :=
                 match m with
                 | [] => Forall_nil _
                 | kv :: r =>
                     @Forall_cons _ (fun kv => P (snd kv)) kv r
                                  (Json_ind (snd kv)) (entries r)
                 end) m)
    end.
End JsonInduction.

Definition float_eqb (a b : spec_float) : bool :=
  match a, b with
  | S754_zero s, S754_zero s' => Bool.eqb s s'
  | S754_infinity s, S754_infinity s' => Bool.eqb s s'
  | S754_nan, S754_nan => true
  | S754_finite s m e, S754_finite s' m' e' =>
      Bool.eqb s s' && Pos.eqb m m' && Z.eqb e e'
  | _, _ => false
  end.

(** [==] on decoded values, as far as the serialised form tells them apart. *)
Fixpoint Json_eqb (a b : Json) {struct a} : bool :=
  match a, b with
  | JNull, JNull => true
  | JBool x, JBool y => Bool.eqb x y
  | JInt x, JInt y => Z.eqb x y
  | JFloat x, JFloat y => float_eqb x y
  | JStr x, JStr y => String.eqb x y
  | JList x, JList y =>
      (fix items (x y : list Json) {struct x} : bool :=
         match x, y with
         | [], [] => true
         | u :: x', v :: y' => Json_eqb u v && items x' y'
         | _, _ => false
         end) x y
  | JMap x, JMap y =>
      (fix entries (x y : list (string * Json)) {struct x} : bool :=
         match x, y with
         | [], [] => true
         | (k, u) :: x', (k', v) :: y' =>
             String.eqb k k' && Json_eqb u v && entries x' y'
         | _, _ => false
         end) x y
  | _, _ => false
  end.

(* ================================================================== *)
(** * Python values used by the validators *)
(* ================================================================== *)

(** Truth value of an [Optional[str]]: [None] and the empty string are
    false. *)
Definition truthy (o : option string) : bool :=
  match o with
  | Some s => negb (s =? "")
  | None => false
  end.

Definition is_None {A : Type} (o : option A) : bool :=
  match o with
  | Some _ => false
  | None => true
  end.

(** Truth value of an [Optional[list]]. *)
Definition truthy_list {A : Type} (o : option (list A)) : bool :=
  match o with
  | Some (_ :: _) => true
  | _ => false
  end.

Definition str_in (x : string) (l : list string) : bool :=
  existsb (String.eqb x) l.

(** [set(l)] for strings, as the list of its members, each one once. *)
Fixpoint py_set (l : list string) : list string :=
  match l with
  | [] => []
  | x :: r => if str_in x r then py_set r else x :: py_set r
  end.

(** The order in which the members of a set of strings come out when a
    list is made of it.  Python fixes it by the hash seed of the process,
    so the validators take it from outside; whatever it is, each member
    comes out once. *)
Class SetOrder : Type := {
  iteration : list string -> list string;
  iteration_permutes : forall l, Permutation (iteration l) l
}.

(** The order under which the sample documents are evaluated: the members
    come out as they were put in. *)
#[global] Instance insertion_order : SetOrder := {
  iteration := fun l => l;
  iteration_permutes := @Permutation_refl string
}.

Fixpoint insert_sorted (x : string) (l : list string) : list string :=
  match l with
  | [] => [x]
  | y :: r => if String.leb x y then x :: l else y :: insert_sorted x r
  end.

(** [sorted(l)] for strings. *)
Definition sorted (l : list string) : list string :=
  fold_right insert_sorted [] l.

Definition code (c : ascii) : nat := nat_of_ascii c.

Definition in_range (lo hi : nat) (c : ascii) : bool :=
  (lo <=? code c)%nat && (code c <=? hi)%nat.

(** The decimal digits: [\d] of the pattern engine and the digits of the
    number texts.  Below code point 256 the only decimal digits are 0 to
    9. *)
Definition is_digit (c : ascii) : bool := in_range 48 57 c.
Definition is_upper (c : ascii) : bool := in_range 65 90 c.
Definition is_lower (c : ascii) : bool := in_range 97 122 c.

(** [\s] of Python's [re] on [str]: the characters for which [str.isspace]
    holds, here those below 256. *)
Definition is_space (c : ascii) : bool :=
  in_range 9 13 c || in_range 28 32 c
  || (code c =? 133)%nat || (code c =? 160)%nat.

Fixpoint string_forallb (p : ascii -> bool) (s : string) : bool :=
  match s with
  | EmptyString => true
  | String c r => p c && string_forallb p r
  end.

Fixpoint string_existsb (p : ascii -> bool) (s : string) : bool :=
  match s with
  | EmptyString => false
  | String c r => p c || string_existsb p r
  end.

(** [pydantic.alias_generators.to_camel] on the snake-case field names of
    this module: every underscore is dropped and the letter after it is
    upper-cased. *)
Definition upper (c : ascii) : ascii :=
  if is_lower c then ascii_of_nat (code c - 32) else c.

Fixpoint to_camel (snake : string) : string :=
  match snake with
  | EmptyString => EmptyString
  | String "_" (String c r) => String (upper c) (to_camel r)
  | String c r => String c (to_camel r)
  end.

(* ================================================================== *)
(** * Numbers read by pydantic *)
(* ================================================================== *)

(** The two numeric fields of the module are declared [Optional[float]] and
    [Optional[int]] and validated in pydantic's lax mode, which also reads
    numbers out of booleans and strings.  The conversions below are those of
    pydantic-core 2: Python's [float(int)], Rust's [str::trim] and
    [str::parse::<f64>], and pydantic-core's own [str_as_float],
    [str_as_int] and [float_as_int]. *)

(** The precision and the exponent bound of binary64. *)
Definition prec : Z := 53.
Definition emax : Z := 1024.

(** [float(z)] of an [int]: the nearest float, ties to even; [None] when
    the conversion raises [OverflowError]. *)
Definition float_of_int (z : Z) : option spec_float :=
  match binary_normalize prec emax z 0 false with
  | S754_infinity _ => None
  | f => Some f
  end.

(** The float nearest to [m * 10 ^ e], ties to even, for [0 <= m]; an
    infinity when it is out of range. *)
Definition float_of_decimal (negative : bool) (m e : Z) : spec_float :=
  match m with
  | Z0 => S754_zero negative
  | _ =>
      if (0 <=? e)%Z
      then binary_normalize prec emax ((if negative then - m else m) * 10 ^ e) 0 false
      else
        let '(q, e', l) := SFdiv_core_binary prec emax m 0 (10 ^ (- e)) 0 in
        binary_round_aux prec emax negative q e' l
  end.

Definition zero : spec_float := S754_zero false.

(** The float nearest to [m * 2 ^ e]. *)
Definition double (m e : Z) : spec_float := binary_normalize prec emax m e false.

(** [float(b)] of a [bool] *)
Definition float_of_bool (b : bool) : spec_float :=
  if b then S754_finite false 4503599627370496 (-52) else zero.

(** [>=] on floats: false when one side is nan. *)
Definition float_ge (a b : spec_float) : bool :=
  match SFcompare a b with
  | Some Gt | Some Eq => true
  | _ => false
  end.

(** [char::is_whitespace] of Rust, below code point 256. *)
Definition is_whitespace (c : ascii) : bool :=
  in_range 9 13 c || (code c =? 32)%nat || (code c =? 133)%nat || (code c =? 160)%nat.

Fixpoint trim_start (l : list ascii) : list ascii :=
  match l with
  | c :: r => if is_whitespace c then trim_start r else l
  | [] => []
  end.

(** [str::trim] *)
Definition trim (l : list ascii) : list ascii :=
  rev (trim_start (rev (trim_start l))).

Definition lower (c : ascii) : ascii :=
  if is_upper c then ascii_of_nat (code c + 32) else c.

Fixpoint take_digits (l : list ascii) : list ascii * list ascii :=
  match l with
  | c :: r =>
      if is_digit c then let (d, t) := take_digits r in (c :: d, t) else ([], l)
  | [] => ([], [])
  end.

Definition decimal_value (ds : list ascii) : Z :=
  fold_left (fun acc c => 10 * acc + Z.of_nat (code c - 48))%Z ds 0%Z.

Definition take_sign (l : list ascii) : bool * list ascii :=
  match l with
  | "-"%char :: r => (true, r)
  | "+"%char :: r => (false, r)
  | _ => (false, l)
  end.

(** The exponent part of a float literal, up to the end of the text. *)
Definition parse_exponent (l : list ascii) : option Z :=
  match l with
  | [] => Some 0%Z
  | c :: r =>
      if Ascii.eqb (lower c) "e" then
        let (negative, r') := take_sign r in
        match take_digits r' with
        | ((_ :: _) as ds, []) =>
            Some (if negative then - decimal_value ds else decimal_value ds)%Z
        | _ => None
        end
      else None
  end.

(** [str::parse::<f64>] of Rust. *)
Definition parse_f64 (l : list ascii) : option spec_float :=
  let (negative, r) := take_sign l in
  let word := string_of_list_ascii (map lower r) in
  if (word =? "inf") || (word =? "infinity") then Some (S754_infinity negative)
  else if word =? "nan" then Some S754_nan
  else
    let (ip, r1) := take_digits r in
    let (fp, r2) := match r1 with
                    | "."%char :: t => take_digits t
                    | _ => ([], r1)
                    end in
    match ip ++ fp with
    | [] => None
    | ds =>
        match parse_exponent r2 with
        | Some e => Some (float_of_decimal negative (decimal_value ds)
                            (e - Z.of_nat (List.length fp)))
        | None => None
        end
    end.

Fixpoint has_double_underscore (l : list ascii) : bool :=
  match l with
  | "_"%char :: "_"%char :: _ => true
  | _ :: r => has_double_underscore r
  | [] => false
  end.

Definition is_underscore (c : ascii) : bool := Ascii.eqb c "_".

(** [strip_underscores] of pydantic-core: the text without its underscores,
    when it has some, none of them first, last or doubled. *)
Definition strip_underscores (l : list ascii) : option (list ascii) :=
  if match l with c :: _ => is_underscore c | [] => false end
     || match rev l with c :: _ => is_underscore c | [] => false end
     || negb (existsb is_underscore l)
     || has_double_underscore l
  then None
  else Some (filter (fun c => negb (is_underscore c)) l).

(** [str_as_float] of pydantic-core *)
Definition str_as_float (s : string) : option spec_float :=
  let l := list_ascii_of_string s in
  match parse_f64 (trim l) with
  | Some f => Some f
  | None =>
      match strip_underscores l with
      | Some t => parse_f64 t
      | None => None
      end
  end.

(** Outcome of reading an [int] out of a text. *)
Inductive IntText : Type :=
| int_value (z : Z)
| int_out_of_range
| int_invalid.

(** The integer parser pydantic-core reads a text with: an optional minus
    sign, then either a single 0 or a run of digits that starts with none;
    a number of more than 4300 characters is out of range, whatever
    follows it. *)
Definition parse_int_text (l : list ascii) : IntText :=
  let (negative, r) := match l with
                       | "-"%char :: r => (true, r)
                       | _ => (false, l)
                       end in
  match r with
  | [] => int_invalid
  | c :: t =>
      if negb (is_digit c) then int_invalid
      else if Ascii.eqb c "0" then
        match t with
        | [] => int_value 0
        | _ => int_invalid
        end
      else
        let (ds, rest) := take_digits r in
        if (4300 <? (if negative then 1 else 0) + List.length ds)%nat then int_out_of_range
        else match rest with
             | [] => int_value (if negative then - decimal_value ds else decimal_value ds)
             | _ => int_invalid
             end
  end.

(** [strip_leading_zeros] of pydantic-core. *)
Fixpoint after_leading_zero (prev : ascii) (l : list ascii) : option (list ascii) :=
  match l with
  | [] => Some [prev]
  | c :: r =>
      if Ascii.eqb c "0" || Ascii.eqb c "_" then after_leading_zero c r
      else if in_range 49 57 c || Ascii.eqb c "-" then Some l
      else if Ascii.eqb c "." then Some (prev :: l)
      else None
  end.

Definition strip_leading_zeros (l : list ascii) : option (list ascii) :=
  match l with
  | [] => None
  | c :: r =>
      if Ascii.eqb c "0" then after_leading_zero c r
      else if in_range 49 57 c || Ascii.eqb c "-" then Some l
      else None
  end.

Fixpoint split_at_dot (l : list ascii) : list ascii * option (list ascii) :=
  match l with
  | [] => ([], None)
  | c :: r =>
      if Ascii.eqb c "." then ([], Some r)
      else let (a, b) := split_at_dot r in (c :: a, b)
  end.

(** [strip_decimal_zeros] of pydantic-core: the text up to its first dot,
    when only zeros, and at least one, follow the dot. *)
Definition strip_decimal_zeros (l : list ascii) : list ascii :=
  match split_at_dot l with
  | (a, Some ((_ :: _) as d)) => if forallb (Ascii.eqb "0") d then a else l
  | _ => l
  end.

Definition starts_with (c : ascii) (l : list ascii) : bool :=
  match l with
  | x :: _ => Ascii.eqb x c
  | [] => false
  end.

(** [clean_int_str] of pydantic-core. *)
Definition clean_int_str (l : list ascii) : option (list ascii) :=
  let s := trim l in
  let plus := starts_with "+" s in
  let s := if plus then tl s else s in
  if plus && starts_with "-" s then None
  else
    let negative := starts_with "-" s in
    let s := if negative then tl s else s in
    if negative && (starts_with "-" s || starts_with "+" s) then None
    else
      match strip_leading_zeros s with
      | None => None
      | Some s =>
          let s := strip_decimal_zeros s in
          let s := match strip_underscores s with
                   | Some t => t
                   | None => s
                   end in
          Some (if negative then "-"%char :: s else s)
      end.

(** What reading an [int] out of a float or a text gives. *)
Inductive IntRead : Type :=
| IOk (z : Z)
| INotFinite
| IFraction
| IParsing
| ISize.

(** [str_as_int] of pydantic-core *)
Definition str_as_int (s : string) : IntRead :=
  let l := list_ascii_of_string s in
  match parse_int_text l with
  | int_value z => IOk z
  | int_out_of_range => ISize
  | int_invalid =>
      match clean_int_str l with
      | Some c =>
          match parse_int_text c with
          | int_value z => IOk z
          | _ => IParsing
          end
      | None => IParsing
      end
  end.

(** The value of a finite float when it is an integer. *)
Definition integer_of_float (f : spec_float) : option Z :=
  match f with
  | S754_zero _ => Some 0%Z
  | S754_finite s m e =>
      let z := if s then Zneg m else Zpos m in
      match e with
      | Z0 => Some z
      | Zpos p => Some (z * 2 ^ e)%Z
      | Zneg p => if (z mod 2 ^ Zpos p =? 0)%Z then Some (z / 2 ^ Zpos p)%Z else None
      end
  | _ => None
  end.

(** [float_as_int] of pydantic-core: the float is finite, has no
    fractional part and lies strictly between [i64::MIN] and [i64::MAX] as
    floats. *)
Definition float_as_int (f : spec_float) : IntRead :=
  match f with
  | S754_nan | S754_infinity _ => INotFinite
  | _ =>
      match integer_of_float f with
      | Some z =>
          if ((- 2 ^ 63 <? z) && (z <? 2 ^ 63))%Z then IOk z else ISize
      | None => IFraction
      end
  end.

(* ================================================================== *)
(** * Validation outcomes *)
(* ================================================================== *)

Inductive LocItem : Type :=
| LKey (k : string)
| LIdx (i : nat).

Inductive CtxValue : Type :=
| CStr (s : string)
| CNat (n : nat).

(** The messages of the [ValueError]s raised by the field validators of
    the module. *)
Inductive ValueErrorMsg : Type :=
| must_contain_unique_items (field_name : string)
                            (distinct_duplicates_repr : list string)
| must_contain_unique_ids (list_name : string) (duplicates : list string)
| url_must_not_contain_whitespace.

(** Error kinds.  The field-level ones carry pydantic's names:
    [missing] is the missing-required-field error, the [_type] ones are
    type mismatches, the [_parsing] ones texts that are no number,
    [string_pattern_mismatch] the pattern mismatch, [enum] the enumeration
    mismatch, [greater_than_equal] and [too_short] the out-of-range errors;
    a [ValueError] of a field validator becomes a [value_error]; a
    [PydanticCustomError] keeps its own kind and context. *)
Inductive ErrorKind : Type :=
| missing
| model_type
| dict_type
| list_type
| string_type
| int_type
| int_parsing
| int_parsing_size
| int_from_float
| finite_number
| float_type
| float_parsing
| enum
| string_pattern_mismatch
| greater_than_equal
| too_short
| value_error (msg : ValueErrorMsg)
| PydanticCustomError (error_type : string) (context : list (string * CtxValue)).

Record ErrorDetails : Type := mkError {
  err_type : ErrorKind;
  err_loc : list LocItem
}.

(** Exceptions that pydantic does not turn into validation errors. *)
Inductive PyException : Type :=
| TypeError (msg : string).

(** What a validator does: return a value, fail with a list of errors (a
    [ValidationError]), or let another exception escape. *)
Inductive Res (A : Type) : Type :=
| Ok (a : A)
| Invalid (errors : list ErrorDetails)
| Raised (e : PyException).

Arguments Ok {A} a.
Arguments Invalid {A} errors.
Arguments Raised {A} e.

Definition Validator (A : Type) : Type := Json -> Res A.

Definition fail {A : Type} (k : ErrorKind) : Res A :=
  Invalid [mkError k []].

Definition prefix_loc (k : LocItem) (e : ErrorDetails) : ErrorDetails :=
  mkError (err_type e) (k :: err_loc e).

Definition at_loc {A : Type} (k : LocItem) (r : Res A) : Res A :=
  match r with
  | Invalid es => Invalid (map (prefix_loc k) es)
  | _ => r
  end.

(** Sequencing: the second step runs on the value of the first. *)
Definition and_then {A B : Type} (r : Res A) (f : A -> Res B) : Res B :=
  match r with
  | Ok a => f a
  | Invalid es => Invalid es
  | Raised e => Raised e
  end.

(** Fields are validated independently and their errors concatenated; an
    escaping exception ends the validation. *)
Definition collect {A B : Type} (rf : Res (A -> B)) (ra : Res A) : Res B :=
  match rf, ra with
  | Raised e, _ => Raised e
  | _, Raised e => Raised e
  | Ok f, Ok a => Ok (f a)
  | Ok _, Invalid es => Invalid es
  | Invalid es, Ok _ => Invalid es
  | Invalid es, Invalid es' => Invalid (es ++ es')
  end.

Notation "rf <*> ra" := (collect rf ra) (at level 50, left associativity).

(* ================================================================== *)
(** * Field machinery *)
(* ================================================================== *)

Fixpoint lookup (k : string) (m : list (string * Json)) : option Json :=
  match m with
  | [] => None
  | (k', v) :: r => if k =? k' then Some v else lookup k r
  end.

(** Every model derives from [SpecificationExtensionsMixin]: a field is
    read under its alias, [to_camel] of its name unless [Field(alias=...)]
    gives one, and, with [populate_by_name], under its name when the alias
    is absent. *)
Definition find_field (alias name : string) (m : list (string * Json))
  : option (string * Json) :=
  match lookup alias m with
  | Some v => Some (alias, v)
  | None =>
      match lookup name m with
      | Some v => Some (name, v)
      | None => None
      end
  end.

(** [Field(...)]: a required field. *)
Definition required_as {A : Type} (alias name : string) (v : Validator A)
  (m : list (string * Json)) : Res A :=
  match find_field alias name m with
  | Some (k, j) => at_loc (LKey k) (v j)
  | None => Invalid [mkError missing [LKey alias]]
  end.

(** [Field(default, ...)]: the default is taken as it is. *)
Definition default_as {A : Type} (alias name : string) (d : A) (v : Validator A)
  (m : list (string * Json)) : Res A :=
  match find_field alias name m with
  | Some (k, j) => at_loc (LKey k) (v j)
  | None => Ok d
  end.

Definition required {A : Type} (name : string) := @required_as A (to_camel name) name.
Definition default {A : Type} (name : string) := @default_as A (to_camel name) name.

Definition used_key (m : list (string * Json)) (f : string * string) : list string :=
  match find_field (fst f) (snd f) m with
  | Some (k, _) => [k]
  | None => []
  end.

(** [extra='allow']: the keys that no field consumed are kept as they are. *)
Definition extras (fields : list (string * string)) (m : list (string * Json))
  : list (string * Json) :=
  let used := flat_map (used_key m) fields in
  filter (fun kv => negb (str_in (fst kv) used)) m.

Definition camel (name : string) : string * string := (to_camel name, name).

(** A model is built from a dict. *)
Definition model {A : Type} (body : list (string * Json) -> Res A) : Validator A :=
  fun j =>
    match j with
    | JMap m => body m
    | _ => fail model_type
    end.

Definition any : Validator Json := fun j => Ok j.

Definition str : Validator string :=
  fun j =>
    match j with
    | JStr s => Ok s
    | _ => fail string_type
    end.

(** [Field(pattern=...)] *)
Definition pattern (matches : string -> bool) : Validator string :=
  fun j => and_then (str j)
    (fun s => if matches s then Ok s else fail string_pattern_mismatch).

(** A [str] enumeration, given by its members and their values. *)
Fixpoint enum_of {E : Type} (members : list (string * E)) (s : string) : option E :=
  match members with
  | [] => None
  | (v, e) :: r => if s =? v then Some e else enum_of r s
  end.

Definition enumeration {E : Type} (members : list (string * E)) : Validator E :=
  fun j =>
    match j with
    | JStr s =>
        match enum_of members s with
        | Some e => Ok e
        | None => fail enum
        end
    | _ => fail enum
    end.

(** [float] in lax mode: a float is kept as it is, a text is parsed, an
    integer is converted and a boolean is 1.0 or 0.0. *)
Definition float : Validator spec_float :=
  fun j =>
    match j with
    | JFloat f => Ok f
    | JStr s =>
        match str_as_float s with
        | Some f => Ok f
        | None => fail float_parsing
        end
    | JInt z =>
        match float_of_int z with
        | Some f => Ok f
        | None => fail float_type
        end
    | JBool b => Ok (float_of_bool b)
    | _ => fail float_type
    end.

(** [int] in lax mode: an integer is kept, a boolean is 1 or 0, a float is
    read by [float_as_int] and a text by [str_as_int]. *)
Definition int : Validator Z :=
  fun j =>
    match j with
    | JInt z => Ok z
    | JBool b => Ok (if b then 1 else 0)%Z
    | JFloat f =>
        match float_as_int f with
        | IOk z => Ok z
        | INotFinite => fail finite_number
        | IFraction => fail int_from_float
        | IParsing => fail int_parsing
        | ISize => fail int_parsing_size
        end
    | JStr s =>
        match str_as_int s with
        | IOk z => Ok z
        | INotFinite => fail finite_number
        | IFraction => fail int_from_float
        | IParsing => fail int_parsing
        | ISize => fail int_parsing_size
        end
    | _ => fail int_type
    end.

(** [Field(ge=0)] *)
Definition ge_0_float (v : Validator spec_float) : Validator spec_float :=
  fun j => and_then (v j)
    (fun f => if float_ge f zero then Ok f else fail greater_than_equal).

Definition ge_0_int (v : Validator Z) : Validator Z :=
  fun j => and_then (v j)
    (fun z => if (0 <=? z)%Z then Ok z else fail greater_than_equal).

(** [Optional[T]] *)
Definition optional {A : Type} (v : Validator A) : Validator (option A) :=
  fun j =>
    match j with
    | JNull => Ok None
    | _ => and_then (v j) (fun a => Ok (Some a))
    end.

Fixpoint validate_items {A : Type} (item : Validator A) (i : nat) (l : list Json)
  : Res (list A) :=
  match l with
  | [] => Ok []
  | j :: r => Ok cons <*> at_loc (LIdx i) (item j) <*> validate_items item (S i) r
  end.

(** [List[T]], with [Field(min_length=...)] when given. *)
Definition list_of {A : Type} (min_length : nat) (item : Validator A)
  : Validator (list A) :=
  fun j =>
    match j with
    | JList l =>
        and_then (validate_items item 0 l)
          (fun v => if (List.length v <? min_length)%nat then fail too_short else Ok v)
    | _ => fail list_type
    end.

Fixpoint validate_entries {A : Type} (value : Validator A) (m : list (string * Json))
  : Res (list (string * A)) :=
  match m with
  | [] => Ok []
  | (k, j) :: r =>
      Ok (fun a t => (k, a) :: t) <*> at_loc (LKey k) (value j)
        <*> validate_entries value r
  end.

(** [Dict[str, T]] *)
Definition dict_of {A : Type} (value : Validator A) : Validator (list (string * A)) :=
  fun j =>
    match j with
    | JMap m => validate_entries value m
    | _ => fail dict_type
    end.

(** What pydantic's smart mode knows of a member that validates: how many
    of its fields the input sets, and whether every value was taken as an
    instance of its declared type, with no conversion. *)
Record Match : Type := mkMatch {
  fields_set : nat;
  exact : bool
}.

(** A field counts as set when the dict gives it, by alias or by name, but
    not when it gives it under both: pydantic counts the names of the fields
    set that are not names of extra entries as well, and the entry under the
    name is an extra one when the alias is there. *)
Definition counts_as_set (m : list (string * Json)) (f : string * string) : bool :=
  match lookup (fst f) m, lookup (snd f) m with
  | Some _, Some _ => fst f =? snd f
  | Some _, None => true
  | None, Some _ => true
  | None, None => false
  end.

Definition fields_set_count (fields : list (string * string)) (j : Json) : nat :=
  match j with
  | JMap m => List.length (filter (counts_as_set m) fields)
  | _ => 0
  end.

(** The right member is the better match: it sets more fields or, with as
    many fields set, it is exact and the left one is not. *)
Definition right_is_better (l r : Match) : bool :=
  (fields_set l <? fields_set r)%nat
  || ((fields_set l =? fields_set r)%nat && exact r && negb (exact l)).

(** [Union[A, B]] in smart mode: every member is tried, from the left.  Of
    two members that validate the better match is kept, and the left one
    when none is better; when none validates, the errors of both are
    reported, each under the label of its member. *)
Definition union {A B : Type}
  (tag_a : string) (a : Validator A) (match_a : Json -> Match)
  (tag_b : string) (b : Validator B) (match_b : Json -> Match)
  : Validator (A + B) :=
  fun j =>
    match a j with
    | Ok x =>
        match b j with
        | Ok y => if right_is_better (match_a j) (match_b j) then Ok (inr y) else Ok (inl x)
        | Raised e => Raised e
        | Invalid _ => Ok (inl x)
        end
    | Raised e => Raised e
    | Invalid ea =>
        match b j with
        | Ok y => Ok (inr y)
        | Raised e => Raised e
        | Invalid eb =>
            Invalid (map (prefix_loc (LKey tag_a)) ea ++ map (prefix_loc (LKey tag_b)) eb)
        end
    end.

(** [@field_validator(..., mode='after')] *)
Definition field_validator {A : Type} (v : Validator A) (f : A -> Res A) : Validator A :=
  fun j => and_then (v j) f.

(* ================================================================== *)
(** * validate_unique_items *)
(* ================================================================== *)

(** What [validate_unique_items] needs of a list item: the value it is
    looked up by in [seen], and the outcome of
    [sorted([str(d) for d in set(duplicates_found)])]. *)
Class PyItem (A : Type) : Type := {
  hashable_item : A -> Json;
  distinct_duplicates_repr : list A -> Res (list string)
}.

(** A model is looked up by [item.model_dump_json()]; the serialised text is
    represented by the tree it denotes.  (Serialising a model that was built
    from a decoded document does not raise, so the fallback to [str(item)]
    under [except TypeError] is never taken.) *)
Class BaseModel (A : Type) : Type := {
  model_dump_json : A -> Json
}.

(** A string is its own key, and strings can be put in a set. *)
#[global] Instance str_PyItem : PyItem string := {
  hashable_item := JStr;
  distinct_duplicates_repr := fun ds => Ok (sorted (py_set ds))
}.

(** The models of this module are not frozen, so pydantic gives them
    [__eq__] and no [__hash__]: [set(duplicates_found)] raises [TypeError],
    which is none of the exceptions a field validator may raise to report
    an error. *)
Definition unhashable {A : Type} (ds : list A) : Res (list string) :=
  Raised (TypeError "unhashable type").

#[global] Instance BaseModel_PyItem {A : Type} `{BaseModel A} : PyItem A := {
  hashable_item := model_dump_json;
  distinct_duplicates_repr := unhashable
}.

#[global] Instance Union_BaseModel {A B : Type} `{BaseModel A} `{BaseModel B}
  : BaseModel (A + B) := {
  model_dump_json := fun x =>
    match x with
    | inl a => model_dump_json a
    | inr b => model_dump_json b
    end
}.

Definition in_seen (h : Json) (seen : list Json) : bool :=
  existsb (Json_eqb h) seen.

(** The loop of [validate_unique_items]: the items whose key was seen
    before, in list order. *)
Fixpoint duplicates_found {A : Type} `{PyItem A} (seen : list Json) (v : list A)
  : list A :=
  match v with
  | [] => []
  | item :: r =>
      let hashable := hashable_item item in
      if in_seen hashable seen
      then item :: duplicates_found seen r
      else duplicates_found (hashable :: seen) r
  end.

Definition validate_unique_items {A : Type} `{PyItem A} (v : list A)
  (field_name : string) : Res (list A) :=
  match duplicates_found [] v with
  | [] => Ok v
  | ds =>
      and_then (distinct_duplicates_repr ds)
        (fun repr => fail (value_error (must_contain_unique_items field_name repr)))
  end.

(** The shape shared by the uniqueness validators of optional lists:
    [if v is not None: validate_unique_items(v, name)] and [return v]. *)
Definition unique_if_present {A : Type} `{PyItem A} (field_name : string)
  (v : option (list A)) : Res (option (list A)) :=
  match v with
  | Some l => and_then (validate_unique_items l field_name) (fun _ => Ok v)
  | None => Ok v
  end.

(** The loop of the identifier-keyed validators: the identifiers seen
    before, in list order. *)
Fixpoint duplicate_ids (seen : list string) (ids : list string) : list string :=
  match ids with
  | [] => []
  | x :: r =>
      if str_in x seen then x :: duplicate_ids seen r
      else duplicate_ids (x :: seen) r
  end.

(** The shape shared by [validate_steps_uniqueness],
    [validate_workflows_uniqueness] and
    [validate_source_descriptions_uniqueness]. *)
Definition unique_ids `{SetOrder} {A : Type} (list_name : string) (id : A -> string)
  (v : list A) : Res (list A) :=
  let ids := map id v in
  if negb (List.length ids =? List.length (py_set ids))%nat
  then fail (value_error
               (must_contain_unique_ids list_name
                  (iteration (py_set (duplicate_ids [] ids)))))
  else Ok v.

(** The serialised form of a float: the non-finite ones are written
    [null]. *)
Definition dump_float (f : spec_float) : Json :=
  match f with
  | S754_nan | S754_infinity _ => JNull
  | _ => JFloat f
  end.

(** The serialised form of a value of type [Any]. *)
Fixpoint dump_any (j : Json) : Json :=
  match j with
  | JFloat f => dump_float f
  | JList l => JList (map dump_any l)
  | JMap m => JMap (map (fun '(k, v) => (k, dump_any v)) m)
  | _ => j
  end.

(** The serialised form of the entries kept under [extra='allow']. *)
Definition dump_extra (extra : list (string * Json)) : list (string * Json) :=
  map (fun '(k, v) => (k, dump_any v)) extra.

Definition dump_str (o : option string) : Json :=
  match o with
  | Some s => JStr s
  | None => JNull
  end.

Definition dump_opt {A : Type} (f : A -> Json) (o : option A) : Json :=
  match o with
  | Some a => f a
  | None => JNull
  end.

(* ================================================================== *)
(** * The models *)
(* ================================================================== *)

Module Info.
Record t : Type := mk {
  title : string;
  summary : option string;
  description : option string;
  version : string;
  model_extra : list (string * Json)
}.

Definition fields : list (string * string) :=
  map camel ["title"; "summary"; "description"; "version"].

Definition model_validate : Validator t :=
  model (fun m =>
    Ok mk
      <*> required "title" str m
      <*> default "summary" None (optional str) m
      <*> default "description" None (optional str) m
      <*> required "version" str m
      <*> Ok (extras fields m)).
End Info.

Module SourceDescription.
Inductive SourceType : Type := ARAZZO | OPENAPI.

Definition SourceType_members : list (string * SourceType) :=
  [("arazzo", ARAZZO); ("openapi", OPENAPI)].

Record t : Type := mk {
  name : string;
  url : string;
  type : option SourceType;
  model_extra : list (string * Json)
}.

Definition name_class (c : ascii) : bool :=
  is_upper c || is_lower c || is_digit c
  || (code c =? 95)%nat || (code c =? 92)%nat || (code c =? 45)%nat.

(** [pattern=r"^[A-Za-z0-9_\\-]+$"]: in the raw string the class lists the
    letters, the digits, [_], an escaped backslash and [-]. *)
Definition name_pattern (s : string) : bool :=
  negb (s =? "") && string_forallb name_class s.

Definition validate_uri_reference (v : string) : Res string :=
  if string_existsb is_space v
  then fail (value_error url_must_not_contain_whitespace)
  else Ok v.

Definition fields : list (string * string) := map camel ["name"; "url"; "type"].

Definition model_validate : Validator t :=
  model (fun m =>
    Ok mk
      <*> required "name" (pattern name_pattern) m
      <*> required "url" (field_validator str validate_uri_reference) m
      <*> default "type" None (optional (enumeration SourceType_members)) m
      <*> Ok (extras fields m)).
End SourceDescription.

Module Schema.
(** [RootModel] with [root: Dict[str, Any]] *)
Definition t : Type := list (string * Json).

Definition model_validate : Validator t := dict_of any.
End Schema.

Module ReusableObject.
Record t : Type := mk {
  reference : string;
  value : option Json;
  model_extra : list (string * Json)
}.

Definition fields : list (string * string) := map camel ["reference"; "value"].

Definition model_validate : Validator t :=
  model (fun m =>
    Ok mk
      <*> required "reference" str m
      <*> default "value" None (optional any) m
      <*> Ok (extras fields m)).

(** As a member of a union: both fields take any [str] and any value as
    they are. *)
Definition smart_match (j : Json) : Match :=
  mkMatch (fields_set_count fields j) true.

#[global] Instance dump : BaseModel t := {
  model_dump_json := fun self =>
    JMap ([("reference", JStr (reference self));
           ("value", dump_opt dump_any (value self))]
          ++ dump_extra (model_extra self))
}.
End ReusableObject.

(** The class [Parameter]; the name is reserved here, so the module takes
    the name of the schema definition it corresponds to. *)
Module ParameterObject.
Inductive InLocation : Type := PATH | QUERY | HEADER | COOKIE.

Definition InLocation_members : list (string * InLocation) :=
  [("path", PATH); ("query", QUERY); ("header", HEADER); ("cookie", COOKIE)].

Definition InLocation_value (l : InLocation) : string :=
  match l with
  | PATH => "path"
  | QUERY => "query"
  | HEADER => "header"
  | COOKIE => "cookie"
  end.

Record t : Type := mk {
  name : string;
  in_ : option InLocation;
  value : Json;
  model_extra : list (string * Json)
}.

Definition fields : list (string * string) :=
  [camel "name"; ("in", "in_"); camel "value"].

Definition model_validate : Validator t :=
  model (fun m =>
    Ok mk
      <*> required "name" str m
      <*> default_as "in" "in_" None (optional (enumeration InLocation_members)) m
      <*> required "value" any m
      <*> Ok (extras fields m)).

(** As a member of a union: the location tag is an enumeration member read
    from its value, a conversion; the other fields are taken as they are. *)
Definition smart_match (j : Json) : Match :=
  mkMatch (fields_set_count fields j)
    (match j with
     | JMap m =>
         match find_field "in" "in_" m with
         | Some (_, JStr _) => false
         | _ => true
         end
     | _ => true
     end).

#[global] Instance dump : BaseModel t := {
  model_dump_json := fun self =>
    JMap ([("name", JStr (name self));
           ("in_", dump_opt (fun l => JStr (InLocation_value l)) (in_ self));
           ("value", dump_any (value self))]
          ++ dump_extra (model_extra self))
}.
End ParameterObject.

Module PayloadReplacement.
Record t : Type := mk {
  target : string;
  value : string;
  model_extra : list (string * Json)
}.

Definition fields : list (string * string) := map camel ["target"; "value"].

Definition model_validate : Validator t :=
  model (fun m =>
    Ok mk
      <*> required "target" str m
      <*> required "value" str m
      <*> Ok (extras fields m)).

#[global] Instance dump : BaseModel t := {
  model_dump_json := fun self =>
    JMap ([("target", JStr (target self)); ("value", JStr (value self))]
          ++ dump_extra (model_extra self))
}.
End PayloadReplacement.

Module RequestBody.
Record t : Type := mk {
  content_type : option string;
  payload : option Json;
  replacements : option (list PayloadReplacement.t);
  model_extra : list (string * Json)
}.

Definition validate_replacements_uniqueness
  (v : option (list PayloadReplacement.t)) : Res (option (list PayloadReplacement.t)) :=
  unique_if_present "replacements" v.

Definition fields : list (string * string) :=
  map camel ["content_type"; "payload"; "replacements"].

Definition model_validate : Validator t :=
  model (fun m =>
    Ok mk
      <*> default "content_type" None (optional str) m
      <*> default "payload" None (optional any) m
      <*> default "replacements" None
            (field_validator (optional (list_of 0 PayloadReplacement.model_validate))
                             validate_replacements_uniqueness) m
      <*> Ok (extras fields m)).
End RequestBody.

Module CriterionExpressionType.
Inductive ExpressionType : Type := JSONPATH | XPATH.

Definition ExpressionType_members : list (string * ExpressionType) :=
  [("jsonpath", JSONPATH); ("xpath", XPATH)].

Definition ExpressionType_value (e : ExpressionType) : string :=
  match e with
  | JSONPATH => "jsonpath"
  | XPATH => "xpath"
  end.

Definition ExpressionType_eqb (a b : ExpressionType) : bool :=
  ExpressionType_value a =? ExpressionType_value b.

Inductive JsonPathVersion : Type := DRAFT_GOESSNER.

Definition JsonPathVersion_value (v : JsonPathVersion) : string :=
  match v with
  | DRAFT_GOESSNER => "draft-goessner-dispatch-jsonpath-00"
  end.

Inductive XPathVersion : Type := XPATH_1_0 | XPATH_2_0 | XPATH_3_0.

Definition XPathVersion_value (v : XPathVersion) : string :=
  match v with
  | XPATH_1_0 => "xpath-10"
  | XPATH_2_0 => "xpath-20"
  | XPATH_3_0 => "xpath-30"
  end.

Record t : Type := mk {
  type : ExpressionType;
  version : string;
  model_extra : list (string * Json)
}.

Definition check_conditional_version (self : t) : Res t :=
  if ExpressionType_eqb (type self) JSONPATH
     && negb (version self =? JsonPathVersion_value DRAFT_GOESSNER)
  then fail (PydanticCustomError "invalid_jsonpath_version"
               [("required_version", CStr (JsonPathVersion_value DRAFT_GOESSNER))])
  else if ExpressionType_eqb (type self) XPATH
          && negb (str_in (version self)
                     [XPathVersion_value XPATH_1_0; XPathVersion_value XPATH_2_0;
                      XPathVersion_value XPATH_3_0])
  then fail (PydanticCustomError "invalid_xpath_version"
               [("allowed_versions",
                 CStr (String.concat ", "
                         (map XPathVersion_value [XPATH_1_0; XPATH_2_0; XPATH_3_0])))])
  else Ok self.

Definition fields : list (string * string) := map camel ["type"; "version"].

Definition validate_fields : Validator t :=
  model (fun m =>
    Ok mk
      <*> required "type" (enumeration ExpressionType_members) m
      <*> required "version" str m
      <*> Ok (extras fields m)).

(** The fields first, then the [@model_validator(mode='after')]. *)
Definition model_validate : Validator t :=
  fun j => and_then (validate_fields j) check_conditional_version.

(** As a member of a union: [type] is an enumeration member read from its
    value, a conversion. *)
Definition smart_match (j : Json) : Match :=
  mkMatch (fields_set_count fields j) false.

#[global] Instance dump : BaseModel t := {
  model_dump_json := fun self =>
    JMap ([("type", JStr (ExpressionType_value (type self)));
           ("version", JStr (version self))]
          ++ dump_extra (model_extra self))
}.
End CriterionExpressionType.

Module Criterion.
Inductive ConditionType : Type := SIMPLE | REGEX | JSONPATH | XPATH.

Definition ConditionType_members : list (string * ConditionType) :=
  [("simple", SIMPLE); ("regex", REGEX); ("jsonpath", JSONPATH); ("xpath", XPATH)].

Definition ConditionType_value (c : ConditionType) : string :=
  match c with
  | SIMPLE => "simple"
  | REGEX => "regex"
  | JSONPATH => "jsonpath"
  | XPATH => "xpath"
  end.

Record t : Type := mk {
  context : option string;
  condition : string;
  type : ConditionType + CriterionExpressionType.t;
  model_extra : list (string * Json)
}.

(** [isinstance(self.type, str) and self.type in [JSONPATH, XPATH]] *)
Definition is_expression_tag (ty : ConditionType + CriterionExpressionType.t) : bool :=
  match ty with
  | inl c => str_in (ConditionType_value c)
               [ConditionType_value JSONPATH; ConditionType_value XPATH]
  | inr _ => false
  end.

(** [isinstance(self.type, CriterionExpressionType)] *)
Definition is_expression_object (ty : ConditionType + CriterionExpressionType.t) : bool :=
  match ty with
  | inl _ => false
  | inr _ => true
  end.

Definition type_value (ty : ConditionType + CriterionExpressionType.t) : string :=
  match ty with
  | inl c => ConditionType_value c
  | inr e => CriterionExpressionType.ExpressionType_value (CriterionExpressionType.type e)
  end.

Definition check_dependent_required (self : t) : Res t :=
  if (is_expression_tag (type self) || is_expression_object (type self))
     && is_None (context self)
  then fail (PydanticCustomError "missing_context_for_expression_type"
               [("type_value", CStr (type_value (type self)))])
  else Ok self.

Definition fields : list (string * string) := map camel ["context"; "condition"; "type"].

Definition validate_fields : Validator t :=
  model (fun m =>
    Ok mk
      <*> default "context" None (optional str) m
      <*> required "condition" str m
      <*> default "type" (inl SIMPLE)
            (union "str-enum[Criterion.ConditionType]"
                   (enumeration ConditionType_members) (fun _ => mkMatch 0 false)
                   "function-after[check_conditional_version(), CriterionExpressionType]"
                   CriterionExpressionType.model_validate
                   CriterionExpressionType.smart_match) m
      <*> Ok (extras fields m)).

(** The fields first, then the [@model_validator(mode='after')]. *)
Definition model_validate : Validator t :=
  fun j => and_then (validate_fields j) check_dependent_required.

#[global] Instance dump : BaseModel t := {
  model_dump_json := fun self =>
    JMap ([("context", dump_str (context self));
           ("condition", JStr (condition self));
           ("type", match type self with
                    | inl c => JStr (ConditionType_value c)
                    | inr e => model_dump_json e
                    end)]
          ++ dump_extra (model_extra self))
}.
End Criterion.

Module SuccessAction.
Inductive ActionType : Type := END | GOTO.

Definition ActionType_members : list (string * ActionType) :=
  [("end", END); ("goto", GOTO)].

Definition ActionType_value (a : ActionType) : string :=
  match a with
  | END => "end"
  | GOTO => "goto"
  end.

Definition ActionType_eqb (a b : ActionType) : bool :=
  ActionType_value a =? ActionType_value b.

Record t : Type := mk {
  name : string;
  type : ActionType;
  workflow_id : option string;
  step_id : option string;
  criteria : option (list Criterion.t);
  model_extra : list (string * Json)
}.

Definition validate_criteria_uniqueness (v : option (list Criterion.t))
  : Res (option (list Criterion.t)) :=
  unique_if_present "criteria" v.

Definition check_conditional_goto (self : t) : Res t :=
  if ActionType_eqb (type self) GOTO then
    if negb (truthy (workflow_id self) || truthy (step_id self))
    then fail (PydanticCustomError "goto_missing_target"
                 [("type", CStr (ActionType_value (type self)))])
    else if truthy (workflow_id self) && truthy (step_id self)
    then fail (PydanticCustomError "goto_exclusive_target"
                 [("type", CStr (ActionType_value (type self)))])
    else Ok self
  else Ok self.

Definition fields : list (string * string) :=
  map camel ["name"; "type"; "workflow_id"; "step_id"; "criteria"].

Definition validate_fields : Validator t :=
  model (fun m =>
    Ok mk
      <*> required "name" str m
      <*> required "type" (enumeration ActionType_members) m
      <*> default "workflow_id" None (optional str) m
      <*> default "step_id" None (optional str) m
      <*> default "criteria" None
            (field_validator (optional (list_of 1 Criterion.model_validate))
                             validate_criteria_uniqueness) m
      <*> Ok (extras fields m)).

(** The fields first, then the [@model_validator(mode='after')]. *)
Definition model_validate : Validator t :=
  fun j => and_then (validate_fields j) check_conditional_goto.

(** As a member of a union: [type] is an enumeration member read from its
    value, a conversion. *)
Definition smart_match (j : Json) : Match :=
  mkMatch (fields_set_count fields j) false.

#[global] Instance dump : BaseModel t := {
  model_dump_json := fun self =>
    JMap ([("name", JStr (name self));
           ("type", JStr (ActionType_value (type self)));
           ("workflow_id", dump_str (workflow_id self));
           ("step_id", dump_str (step_id self));
           ("criteria", dump_opt (fun l => JList (map model_dump_json l)) (criteria self))]
          ++ dump_extra (model_extra self))
}.
End SuccessAction.

Module FailureAction.
Inductive ActionType : Type := END | GOTO | RETRY.

Definition ActionType_members : list (string * ActionType) :=
  [("end", END); ("goto", GOTO); ("retry", RETRY)].

Definition ActionType_value (a : ActionType) : string :=
  match a with
  | END => "end"
  | GOTO => "goto"
  | RETRY => "retry"
  end.

Definition ActionType_eqb (a b : ActionType) : bool :=
  ActionType_value a =? ActionType_value b.

Record t : Type := mk {
  name : string;
  type : ActionType;
  workflow_id : option string;
  step_id : option string;
  retry_after : option spec_float;
  retry_limit : option Z;
  criteria : option (list Criterion.t);
  model_extra : list (string * Json)
}.

Definition validate_criteria_uniqueness (v : option (list Criterion.t))
  : Res (option (list Criterion.t)) :=
  unique_if_present "criteria" v.

Definition check_conditional_goto_retry (self : t) : Res t :=
  and_then
    (if ActionType_eqb (type self) GOTO || ActionType_eqb (type self) RETRY then
       if negb (truthy (workflow_id self) || truthy (step_id self))
       then fail (PydanticCustomError "goto_retry_missing_target"
                    [("type", CStr (ActionType_value (type self)))])
       else if truthy (workflow_id self) && truthy (step_id self)
       then fail (PydanticCustomError "goto_retry_exclusive_target"
                    [("type", CStr (ActionType_value (type self)))])
       else Ok self
     else Ok self)
    (fun _ =>
       if ActionType_eqb (type self) RETRY then
         if is_None (retry_after self)
         then fail (PydanticCustomError "retry_missing_retry_after"
                      [("type", CStr (ActionType_value (type self)))])
         else Ok self
       else Ok self).

Definition fields : list (string * string) :=
  map camel ["name"; "type"; "workflow_id"; "step_id"; "retry_after"; "retry_limit";
             "criteria"].

Definition validate_fields : Validator t :=
  model (fun m =>
    Ok mk
      <*> required "name" str m
      <*> required "type" (enumeration ActionType_members) m
      <*> default "workflow_id" None (optional str) m
      <*> default "step_id" None (optional str) m
      <*> default "retry_after" None (optional (ge_0_float float)) m
      <*> default "retry_limit" None (optional (ge_0_int int)) m
      <*> default "criteria" None
            (field_validator (optional (list_of 0 Criterion.model_validate))
                             validate_criteria_uniqueness) m
      <*> Ok (extras fields m)).

(** The fields first, then the [@model_validator(mode='after')]. *)
Definition model_validate : Validator t :=
  fun j => and_then (validate_fields j) check_conditional_goto_retry.

(** As a member of a union: [type] is an enumeration member read from its
    value, a conversion. *)
Definition smart_match (j : Json) : Match :=
  mkMatch (fields_set_count fields j) false.

#[global] Instance dump : BaseModel t := {
  model_dump_json := fun self =>
    JMap ([("name", JStr (name self));
           ("type", JStr (ActionType_value (type self)));
           ("workflow_id", dump_str (workflow_id self));
           ("step_id", dump_str (step_id self));
           ("retry_after", dump_opt dump_float (retry_after self));
           ("retry_limit", dump_opt JInt (retry_limit self));
           ("criteria", dump_opt (fun l => JList (map model_dump_json l)) (criteria self))]
          ++ dump_extra (model_extra self))
}.
End FailureAction.

(** [Union['Parameter', 'ReusableObject']] and the two unions of an action
    with a [ReusableObject], the item types of the lists of [Step] and
    [Workflow]. *)
Definition Parameter_or_ReusableObject
  : Validator (ParameterObject.t + ReusableObject.t) :=
  union "Parameter" ParameterObject.model_validate ParameterObject.smart_match
        "ReusableObject" ReusableObject.model_validate ReusableObject.smart_match.

Definition SuccessAction_or_ReusableObject
  : Validator (SuccessAction.t + ReusableObject.t) :=
  union "function-after[check_conditional_goto(), SuccessAction]"
        SuccessAction.model_validate SuccessAction.smart_match
        "ReusableObject" ReusableObject.model_validate ReusableObject.smart_match.

Definition FailureAction_or_ReusableObject
  : Validator (FailureAction.t + ReusableObject.t) :=
  union "function-after[check_conditional_goto_retry(), FailureAction]"
        FailureAction.model_validate FailureAction.smart_match
        "ReusableObject" ReusableObject.model_validate ReusableObject.smart_match.

Module Step.
Record t : Type := mk {
  step_id : string;
  description : option string;
  operation_id : option string;
  operation_path : option string;
  workflow_id : option string;
  parameters : option (list (ParameterObject.t + ReusableObject.t));
  request_body : option RequestBody.t;
  success_criteria : option (list Criterion.t);
  on_success : option (list (SuccessAction.t + ReusableObject.t));
  on_failure : option (list (FailureAction.t + ReusableObject.t));
  outputs : option (list (string * string));
  model_extra : list (string * Json)
}.

Definition validate_parameters_uniqueness
  (v : option (list (ParameterObject.t + ReusableObject.t))) :=
  unique_if_present "parameters" v.

Definition validate_success_criteria_uniqueness (v : option (list Criterion.t)) :=
  unique_if_present "success_criteria" v.

Definition validate_on_success_uniqueness
  (v : option (list (SuccessAction.t + ReusableObject.t))) :=
  unique_if_present "on_success" v.

Definition validate_on_failure_uniqueness
  (v : option (list (FailureAction.t + ReusableObject.t))) :=
  unique_if_present "on_failure" v.

(** The loop over [enumerate(self.parameters)] of an operation step: the
    error it raises, if any.  An entry is a [Parameter] or a
    [ReusableObject] by its type, so the branch for any other kind of entry
    is never taken. *)
Fixpoint check_operation_parameters (i : nat)
  (params : list (ParameterObject.t + ReusableObject.t)) : option ErrorKind :=
  match params with
  | [] => None
  | inl param :: r =>
      if is_None (ParameterObject.in_ param)
      then Some (PydanticCustomError "parameter_in_required_for_operation"
                   [("parameter_index", CNat i)])
      else check_operation_parameters (S i) r
  | inr _ :: r => check_operation_parameters (S i) r
  end.

Definition check_conditional_step_target (self : t) : Res t :=
  let target_fields := [operation_id self; operation_path self; workflow_id self] in
  let present_targets := filter (fun t => negb (is_None t)) target_fields in
  if (List.length present_targets =? 0)%nat
  then fail (PydanticCustomError "step_missing_target_type" [])
  else if (1 <? List.length present_targets)%nat
  then fail (PydanticCustomError "step_exclusive_target_type" [])
  else if truthy_list (parameters self) then
    if truthy (operation_id self) || truthy (operation_path self) then
      match check_operation_parameters 0
              (match parameters self with Some l => l | None => [] end) with
      | Some e => fail e
      | None => Ok self
      end
    else if truthy (workflow_id self) then
      (* every entry is a Parameter or a ReusableObject: nothing is raised *)
      Ok self
    else Ok self
  else Ok self.

Definition fields : list (string * string) :=
  map camel ["step_id"; "description"; "operation_id"; "operation_path"; "workflow_id";
             "parameters"; "request_body"; "success_criteria"; "on_success";
             "on_failure"; "outputs"].

Definition validate_fields : Validator t :=
  model (fun m =>
    Ok mk
      <*> required "step_id" str m
      <*> default "description" None (optional str) m
      <*> default "operation_id" None (optional str) m
      <*> default "operation_path" None (optional str) m
      <*> default "workflow_id" None (optional str) m
      <*> default "parameters" None
            (field_validator
               (optional (list_of 0 Parameter_or_ReusableObject))
               validate_parameters_uniqueness) m
      <*> default "request_body" None (optional RequestBody.model_validate) m
      <*> default "success_criteria" None
            (field_validator (optional (list_of 1 Criterion.model_validate))
                             validate_success_criteria_uniqueness) m
      <*> default "on_success" None
            (field_validator
               (optional (list_of 0 SuccessAction_or_ReusableObject))
               validate_on_success_uniqueness) m
      <*> default "on_failure" None
            (field_validator
               (optional (list_of 0 FailureAction_or_ReusableObject))
               validate_on_failure_uniqueness) m
      <*> default "outputs" None (optional (dict_of str)) m
      <*> Ok (extras fields m)).

(** The fields first, then the [@model_validator(mode='after')]. *)
Definition model_validate : Validator t :=
  fun j => and_then (validate_fields j) check_conditional_step_target.
End Step.

Module Workflow.
Record t : Type := mk {
  workflow_id : string;
  summary : option string;
  description : option string;
  inputs : option Schema.t;
  depends_on : option (list string);
  steps : list Step.t;
  success_actions : option (list (SuccessAction.t + ReusableObject.t));
  failure_actions : option (list (FailureAction.t + ReusableObject.t));
  outputs : option (list (string * string));
  parameters : option (list (ParameterObject.t + ReusableObject.t));
  model_extra : list (string * Json)
}.

Definition validate_depends_on_uniqueness (v : option (list string)) :=
  unique_if_present "depends_on" v.

Definition validate_steps_uniqueness `{SetOrder} (v : list Step.t) : Res (list Step.t) :=
  unique_ids "steps" Step.step_id v.

Definition validate_success_actions_uniqueness
  (v : option (list (SuccessAction.t + ReusableObject.t))) :=
  unique_if_present "success_actions" v.

Definition validate_failure_actions_uniqueness
  (v : option (list (FailureAction.t + ReusableObject.t))) :=
  unique_if_present "failure_actions" v.

Definition validate_workflow_parameters_uniqueness
  (v : option (list (ParameterObject.t + ReusableObject.t))) :=
  unique_if_present "parameters" v.

Definition fields : list (string * string) :=
  map camel ["workflow_id"; "summary"; "description"; "inputs"; "depends_on"; "steps";
             "success_actions"; "failure_actions"; "outputs"; "parameters"].

Definition model_validate `{SetOrder} : Validator t :=
  model (fun m =>
    Ok mk
      <*> required "workflow_id" str m
      <*> default "summary" None (optional str) m
      <*> default "description" None (optional str) m
      <*> default "inputs" None (optional Schema.model_validate) m
      <*> default "depends_on" None
            (field_validator (optional (list_of 0 str)) validate_depends_on_uniqueness) m
      <*> required "steps"
            (field_validator (list_of 1 Step.model_validate) validate_steps_uniqueness) m
      <*> default "success_actions" None
            (field_validator
               (optional (list_of 0 SuccessAction_or_ReusableObject))
               validate_success_actions_uniqueness) m
      <*> default "failure_actions" None
            (field_validator
               (optional (list_of 0 FailureAction_or_ReusableObject))
               validate_failure_actions_uniqueness) m
      <*> default "outputs" None (optional (dict_of str)) m
      <*> default "parameters" None
            (field_validator
               (optional (list_of 0 Parameter_or_ReusableObject))
               validate_workflow_parameters_uniqueness) m
      <*> Ok (extras fields m)).
End Workflow.

Module Components.
Record t : Type := mk {
  inputs : option (list (string * Schema.t));
  parameters : option (list (string * ParameterObject.t));
  success_actions : option (list (string * SuccessAction.t));
  failure_actions : option (list (string * FailureAction.t));
  model_extra : list (string * Json)
}.

Definition fields : list (string * string) :=
  map camel ["inputs"; "parameters"; "success_actions"; "failure_actions"].

Definition model_validate : Validator t :=
  model (fun m =>
    Ok mk
      <*> default "inputs" None (optional (dict_of Schema.model_validate)) m
      <*> default "parameters" None (optional (dict_of ParameterObject.model_validate)) m
      <*> default "success_actions" None
            (optional (dict_of SuccessAction.model_validate)) m
      <*> default "failure_actions" None
            (optional (dict_of FailureAction.model_validate)) m
      <*> Ok (extras fields m)).
End Components.

Module ArazzoSpecification.
Record t : Type := mk {
  arazzo : string;
  info : Info.t;
  source_descriptions : list SourceDescription.t;
  workflows : list Workflow.t;
  components : option Components.t;
  model_extra : list (string * Json)
}.

Fixpoint drop_digits (s : string) : string :=
  match s with
  | String c r => if is_digit c then drop_digits r else s
  | EmptyString => s
  end.

Definition not_newline (c : ascii) : bool := negb (code c =? 10)%nat.

(** [pattern=r"^1\.0\.\d+(-.+)?$"] *)
Definition arazzo_pattern (s : string) : bool :=
  match s with
  | String "1" (String "." (String "0" (String "." (String d r)))) =>
      is_digit d
      && match drop_digits r with
         | EmptyString => true
         | String "-" (String c t) => string_forallb not_newline (String c t)
         | _ => false
         end
  | _ => false
  end.

Definition validate_source_descriptions_uniqueness `{SetOrder}
  (v : list SourceDescription.t)
  : Res (list SourceDescription.t) :=
  unique_ids "source_descriptions" SourceDescription.name v.

Definition validate_workflows_uniqueness `{SetOrder} (v : list Workflow.t)
  : Res (list Workflow.t) :=
  unique_ids "workflows" Workflow.workflow_id v.

Definition fields : list (string * string) :=
  map camel ["arazzo"; "info"; "source_descriptions"; "workflows"; "components"].

Definition model_validate `{SetOrder} : Validator t :=
  model (fun m =>
    Ok mk
      <*> required "arazzo" (pattern arazzo_pattern) m
      <*> required "info" Info.model_validate m
      <*> required "source_descriptions"
            (field_validator (list_of 1 SourceDescription.model_validate)
                             validate_source_descriptions_uniqueness) m
      <*> required "workflows"
            (field_validator (list_of 1 Workflow.model_validate)
                             validate_workflows_uniqueness) m
      <*> default "components" None (optional Components.model_validate) m
      <*> Ok (extras fields m)).
End ArazzoSpecification.

Definition validate_arazzo_data `{SetOrder} (data : Json) : Res ArazzoSpecification.t :=
  ArazzoSpecification.model_validate data.

(* ================================================================== *)
(** * The objects of a validated document *)
(* ================================================================== *)

(** [x] is a value that the validator [v] returns. *)
Definition validated {A : Type} (v : Validator A) (x : A) : Prop :=
  exists j, v j = Ok x.

Definition opt_list {A : Type} (o : option (list A)) : list A :=
  match o with
  | Some l => l
  | None => []
  end.

(** The left members of a list of union values. *)
Definition lefts {A B : Type} (l : list (A + B)) : list A :=
  flat_map (fun x => match x with inl a => [a] | inr _ => [] end) l.

Definition steps_of (doc : ArazzoSpecification.t) : list Step.t :=
  flat_map Workflow.steps (ArazzoSpecification.workflows doc).

Definition components_of (doc : ArazzoSpecification.t) : list Components.t :=
  match ArazzoSpecification.components doc with
  | Some c => [c]
  | None => []
  end.

Definition success_actions_of (doc : ArazzoSpecification.t) : list SuccessAction.t :=
  flat_map (fun s => lefts (opt_list (Step.on_success s))) (steps_of doc)
  ++ flat_map (fun w => lefts (opt_list (Workflow.success_actions w)))
       (ArazzoSpecification.workflows doc)
  ++ flat_map (fun c => map snd (opt_list (Components.success_actions c)))
       (components_of doc).

Definition failure_actions_of (doc : ArazzoSpecification.t) : list FailureAction.t :=
  flat_map (fun s => lefts (opt_list (Step.on_failure s))) (steps_of doc)
  ++ flat_map (fun w => lefts (opt_list (Workflow.failure_actions w)))
       (ArazzoSpecification.workflows doc)
  ++ flat_map (fun c => map snd (opt_list (Components.failure_actions c)))
       (components_of doc).

Definition criteria_of (doc : ArazzoSpecification.t) : list Criterion.t :=
  flat_map (fun s => opt_list (Step.success_criteria s)) (steps_of doc)
  ++ flat_map (fun a => opt_list (SuccessAction.criteria a)) (success_actions_of doc)
  ++ flat_map (fun a => opt_list (FailureAction.criteria a)) (failure_actions_of doc).

(** The [CriterionExpressionType] objects of a document: the ones that are
    the [type] of one of its criteria. *)
Definition expression_types_of (doc : ArazzoSpecification.t)
  : list CriterionExpressionType.t :=
  flat_map (fun c => match Criterion.type c with inr e => [e] | inl _ => [] end)
    (criteria_of doc).

(* ================================================================== *)
(** * What validation establishes *)
(* ================================================================== *)

(** An optional list whose items went through [item], no two of them with
    the same key, and with at least [n] items when it is present. *)
Definition unique_list {A : Type} `{PyItem A} (item : Validator A) (n : nat)
  (o : option (list A)) : Prop :=
  Forall (validated item) (opt_list o)
  /\ NoDup (map hashable_item (opt_list o))
  /\ match o with Some l => (n <= List.length l)%nat | None => True end.

(** A list whose items went through [item], no two of them with the same
    identifier, and with at least [n] items. *)
Definition unique_by {A : Type} (item : Validator A) (id : A -> string) (n : nat)
  (l : list A) : Prop :=
  Forall (validated item) l /\ NoDup (map id l) /\ (n <= List.length l)%nat.

Record SuccessAction_ok (a : SuccessAction.t) : Prop := {
  sa_check : SuccessAction.check_conditional_goto a = Ok a;
  sa_criteria : unique_list Criterion.model_validate 1 (SuccessAction.criteria a)
}.

Record FailureAction_ok (a : FailureAction.t) : Prop := {
  fa_check : FailureAction.check_conditional_goto_retry a = Ok a;
  fa_retry_after :
    match FailureAction.retry_after a with
    | Some f => float_ge f zero = true
    | None => True
    end;
  fa_retry_limit :
    match FailureAction.retry_limit a with
    | Some z => (0 <= z)%Z
    | None => True
    end;
  fa_criteria : unique_list Criterion.model_validate 0 (FailureAction.criteria a)
}.

Record Step_ok (s : Step.t) : Prop := {
  step_check : Step.check_conditional_step_target s = Ok s;
  step_parameters : unique_list Parameter_or_ReusableObject 0 (Step.parameters s);
  step_request_body :
    match Step.request_body s with
    | Some b => unique_list PayloadReplacement.model_validate 0 (RequestBody.replacements b)
    | None => True
    end;
  step_success_criteria : unique_list Criterion.model_validate 1 (Step.success_criteria s);
  step_on_success : unique_list SuccessAction_or_ReusableObject 0 (Step.on_success s);
  step_on_failure : unique_list FailureAction_or_ReusableObject 0 (Step.on_failure s)
}.

Record Workflow_ok (w : Workflow.t) : Prop := {
  wf_depends_on : unique_list str 0 (Workflow.depends_on w);
  wf_steps : unique_by Step.model_validate Step.step_id 1 (Workflow.steps w);
  wf_success_actions :
    unique_list SuccessAction_or_ReusableObject 0 (Workflow.success_actions w);
  wf_failure_actions :
    unique_list FailureAction_or_ReusableObject 0 (Workflow.failure_actions w);
  wf_parameters : unique_list Parameter_or_ReusableObject 0 (Workflow.parameters w)
}.

Record Components_ok (c : Components.t) : Prop := {
  comp_success_actions :
    Forall (validated SuccessAction.model_validate)
      (map snd (opt_list (Components.success_actions c)));
  comp_failure_actions :
    Forall (validated FailureAction.model_validate)
      (map snd (opt_list (Components.failure_actions c)))
}.

Record Document_ok (doc : ArazzoSpecification.t) : Prop := {
  doc_source_descriptions :
    unique_by SourceDescription.model_validate SourceDescription.name 1
      (ArazzoSpecification.source_descriptions doc);
  doc_workflows :
    unique_by Workflow.model_validate Workflow.workflow_id 1
      (ArazzoSpecification.workflows doc);
  doc_components :
    Forall (validated Components.model_validate) (components_of doc)
}.

(* ================================================================== *)
(** * Vocabulary of the specification *)
(* ================================================================== *)

Definition is_set {A : Type} (o : option A) : nat :=
  match o with
  | Some _ => 1
  | None => 0
  end.

(** How many of [operationId], [operationPath] and [workflowId] a step
    sets. *)
Definition targets_set (s : Step.t) : nat :=
  is_set (Step.operation_id s) + is_set (Step.operation_path s)
  + is_set (Step.workflow_id s).

(** The validation does not succeed, and the errors it reports, unless
    another exception ends it first, include [e]. *)
Definition rejects_with {A : Type} (r : Res A) (e : ErrorDetails) : Prop :=
  match r with
  | Ok _ => False
  | Invalid es => In e es
  | Raised _ => True
  end.

(** The node of a decoded document at a path of keys and indices. *)
Fixpoint at_path (p : list LocItem) (j : Json) : option Json :=
  match p with
  | [] => Some j
  | LKey k :: r =>
      match j with
      | JMap m =>
          match lookup k m with
          | Some v => at_path r v
          | None => None
          end
      | _ => None
      end
  | LIdx i :: r =>
      match j with
      | JList l =>
          match nth_error l i with
          | Some v => at_path r v
          | None => None
          end
      | _ => None
      end
  end.

Definition under (p : list LocItem) (e : ErrorDetails) : ErrorDetails :=
  mkError (err_type e) (p ++ err_loc e).

(** The path of step [k] of workflow [i]. *)
Definition step_path (i k : nat) : list LocItem :=
  [LKey "workflows"; LIdx i; LKey "steps"; LIdx k].

(** A plain [Parameter] without location tag. *)
Definition untagged (x : ParameterObject.t + ReusableObject.t) : bool :=
  match x with
  | inl p => is_None (ParameterObject.in_ p)
  | inr _ => false
  end.

(** [i] is the first index of [l] that holds a plain [Parameter] without
    location tag. *)
Definition first_untagged (l : list (ParameterObject.t + ReusableObject.t))
  (i : nat) : Prop :=
  (exists x, nth_error l i = Some x /\ untagged x = true)
  /\ forall i' x, (i' < i)%nat -> nth_error l i' = Some x -> untagged x = false.

Definition parameter_in_required (i : nat) : ErrorKind :=
  PydanticCustomError "parameter_in_required_for_operation" [("parameter_index", CNat i)].

Definition failure_error (kind : string) (a : FailureAction.t) : ErrorKind :=
  PydanticCustomError kind
    [("type", CStr (FailureAction.ActionType_value (FailureAction.type a)))].

(** The resolved type of a criterion is jsonpath or xpath: the plain tag is
    one of the two, or the type is an expression-type object. *)
Definition expression_typed (c : Criterion.t) : bool :=
  match Criterion.type c with
  | inl Criterion.JSONPATH => true
  | inl Criterion.XPATH => true
  | inl _ => false
  | inr _ => true
  end.

Definition missing_context (c : Criterion.t) : ErrorKind :=
  PydanticCustomError "missing_context_for_expression_type"
    [("type_value", CStr (Criterion.type_value (Criterion.type c)))].

Definition invalid_jsonpath_version : ErrorKind :=
  PydanticCustomError "invalid_jsonpath_version"
    [("required_version", CStr "draft-goessner-dispatch-jsonpath-00")].

Definition invalid_xpath_version : ErrorKind :=
  PydanticCustomError "invalid_xpath_version"
    [("allowed_versions", CStr "xpath-10, xpath-20, xpath-30")].

(** The version of an expression type is the one its type admits. *)
Definition version_recognized (e : CriterionExpressionType.t) : Prop :=
  match CriterionExpressionType.type e with
  | CriterionExpressionType.JSONPATH =>
      CriterionExpressionType.version e = "draft-goessner-dispatch-jsonpath-00"
  | CriterionExpressionType.XPATH =>
      In (CriterionExpressionType.version e) ["xpath-10"; "xpath-20"; "xpath-30"]
  end.

(** The name pattern as the specification gives it, [^[A-Za-z0-9_-]+$]:
    a non-empty string of ASCII letters, digits, underscores and hyphens. *)
Definition spec_name_class (c : ascii) : bool :=
  is_upper c || is_lower c || is_digit c
  || (code c =? 95)%nat || (code c =? 45)%nat.

Definition spec_name_pattern (s : string) : bool :=
  negb (s =? "") && string_forallb spec_name_class s.

Definition is_backslash (c : ascii) : bool := (code c =? 92)%nat.

(** ** Editing a decoded mapping *)

(** [del m[k]] *)
Definition remove_key (k : string) (m : list (string * Json)) : list (string * Json) :=
  filter (fun kv => negb (fst kv =? k)) m.

(** [m[k] = v] for a key that [m] has. *)
Fixpoint set_key (k : string) (v : Json) (m : list (string * Json))
  : list (string * Json) :=
  match m with
  | [] => []
  | (k', v') :: r => if k' =? k then (k', v) :: r else (k', v') :: set_key k v r
  end.

(** The document [m] with the key [version] taken out of its [info]. *)
Definition without_info_version (m info : list (string * Json)) : Json :=
  JMap (set_key "info" (JMap (remove_key "version" info)) m).

(** Another order of iteration: the members come out last first. *)
Definition reversed_order : SetOrder := {|
  iteration := @rev string;
  iteration_permutes := fun l => Permutation_sym (Permutation_rev l)
|}.

(** Two calls of [validate_arazzo_data] on the same input, each under the
    set order of its own process, and the two object graphs they return. *)
Definition validate_twice (first second : SetOrder) (data : Json)
  : Res (ArazzoSpecification.t * ArazzoSpecification.t) :=
  and_then (@validate_arazzo_data first data) (fun a =>
  and_then (@validate_arazzo_data second data) (fun b =>
  Ok (a, b))).

(** Whatever [v] validates, [v'] validates to the same value. *)
Definition agree {A : Type} (v v' : Validator A) : Prop :=
  forall j x, v j = Ok x -> v' j = Ok x.

(** The validation returns a report that holds an error of kind [k]. *)
Definition reports_kind {A : Type} (r : Res A) (k : ErrorKind) : Prop :=
  match r with
  | Invalid es => exists e, In e es /\ err_type e = k
  | _ => False
  end.

(** Of two strings, one is empty and the other is not. *)
Definition one_empty (w s : string) : Prop :=
  (w = "" /\ s <> "") \/ (w <> "" /\ s = "").

(** Of the two targets of an action, exactly one is a non-empty string. *)
Definition one_target (w s : option string) : Prop :=
  xorb (truthy w) (truthy s) = true.

Definition success_error (kind : string) (a : SuccessAction.t) : ErrorKind :=
  PydanticCustomError kind
    [("type", CStr (SuccessAction.ActionType_value (SuccessAction.type a)))].

(** A list is in ascending order of [String.leb]. *)
Definition ascending (l : list string) : Prop :=
  Sorted (fun a b => String.leb a b = true) l.

(** [ds] holds, once each, the strings that occur more than once in [l]. *)
Definition duplicates_of (l ds : list string) : Prop :=
  NoDup ds /\ forall x, In x ds <-> (2 <= count_occ string_dec l x)%nat.

(** An identifier-keyed validator: it returns a list whose identifiers are
    distinct, and reports the duplicates of any other list. *)
Definition keyed_by {A : Type} (validate : list A -> Res (list A))
  (list_name : string) (id : A -> string) : Prop :=
  forall v,
    (NoDup (map id v) -> validate v = Ok v)
    /\ (~ NoDup (map id v) ->
        exists ds,
          validate v = fail (value_error (must_contain_unique_ids list_name ds))
          /\ duplicates_of (map id v) ds).

(** The keys under which the fields of a model are read. *)
Definition declared_keys (fields : list (string * string)) : list string :=
  flat_map (fun f => [fst f; snd f]) fields.

(** The document with other extension entries. *)
Definition with_model_extra (doc : ArazzoSpecification.t)
  (extra : list (string * Json)) : ArazzoSpecification.t :=
  ArazzoSpecification.mk
    (ArazzoSpecification.arazzo doc) (ArazzoSpecification.info doc)
    (ArazzoSpecification.source_descriptions doc) (ArazzoSpecification.workflows doc)
    (ArazzoSpecification.components doc) extra.




(** The strings [1.0.N] and [1.0.N-suffix]: [N] is a non-empty run of
    digits and the suffix is not empty and holds no newline. *)
Definition version_form (s : string) : Prop :=
  exists digits rest,
    s = ("1.0." ++ digits ++ rest)%string
    /\ digits <> ""
    /\ string_forallb is_digit digits = true
    /\ (rest = ""
        \/ exists suffix,
             rest = String "-" suffix
             /\ suffix <> ""
             /\ string_forallb ArazzoSpecification.not_newline suffix = true).

(** A source description as the code admits it: the name is made of the
    characters of the class of the code's pattern, and the url holds no
    whitespace. *)
Definition source_well_formed (sd : SourceDescription.t) : Prop :=
  SourceDescription.name_pattern (SourceDescription.name sd) = true
  /\ string_existsb is_space (SourceDescription.url sd) = false.

(** The least a document needs: the version of the specification, an info
    with title and version, one source description, and one workflow with
    one step that names an operation. *)
Definition minimal_document (arazzo title version name url workflow_id step_id
                             operation_id : string) : Json :=
  JMap [("arazzo", JStr arazzo);
        ("info", JMap [("title", JStr title); ("version", JStr version)]);
        ("sourceDescriptions", JList [JMap [("name", JStr name); ("url", JStr url)]]);
        ("workflows",
         JList [JMap [("workflowId", JStr workflow_id);
                      ("steps", JList [JMap [("stepId", JStr step_id);
                                             ("operationId", JStr operation_id)]])]])].

(** The object graph of a minimal document: every optional field is
    [None] and no node has extension entries. *)
Definition minimal_specification (arazzo title version name url workflow_id step_id
                                  operation_id : string) : ArazzoSpecification.t :=
  ArazzoSpecification.mk arazzo
    (Info.mk title None None version [])
    [SourceDescription.mk name url None []]
    [Workflow.mk workflow_id None None None None
       [Step.mk step_id None (Some operation_id) None None None None None None None
                None []]
       None None None None []]
    None [].

(* ================================================================== *)
(** * Sample documents *)
(* ================================================================== *)

(** The documents that [main.py] validates, and variations of them. *)

Definition sample_info : Json :=
  JMap [("title", JStr "Invalid Step Test"); ("version", JStr "1.0.0")].

Definition sample_sources : Json :=
  JList [JMap [("name", JStr "api"); ("url", JStr "http://api.example.com")]].

Definition document (workflows : list Json) : Json :=
  JMap [("arazzo", JStr "1.0.0");
        ("info", sample_info);
        ("sourceDescriptions", sample_sources);
        ("workflows", JList workflows)].

Definition workflow (id : string) (steps : list Json) : Json :=
  JMap [("workflowId", JStr id); ("steps", JList steps)].

Definition step_s1_op1 : Json :=
  JMap [("stepId", JStr "s1"); ("operationId", JStr "op1")].

(** The workflow of [invalid_data_missing_info_version], in a document whose
    [info] is complete. *)
Definition simple_document : Json := document [workflow "simple" [step_s1_op1]].

(** The step of [invalid_step_data]. *)
Definition step_without_target : Json := JMap [("stepId", JStr "s1")].

Definition invalid_step_data : Json :=
  document [workflow "broken_step" [step_without_target]].

(** A step that sets none of the targets, and no stepId either. *)
Definition step_without_id : Json :=
  JMap [("description", JStr "neither an id nor a target")].

Definition step_without_id_data : Json :=
  document [workflow "broken_step" [step_without_id]].

Definition step_with_two_targets : Json :=
  JMap [("stepId", JStr "s1"); ("operationId", JStr "op1");
        ("workflowId", JStr "other")].

Definition two_targets_data : Json :=
  document [workflow "simple" [step_s1_op1; step_with_two_targets]].

Definition untagged_parameter (name : string) : Json :=
  JMap [("name", JStr name); ("value", JStr "abc")].

(** The step of [invalid_step_param_data]. *)
Definition step_param_missing_in : Json :=
  JMap [("stepId", JStr "s1"); ("operationId", JStr "getSomething");
        ("parameters", JList [untagged_parameter "myParam"])].

Definition invalid_step_param_data : Json :=
  document [workflow "broken_param_step" [step_param_missing_in]].

(** The same step with a second parameter that lacks ["in"] too. *)
Definition step_two_untagged : Json :=
  JMap [("stepId", JStr "s1"); ("operationId", JStr "getSomething");
        ("parameters", JList [untagged_parameter "myParam";
                              untagged_parameter "other"])].

(** The same step with an empty [operationId]. *)
Definition step_empty_operation_id : Json :=
  JMap [("stepId", JStr "s1"); ("operationId", JStr "");
        ("parameters", JList [untagged_parameter "myParam"])].

Definition empty_operation_id_data : Json :=
  document [workflow "broken_param_step" [step_empty_operation_id]].

(** The second step of [valid_arazzo_data]: an operation step whose
    parameter names its location. *)
Definition step_get_pet_by_id : Json :=
  JMap [("stepId", JStr "getPetById");
        ("description", JStr "Call to get pet operation");
        ("operationPath", JStr "petstore#/paths/~1pet~1{petId}/get");
        ("parameters",
         JList [JMap [("name", JStr "petId"); ("in", JStr "path");
                      ("value", JStr "$.steps.addPet.outputs.id")]]);
        ("successCriteria",
         JList [JMap [("context", JStr "$.response.body");
                      ("condition", JStr "name == 'Buddy'");
                      ("type", JMap [("type", JStr "jsonpath");
                                     ("version", JStr "draft-goessner-dispatch-jsonpath-00")])]])].

Definition get_pet_data : Json :=
  document [workflow "createPetWorkflow" [step_get_pet_by_id]].

(** Failure actions of type retry. *)
Definition retry_action (rest : list (string * Json)) : Json :=
  JMap ([("name", JStr "retryStep"); ("type", JStr "retry")] ++ rest).

Definition retry_with_delay : Json :=
  retry_action [("stepId", JStr "s1"); ("retryAfter", JFloat (double 3 (-1)))].





Definition step_with_failure_action (action : Json) : Json :=
  JMap [("stepId", JStr "s1"); ("operationId", JStr "op1");
        ("onFailure", JList [action])].

Definition retry_data : Json :=
  document [workflow "simple" [step_with_failure_action retry_with_delay]].

(** Criteria and expression types. *)
Definition criterion_jsonpath_without_context : Json :=
  JMap [("condition", JStr "$.status"); ("type", JStr "jsonpath")].

Definition criterion_object_without_context : Json :=
  JMap [("condition", JStr "//status");
        ("type", JMap [("type", JStr "xpath"); ("version", JStr "xpath-30")])].

Definition jsonpath_unknown_version : Json :=
  JMap [("type", JStr "jsonpath"); ("version", JStr "rfc9535")].

Definition xpath_unknown_version : Json :=
  JMap [("type", JStr "xpath"); ("version", JStr "xpath-40")].

(** Actions with an explicitly empty list of criteria. *)
Definition failure_action_empty_criteria : Json :=
  JMap [("name", JStr "giveUp"); ("type", JStr "end"); ("criteria", JList [])].

Definition success_action_empty_criteria : Json :=
  JMap [("name", JStr "done"); ("type", JStr "end"); ("criteria", JList [])].

Definition empty_failure_criteria_data : Json :=
  document [workflow "simple" [step_with_failure_action failure_action_empty_criteria]].

Definition source_named (name : string) : Json :=
  JMap [("name", JStr name); ("url", JStr "http://api.example.com")].

Definition backslash_name_data : Json :=
  JMap [("arazzo", JStr "1.0.0");
        ("info", sample_info);
        ("sourceDescriptions", JList [source_named "pet\store"]);
        ("workflows", JList [workflow "simple" [step_s1_op1]])].

(** Lists with a repeated entry. *)
Definition query_parameter : Json :=
  JMap [("name", JStr "limit"); ("in", JStr "query"); ("value", JInt 10)].

Definition step_duplicate_parameters : Json :=
  JMap [("stepId", JStr "s1"); ("operationId", JStr "op1");
        ("parameters", JList [query_parameter; query_parameter])].

Definition duplicate_parameters_data : Json :=
  document [workflow "simple" [step_duplicate_parameters]].

Definition duplicate_depends_on_data : Json :=
  document [JMap [("workflowId", JStr "simple");
                  ("dependsOn", JList [JStr "b"; JStr "a"; JStr "b"; JStr "a"; JStr "b"]);
                  ("steps", JList [step_s1_op1])]].

(** [invalid_duplicate_step_id] of [main.py], with a third step. *)
Definition invalid_duplicate_step_id : Json :=
  document [workflow "workflow_with_dup_steps"
              [JMap [("stepId", JStr "stepA"); ("operationId", JStr "opA")];
               JMap [("stepId", JStr "stepB"); ("operationId", JStr "opB")];
               JMap [("stepId", JStr "stepA"); ("operationId", JStr "opC")];
               JMap [("stepId", JStr "stepB"); ("operationId", JStr "opD")]]].

(** [invalid_data_missing_info_version] of [main.py], and the document it
    is when the version is put back. *)
Definition invalid_data_missing_info_version : Json :=
  JMap [("arazzo", JStr "1.0.0");
        ("info", JMap [("title", JStr "Invalid Arazzo Doc")]);
        ("sourceDescriptions", sample_sources);
        ("workflows", JList [workflow "simple" [step_s1_op1]])].

Definition complete_info : list (string * Json) :=
  [("title", JStr "Invalid Arazzo Doc"); ("version", JStr "1.0.0")].

Definition data_with_info_version : list (string * Json) :=
  [("arazzo", JStr "1.0.0");
   ("info", JMap complete_info);
   ("sourceDescriptions", sample_sources);
   ("workflows", JList [workflow "simple" [step_s1_op1]])].

(** Actions whose targets are empty strings. *)
Definition goto_action (rest : list (string * Json)) : Json :=
  JMap ([("name", JStr "jump"); ("type", JStr "goto")] ++ rest).

Definition goto_both_empty : Json :=
  goto_action [("workflowId", JStr ""); ("stepId", JStr "")].

Definition goto_one_empty : Json :=
  goto_action [("workflowId", JStr ""); ("stepId", JStr "s1")].

Definition retry_both_empty : Json :=
  retry_action [("workflowId", JStr ""); ("stepId", JStr "")].

Definition retry_one_empty : Json :=
  retry_action [("workflowId", JStr ""); ("stepId", JStr "s1");
                ("retryAfter", JInt 2)].

Definition retry_one_empty_without_delay : Json :=
  retry_action [("workflowId", JStr ""); ("stepId", JStr "s1")].


(** ** Samples for the action and step rules *)

Definition goto_step_only : Json := goto_action [("stepId", JStr "s2")].

Definition goto_both_set : Json :=
  goto_action [("workflowId", JStr "other"); ("stepId", JStr "s2")].

Definition end_action_with_targets : Json :=
  JMap [("name", JStr "stop"); ("type", JStr "end");
        ("workflowId", JStr "other"); ("stepId", JStr "s2")].

Definition step_with_success_action (action : Json) : Json :=
  JMap [("stepId", JStr "s1"); ("operationId", JStr "op1");
        ("onSuccess", JList [action])].

Definition goto_data : Json :=
  document [workflow "simple" [step_with_success_action goto_step_only]].

Definition failure_goto_both_set : Json :=
  JMap [("name", JStr "jump"); ("type", JStr "goto");
        ("workflowId", JStr "other"); ("stepId", JStr "s2")].

Definition failure_end_bare : Json :=
  JMap [("name", JStr "stop"); ("type", JStr "end")].

(** The step [updateUser] of [valid_arazzo_data]: a workflow step with a
    parameter without location and a reusable object. *)
Definition step_update_user : Json :=
  JMap [("stepId", JStr "updateUser");
        ("workflowId", JStr "updateUserDetailsWorkflow");
        ("parameters",
         JList [JMap [("name", JStr "userId"); ("value", JStr "123")];
                JMap [("reference", JStr "#/components/parameters/emailParam");
                      ("value", JStr "new@example.com")]])].


(** ** Samples for the uniqueness validators *)

Definition typed_step (id op : string) : Step.t :=
  Step.mk id None (Some op) None None None None None None None None [].

Definition steps_with_duplicate_ids : list Step.t :=
  [typed_step "stepA" "opA"; typed_step "stepB" "opB";
   typed_step "stepA" "opC"; typed_step "stepB" "opD"].

Definition reusable (reference : string) : ReusableObject.t :=
  ReusableObject.mk reference None [].

(** A document that uses every kind of list that is declared unique. *)
Definition lists_data : Json :=
  JMap [("arazzo", JStr "1.0.0");
        ("info", sample_info);
        ("sourceDescriptions",
         JList [source_named "petstore"; source_named "users"]);
        ("workflows",
         JList [JMap [("workflowId", JStr "first");
                      ("dependsOn", JList [JStr "second"; JStr "third"]);
                      ("steps", JList [step_get_pet_by_id; step_update_user]);
                      ("successActions", JList [goto_step_only]);
                      ("failureActions", JList [retry_with_delay; failure_end_bare])];
                workflow "second" [step_with_failure_action retry_with_delay]])].


(** ** Samples for missing and unknown keys *)

Definition simple_entries : list (string * Json) :=
  [("arazzo", JStr "1.0.0");
   ("info", sample_info);
   ("sourceDescriptions", sample_sources);
   ("workflows", JList [workflow "simple" [step_s1_op1]])].


(** ** Samples for lengths and numbers *)






(** ** Samples for unions, source descriptions and criteria *)





Definition source_with_url (url : string) : list (string * Json) :=
  [("name", JStr "api"); ("url", JStr url)].

Definition condition_only : list (string * Json) :=
  [("condition", JStr "$.response.statusCode == 200")].

(* ================================================================== *)
(** * Basic facts *)
(* ================================================================== *)

Lemma float_eqb_eq (a b : spec_float) : float_eqb a b = true <-> a = b.
Proof.
  destruct a as [s | s | | s m e], b as [s' | s' | | s' m' e']; simpl;
    try (split; [discriminate | intros H; inversion H]; fail);
    try tauto.
  - rewrite Bool.eqb_true_iff. split; [intros -> | intros H; inversion H]; auto.
  - rewrite Bool.eqb_true_iff. split; [intros -> | intros H; inversion H]; auto.
  - rewrite !andb_true_iff, Bool.eqb_true_iff, Pos.eqb_eq, Z.eqb_eq.
    split; [intros [[-> ->] ->]; reflexivity | intros H; inversion H; auto].
Qed.

Lemma Json_eqb_eq (a b : Json) : Json_eqb a b = true <-> a = b.
Proof.
  revert b. induction a as [ | x | x | x | x | l IH | m IH ] using Json_ind;
    intros [ | y | y | y | y | l' | m' ]; simpl;
    try (split; [discriminate | intros H; inversion H]; fail);
    try tauto.
  - rewrite Bool.eqb_true_iff. split; [intros -> | intros H; inversion H]; auto.
  - rewrite Z.eqb_eq. split; [intros -> | intros H; inversion H]; auto.
  - rewrite float_eqb_eq. split; [intros -> | intros H; inversion H]; auto.
  - rewrite String.eqb_eq. split; [intros -> | intros H; inversion H]; auto.
  - revert l'. induction IH as [ | u x' Hu _ IHx ]; intros [ | v y'];
      try (split; [discriminate | intros H; inversion H]; fail);
      try tauto.
    rewrite andb_true_iff, Hu.
    specialize (IHx y'). split.
    + intros [-> H]. apply IHx in H. inversion H; reflexivity.
    + intros H; inversion H; subst. split; auto. apply IHx; reflexivity.
  - revert m'. induction IH as [ | [k u] x' Hu _ IHx ]; intros [ | [k' v] y'];
      try (split; [discriminate | intros H; inversion H]; fail);
      try tauto.
    simpl in Hu. rewrite !andb_true_iff, String.eqb_eq, Hu.
    specialize (IHx y'). split.
    + intros [[-> ->] H]. apply IHx in H. inversion H; reflexivity.
    + intros H; inversion H; subst. repeat split; auto. apply IHx; reflexivity.
Qed.

Lemma str_in_In (x : string) (l : list string) : str_in x l = true <-> In x l.
Proof.
  unfold str_in. rewrite existsb_exists. split.
  - intros (y & Hy & E). apply String.eqb_eq in E. subst. exact Hy.
  - intros H. exists x. split; [exact H | apply String.eqb_refl].
Qed.

Lemma in_seen_In (h : Json) (seen : list Json) : in_seen h seen = true <-> In h seen.
Proof.
  unfold in_seen. rewrite existsb_exists. split.
  - intros (y & Hy & E). apply Json_eqb_eq in E. subst. exact Hy.
  - intros H. exists h. split; [exact H | apply Json_eqb_eq; reflexivity].
Qed.

(** ** Outcomes *)

Lemma collect_Ok {A B : Type} (rf : Res (A -> B)) (ra : Res A) (b : B) :
  rf <*> ra = Ok b -> exists f a, rf = Ok f /\ ra = Ok a /\ b = f a.
Proof.
  destruct rf as [f | es | e], ra as [a | es' | e']; simpl; try discriminate.
  intros H. injection H as <-. exists f, a. auto.
Qed.

Lemma and_then_Ok {A B : Type} (r : Res A) (f : A -> Res B) (b : B) :
  and_then r f = Ok b -> exists a, r = Ok a /\ f a = Ok b.
Proof.
  destruct r as [a | es | e]; simpl; try discriminate. intros H. exists a. auto.
Qed.

Lemma at_loc_Ok {A : Type} (k : LocItem) (r : Res A) (a : A) :
  at_loc k r = Ok a -> r = Ok a.
Proof. destruct r; simpl; congruence. Qed.

Lemma required_as_Ok {A : Type} (alias name : string) (v : Validator A) m (a : A) :
  required_as alias name v m = Ok a -> validated v a.
Proof.
  unfold required_as. destruct (find_field alias name m) as [[k j] | ]; [ | discriminate].
  intros H. apply at_loc_Ok in H. exists j. exact H.
Qed.

Lemma default_as_Ok {A : Type} (alias name : string) (d : A) (v : Validator A) m (a : A) :
  default_as alias name d v m = Ok a -> a = d \/ validated v a.
Proof.
  unfold default_as. destruct (find_field alias name m) as [[k j] | ].
  - intros H. apply at_loc_Ok in H. right. exists j. exact H.
  - intros H. injection H as <-. left. reflexivity.
Qed.

Lemma required_Ok {A : Type} (name : string) (v : Validator A) m (a : A) :
  required name v m = Ok a -> validated v a.
Proof. apply required_as_Ok. Qed.

Lemma default_Ok {A : Type} (name : string) (d : A) (v : Validator A) m (a : A) :
  default name d v m = Ok a -> a = d \/ validated v a.
Proof. apply default_as_Ok. Qed.

Lemma model_Ok {A : Type} (body : list (string * Json) -> Res A) j (a : A) :
  model body j = Ok a -> exists m, j = JMap m /\ body m = Ok a.
Proof.
  destruct j; simpl; try discriminate. intros H. eexists. split; [reflexivity | exact H].
Qed.

Lemma optional_Ok {A : Type} (v : Validator A) (o : option A) :
  validated (optional v) o ->
  match o with Some a => validated v a | None => True end.
Proof.
  intros [j H]. unfold optional in H.
  destruct j; try (injection H as <-; exact I);
    apply and_then_Ok in H; destruct H as (a & Ha & E); injection E as <-;
    eexists; exact Ha.
Qed.

Lemma validate_items_Ok {A : Type} (item : Validator A) (l : list Json) :
  forall i xs, validate_items item i l = Ok xs ->
               Forall2 (fun j x => item j = Ok x) l xs.
Proof.
  induction l as [ | j r IH]; cbn [validate_items]; intros i xs H.
  - injection H as <-. constructor.
  - apply collect_Ok in H. destruct H as (f & t & Hf & Ht & ->).
    apply collect_Ok in Hf. destruct Hf as (g & a & Hg & Ha & ->).
    injection Hg as <-. apply at_loc_Ok in Ha.
    constructor; [exact Ha | eapply IH; exact Ht].
Qed.

Lemma list_of_Ok {A : Type} (n : nat) (item : Validator A) (xs : list A) :
  validated (list_of n item) xs ->
  Forall (validated item) xs /\ (n <= List.length xs)%nat.
Proof.
  intros [j H]. unfold list_of in H. destruct j; try discriminate.
  apply and_then_Ok in H. destruct H as (v & Hv & E).
  destruct (List.length v <? n)%nat eqn:Hlen; [discriminate | ].
  injection E as <-. apply Nat.ltb_ge in Hlen. split; [ | exact Hlen].
  apply validate_items_Ok in Hv. clear Hlen.
  induction Hv; constructor; auto. eexists; eassumption.
Qed.

Lemma validate_entries_Ok {A : Type} (value : Validator A) (m : list (string * Json)) :
  forall xs, validate_entries value m = Ok xs ->
             Forall (validated value) (map snd xs).
Proof.
  induction m as [ | [k j] r IH]; cbn [validate_entries]; intros xs H.
  - injection H as <-. constructor.
  - apply collect_Ok in H. destruct H as (f & t & Hf & Ht & ->).
    apply collect_Ok in Hf. destruct Hf as (g & a & Hg & Ha & ->).
    injection Hg as <-. apply at_loc_Ok in Ha. simpl.
    constructor; [eexists; exact Ha | apply IH; exact Ht].
Qed.

Lemma dict_of_Ok {A : Type} (value : Validator A) (xs : list (string * A)) :
  validated (dict_of value) xs -> Forall (validated value) (map snd xs).
Proof.
  intros [j H]. unfold dict_of in H. destruct j; try discriminate.
  eapply validate_entries_Ok; exact H.
Qed.

Lemma union_Ok {A B : Type} ta (a : Validator A) ma tb (b : Validator B) mb
  (x : A + B) :
  validated (union ta a ma tb b mb) x ->
  match x with inl u => validated a u | inr w => validated b w end.
Proof.
  intros [j H]. unfold union in H.
  destruct (a j) as [u | ea | e] eqn:Ha; try discriminate.
  - destruct (b j) as [w | eb | e] eqn:Hb; try discriminate.
    + destruct (right_is_better (ma j) (mb j)); injection H as <-; exists j; assumption.
    + injection H as <-. exists j. exact Ha.
  - destruct (b j) as [w | eb | e] eqn:Hb; try discriminate.
    injection H as <-. exists j. exact Hb.
Qed.

Lemma field_validator_Ok {A : Type} (v : Validator A) (f : A -> Res A) (x : A) :
  validated (field_validator v f) x -> exists a, validated v a /\ f a = Ok x.
Proof.
  intros [j H]. unfold field_validator in H. apply and_then_Ok in H.
  destruct H as (a & Ha & E). exists a. split; [exists j; exact Ha | exact E].
Qed.

(** Peels [Ok mk <*> r1 <*> ... <*> rn = Ok x] into one equation per field. *)
Ltac invert_fields H :=
  lazymatch type of H with
  | collect _ _ = Ok _ =>
      let f := fresh "f" in
      let a := fresh "a" in
      let Hf := fresh "Hf" in
      let Ha := fresh "Hfield" in
      let E := fresh "E" in
      apply collect_Ok in H; destruct H as (f & a & Hf & Ha & E);
      invert_fields Hf; subst
  | Ok _ = Ok _ => injection H as H; subst
  end.

(** ** Uniqueness validators *)

Lemma duplicates_found_nil {A : Type} `{PyItem A} (v : list A) :
  forall seen, duplicates_found seen v = [] ->
    NoDup (map hashable_item v)
    /\ forall x, In x v -> ~ In (hashable_item x) seen.
Proof.
  induction v as [ | item r IH]; cbn [duplicates_found map]; intros seen Hd.
  - split; [constructor | intros x []].
  - destruct (in_seen (hashable_item item) seen) eqn:Hs; [discriminate | ].
    apply IH in Hd. destruct Hd as [Hnd Hseen]. split.
    + constructor; [ | exact Hnd].
      rewrite in_map_iff. intros (x & E & Hx).
      apply (Hseen x Hx). rewrite E. left. reflexivity.
    + intros x [<- | Hx].
      * intros Hin. apply in_seen_In in Hin. congruence.
      * intros Hin. apply (Hseen x Hx). right. exact Hin.
Qed.

Lemma duplicates_found_dup {A : Type} `{PyItem A} (v : list A) :
  forall seen, ~ NoDup (map hashable_item v) -> duplicates_found seen v <> [].
Proof.
  intros seen Hdup Hnil. apply duplicates_found_nil in Hnil. tauto.
Qed.

Lemma validate_unique_items_Ok {A : Type} `{PyItem A} (v v' : list A) field_name :
  validate_unique_items v field_name = Ok v' ->
  v' = v /\ NoDup (map hashable_item v).
Proof.
  unfold validate_unique_items.
  destruct (duplicates_found [] v) as [ | d ds] eqn:Hd.
  - intros E. injection E as <-. split; [reflexivity | ].
    apply duplicates_found_nil in Hd. tauto.
  - intros E. apply and_then_Ok in E. destruct E as (repr & _ & E). discriminate.
Qed.

Lemma unique_if_present_Ok {A : Type} `{PyItem A} field_name (v v' : option (list A)) :
  unique_if_present field_name v = Ok v' ->
  v' = v /\ NoDup (map hashable_item (opt_list v)).
Proof.
  destruct v as [l | ]; simpl.
  - intros E. apply and_then_Ok in E. destruct E as (l' & Hl & E).
    injection E as <-. apply validate_unique_items_Ok in Hl. tauto.
  - intros E. injection E as <-. split; [reflexivity | constructor].
Qed.

Lemma py_set_length (l : list string) : (List.length (py_set l) <= List.length l)%nat.
Proof.
  induction l as [ | x r IH]; simpl; [lia | ].
  destruct (str_in x r); simpl; lia.
Qed.

Lemma py_set_NoDup_iff (l : list string) :
  List.length (py_set l) = List.length l <-> NoDup l.
Proof.
  induction l as [ | x r IH]; simpl.
  - split; [constructor | reflexivity].
  - pose proof (py_set_length r) as Hle.
    destruct (str_in x r) eqn:Hx.
    + split; [lia | ]. intros Hnd. inversion Hnd; subst.
      apply str_in_In in Hx. contradiction.
    + simpl. split.
      * intros E. constructor; [ | apply IH; lia].
        intros Hin. apply str_in_In in Hin. congruence.
      * intros Hnd. inversion Hnd; subst. f_equal. apply IH. assumption.
Qed.

Lemma unique_ids_Ok {A : Type} list_name (id : A -> string) (v v' : list A) :
  unique_ids list_name id v = Ok v' -> v' = v /\ NoDup (map id v).
Proof.
  unfold unique_ids.
  destruct (List.length (map id v) =? List.length (py_set (map id v)))%nat eqn:E;
    simpl; [ | discriminate].
  intros H. injection H as <-. split; [reflexivity | ].
  apply Nat.eqb_eq in E. apply py_set_NoDup_iff. symmetry. exact E.
Qed.

(** What holds of an optional list field declared with a minimum length
    and a uniqueness validator. *)
Lemma unique_list_field_Ok {A : Type} `{PyItem A} name field_name n
  (item : Validator A) m (o : option (list A)) :
  default name None
    (field_validator (optional (list_of n item)) (unique_if_present field_name)) m
  = Ok o ->
  unique_list item n o.
Proof.
  unfold unique_list. intros Hf. apply default_Ok in Hf. destruct Hf as [-> | Hf].
  - repeat split; constructor.
  - apply field_validator_Ok in Hf. destruct Hf as (a & Ha & E).
    apply unique_if_present_Ok in E. destruct E as [-> Hnd].
    apply optional_Ok in Ha. destruct a as [l | ].
    + apply list_of_Ok in Ha. simpl. tauto.
    + repeat split; constructor.
Qed.

(** What holds of a required list field declared with a minimum length and
    an identifier-keyed uniqueness validator. *)
Lemma unique_ids_field_Ok {A : Type} name list_name n (item : Validator A)
  (id : A -> string) m (l : list A) :
  required name (field_validator (list_of n item) (unique_ids list_name id)) m = Ok l ->
  unique_by item id n l.
Proof.
  unfold unique_by. intros H. apply required_Ok in H. apply field_validator_Ok in H.
  destruct H as (a & Ha & E). apply unique_ids_Ok in E. destruct E as [-> Hnd].
  apply list_of_Ok in Ha. tauto.
Qed.

Lemma optional_field_Ok {A : Type} name (v : Validator A) m (o : option A) :
  default name None (optional v) m = Ok o ->
  match o with Some a => validated v a | None => True end.
Proof.
  intros H. apply default_Ok in H. destruct H as [-> | H]; [exact I | ].
  apply optional_Ok in H. exact H.
Qed.

Lemma lefts_validated {A B : Type} ta (a : Validator A) ma tb (b : Validator B) mb
  (l : list (A + B)) :
  Forall (validated (union ta a ma tb b mb)) l -> Forall (validated a) (lefts l).
Proof.
  induction 1 as [ | x r Hx _ IH]; simpl; [constructor | ].
  apply union_Ok in Hx. destruct x; simpl; auto.
Qed.

(** ** The whole-node validators return the node they were given *)

Lemma check_conditional_version_self (a b : CriterionExpressionType.t) :
  CriterionExpressionType.check_conditional_version a = Ok b -> b = a.
Proof.
  unfold CriterionExpressionType.check_conditional_version.
  repeat match goal with |- context [if ?c then _ else _] => destruct c end;
    unfold fail; congruence.
Qed.

Lemma check_dependent_required_self (a b : Criterion.t) :
  Criterion.check_dependent_required a = Ok b -> b = a.
Proof.
  unfold Criterion.check_dependent_required.
  repeat match goal with |- context [if ?c then _ else _] => destruct c end;
    unfold fail; congruence.
Qed.

Lemma check_conditional_goto_self (a b : SuccessAction.t) :
  SuccessAction.check_conditional_goto a = Ok b -> b = a.
Proof.
  unfold SuccessAction.check_conditional_goto.
  repeat match goal with |- context [if ?c then _ else _] => destruct c end;
    unfold fail; congruence.
Qed.

Lemma check_conditional_goto_retry_self (a b : FailureAction.t) :
  FailureAction.check_conditional_goto_retry a = Ok b -> b = a.
Proof.
  unfold FailureAction.check_conditional_goto_retry. intros H.
  apply and_then_Ok in H. destruct H as (x & _ & H). revert H.
  repeat match goal with |- context [if ?c then _ else _] => destruct c end;
    unfold fail; congruence.
Qed.

Lemma check_conditional_step_target_self (a b : Step.t) :
  Step.check_conditional_step_target a = Ok b -> b = a.
Proof.
  unfold Step.check_conditional_step_target.
  repeat match goal with
         | |- context [if ?c then _ else _] => destruct c
         | |- context [match ?c with Some _ => _ | None => _ end = _] => destruct c
         end;
    unfold fail; congruence.
Qed.

(** ** What validation establishes, model by model *)

Lemma CriterionExpressionType_validated (e : CriterionExpressionType.t) :
  validated CriterionExpressionType.model_validate e ->
  CriterionExpressionType.check_conditional_version e = Ok e.
Proof.
  intros [j H]. unfold CriterionExpressionType.model_validate in H.
  apply and_then_Ok in H. destruct H as (a & _ & Hc).
  pose proof (check_conditional_version_self _ Hc) as ->. exact Hc.
Qed.

Lemma Criterion_validated (c : Criterion.t) :
  validated Criterion.model_validate c ->
  Criterion.check_dependent_required c = Ok c
  /\ match Criterion.type c with
     | inr e => validated CriterionExpressionType.model_validate e
     | inl _ => True
     end.
Proof.
  intros [j H]. unfold Criterion.model_validate in H.
  apply and_then_Ok in H. destruct H as (a & Ha & Hc).
  pose proof (check_dependent_required_self _ Hc) as ->. split; [exact Hc | ].
  unfold Criterion.validate_fields in Ha. apply model_Ok in Ha. destruct Ha as (m & -> & Ha). invert_fields Ha. simpl.
  match goal with
  | Hty : default "type" _ _ _ = Ok ?ty |- _ =>
      apply default_Ok in Hty; destruct Hty as [-> | Hty]; [exact I | ];
      apply union_Ok in Hty; destruct ty; [exact I | exact Hty]
  end.
Qed.

Lemma ge_0_float_Ok (v : Validator spec_float) (f : spec_float) :
  validated (ge_0_float v) f -> float_ge f zero = true.
Proof.
  intros [j H]. unfold ge_0_float in H. apply and_then_Ok in H.
  destruct H as (a & _ & H). destruct (float_ge a zero) eqn:E; [ | discriminate].
  injection H as <-. exact E.
Qed.


Lemma ge_0_int_Ok (v : Validator Z) (z : Z) :
  validated (ge_0_int v) z -> (0 <= z)%Z.
Proof.
  intros [j H]. unfold ge_0_int in H. apply and_then_Ok in H.
  destruct H as (a & _ & H). destruct (0 <=? a)%Z eqn:E; [ | discriminate].
  injection H as <-. apply Z.leb_le. exact E.
Qed.

Lemma SuccessAction_validated (a : SuccessAction.t) :
  validated SuccessAction.model_validate a -> SuccessAction_ok a.
Proof.
  intros [j H]. unfold SuccessAction.model_validate in H.
  apply and_then_Ok in H. destruct H as (x & Hx & Hc).
  pose proof (check_conditional_goto_self _ Hc) as ->.
  unfold SuccessAction.validate_fields in Hx. apply model_Ok in Hx. destruct Hx as (m & -> & Hx). invert_fields Hx.
  unfold SuccessAction.validate_criteria_uniqueness in *.
  constructor; simpl; [exact Hc | eapply unique_list_field_Ok; eassumption].
Qed.

Lemma FailureAction_validated (a : FailureAction.t) :
  validated FailureAction.model_validate a -> FailureAction_ok a.
Proof.
  intros [j H]. unfold FailureAction.model_validate in H.
  apply and_then_Ok in H. destruct H as (x & Hx & Hc).
  pose proof (check_conditional_goto_retry_self _ Hc) as ->.
  unfold FailureAction.validate_fields in Hx. apply model_Ok in Hx. destruct Hx as (m & -> & Hx). invert_fields Hx.
  unfold FailureAction.validate_criteria_uniqueness in *.
  constructor; simpl.
  - exact Hc.
  - match goal with
    | Hq : default "retry_after" _ _ _ = Ok ?o |- _ =>
        apply optional_field_Ok in Hq; destruct o; [ | exact I];
        eapply ge_0_float_Ok; exact Hq
    end.
  - match goal with
    | Hz : default "retry_limit" _ _ _ = Ok ?o |- _ =>
        apply optional_field_Ok in Hz; destruct o; [ | exact I];
        eapply ge_0_int_Ok; exact Hz
    end.
  - eapply unique_list_field_Ok; eassumption.
Qed.

Lemma RequestBody_validated (b : RequestBody.t) :
  validated RequestBody.model_validate b ->
  unique_list PayloadReplacement.model_validate 0 (RequestBody.replacements b).
Proof.
  intros [j H]. unfold RequestBody.model_validate in H.
  apply model_Ok in H. destruct H as (m & -> & H). invert_fields H.
  unfold RequestBody.validate_replacements_uniqueness in *.
  simpl. eapply unique_list_field_Ok; eassumption.
Qed.

Lemma Step_validated (s : Step.t) :
  validated Step.model_validate s -> Step_ok s.
Proof.
  intros [j H]. unfold Step.model_validate in H.
  apply and_then_Ok in H. destruct H as (x & Hx & Hc).
  pose proof (check_conditional_step_target_self _ Hc) as ->.
  unfold Step.validate_fields in Hx. apply model_Ok in Hx. destruct Hx as (m & -> & Hx). invert_fields Hx.
  unfold Step.validate_parameters_uniqueness, Step.validate_success_criteria_uniqueness,
    Step.validate_on_success_uniqueness, Step.validate_on_failure_uniqueness in *.
  constructor; simpl; try (eapply unique_list_field_Ok; eassumption).
  - exact Hc.
  - match goal with
    | Hb : default "request_body" _ _ _ = Ok ?o |- _ =>
        apply optional_field_Ok in Hb; destruct o; [ | exact I];
        apply RequestBody_validated; exact Hb
    end.
Qed.

Lemma Workflow_validated (w : Workflow.t) :
  validated Workflow.model_validate w -> Workflow_ok w.
Proof.
  intros [j H]. unfold Workflow.model_validate in H.
  apply model_Ok in H. destruct H as (m & -> & H). invert_fields H.
  unfold Workflow.validate_depends_on_uniqueness, Workflow.validate_steps_uniqueness,
    Workflow.validate_success_actions_uniqueness,
    Workflow.validate_failure_actions_uniqueness,
    Workflow.validate_workflow_parameters_uniqueness in *.
  constructor; simpl; try (eapply unique_list_field_Ok; eassumption).
  eapply unique_ids_field_Ok; eassumption.
Qed.

Lemma Components_validated (c : Components.t) :
  validated Components.model_validate c -> Components_ok c.
Proof.
  intros [j H]. unfold Components.model_validate in H.
  apply model_Ok in H. destruct H as (m & -> & H). invert_fields H.
  constructor; simpl.
  - match goal with
    | Hs : default "success_actions" _ _ _ = Ok ?o |- _ =>
        apply optional_field_Ok in Hs; destruct o; [ | constructor];
        apply dict_of_Ok; exact Hs
    end.
  - match goal with
    | Hs : default "failure_actions" _ _ _ = Ok ?o |- _ =>
        apply optional_field_Ok in Hs; destruct o; [ | constructor];
        apply dict_of_Ok; exact Hs
    end.
Qed.

Lemma Document_validated (data : Json) (doc : ArazzoSpecification.t) :
  validate_arazzo_data data = Ok doc -> Document_ok doc.
Proof.
  unfold validate_arazzo_data, ArazzoSpecification.model_validate. intros H.
  apply model_Ok in H. destruct H as (m & -> & H). invert_fields H.
  unfold ArazzoSpecification.validate_source_descriptions_uniqueness,
    ArazzoSpecification.validate_workflows_uniqueness in *.
  constructor; simpl; try (eapply unique_ids_field_Ok; eassumption).
  unfold components_of; simpl.
  match goal with
  | Hc : default "components" _ _ _ = Ok ?o |- _ =>
      apply optional_field_Ok in Hc; destruct o; constructor; auto
  end.
Qed.

(** ** The objects of a validated document went through their validators *)

Lemma workflows_validated (data : Json) (doc : ArazzoSpecification.t) :
  validate_arazzo_data data = Ok doc ->
  Forall (validated Workflow.model_validate) (ArazzoSpecification.workflows doc).
Proof.
  intros H. apply Document_validated in H. destruct H as [_ (Hw & _) _]. exact Hw.
Qed.

Lemma steps_validated (data : Json) (doc : ArazzoSpecification.t) :
  validate_arazzo_data data = Ok doc ->
  Forall (validated Step.model_validate) (steps_of doc).
Proof.
  intros H. apply workflows_validated in H. unfold steps_of.
  apply Forall_flat_map. eapply Forall_impl; [ | exact H].
  intros w Hw. apply Workflow_validated in Hw. destruct Hw as [_ (Hs & _) _ _ _].
  exact Hs.
Qed.

Lemma components_validated (data : Json) (doc : ArazzoSpecification.t) :
  validate_arazzo_data data = Ok doc ->
  Forall (validated Components.model_validate) (components_of doc).
Proof.
  intros H. apply Document_validated in H. destruct H as [_ _ Hc]. exact Hc.
Qed.

Lemma success_actions_validated (data : Json) (doc : ArazzoSpecification.t) :
  validate_arazzo_data data = Ok doc ->
  Forall (validated SuccessAction.model_validate) (success_actions_of doc).
Proof.
  intros H. unfold success_actions_of. apply Forall_app; split; [ | apply Forall_app; split].
  - apply steps_validated in H. apply Forall_flat_map.
    eapply Forall_impl; [ | exact H]. intros s Hs.
    apply Step_validated in Hs. destruct Hs as [_ _ _ _ (Ha & _) _].
    eapply lefts_validated; exact Ha.
  - apply workflows_validated in H. apply Forall_flat_map.
    eapply Forall_impl; [ | exact H]. intros w Hw.
    apply Workflow_validated in Hw. destruct Hw as [_ _ (Ha & _) _ _].
    eapply lefts_validated; exact Ha.
  - apply components_validated in H. apply Forall_flat_map.
    eapply Forall_impl; [ | exact H]. intros c Hc.
    apply Components_validated in Hc. destruct Hc as [Ha _]. exact Ha.
Qed.

Lemma failure_actions_validated (data : Json) (doc : ArazzoSpecification.t) :
  validate_arazzo_data data = Ok doc ->
  Forall (validated FailureAction.model_validate) (failure_actions_of doc).
Proof.
  intros H. unfold failure_actions_of. apply Forall_app; split; [ | apply Forall_app; split].
  - apply steps_validated in H. apply Forall_flat_map.
    eapply Forall_impl; [ | exact H]. intros s Hs.
    apply Step_validated in Hs. destruct Hs as [_ _ _ _ _ (Ha & _)].
    eapply lefts_validated; exact Ha.
  - apply workflows_validated in H. apply Forall_flat_map.
    eapply Forall_impl; [ | exact H]. intros w Hw.
    apply Workflow_validated in Hw. destruct Hw as [_ _ _ (Ha & _) _].
    eapply lefts_validated; exact Ha.
  - apply components_validated in H. apply Forall_flat_map.
    eapply Forall_impl; [ | exact H]. intros c Hc.
    apply Components_validated in Hc. destruct Hc as [_ Ha]. exact Ha.
Qed.

Lemma criteria_validated (data : Json) (doc : ArazzoSpecification.t) :
  validate_arazzo_data data = Ok doc ->
  Forall (validated Criterion.model_validate) (criteria_of doc).
Proof.
  intros H. unfold criteria_of. apply Forall_app; split; [ | apply Forall_app; split].
  - apply steps_validated in H. apply Forall_flat_map.
    eapply Forall_impl; [ | exact H]. intros s Hs.
    apply Step_validated in Hs. destruct Hs as [_ _ _ (Hc & _) _ _]. exact Hc.
  - apply success_actions_validated in H. apply Forall_flat_map.
    eapply Forall_impl; [ | exact H]. intros a Ha.
    apply SuccessAction_validated in Ha. destruct Ha as [_ (Hc & _)]. exact Hc.
  - apply failure_actions_validated in H. apply Forall_flat_map.
    eapply Forall_impl; [ | exact H]. intros a Ha.
    apply FailureAction_validated in Ha. destruct Ha as [_ _ _ (Hc & _)]. exact Hc.
Qed.

Lemma expression_types_validated (data : Json) (doc : ArazzoSpecification.t) :
  validate_arazzo_data data = Ok doc ->
  Forall (validated CriterionExpressionType.model_validate) (expression_types_of doc).
Proof.
  intros H. apply criteria_validated in H. unfold expression_types_of.
  apply Forall_flat_map. eapply Forall_impl; [ | exact H]. intros c Hc.
  apply Criterion_validated in Hc. destruct Hc as [_ Hty].
  destruct (Criterion.type c); constructor; auto.
Qed.

(** ** How an error of a node reaches the report of the document *)

Lemma rejects_collect_l {A B : Type} (rf : Res (A -> B)) (ra : Res A) e :
  rejects_with rf e -> rejects_with (rf <*> ra) e.
Proof.
  destruct rf, ra; simpl; auto; try contradiction.
  intros H. apply in_or_app. left. exact H.
Qed.

Lemma rejects_collect_r {A B : Type} (rf : Res (A -> B)) (ra : Res A) e :
  rejects_with ra e -> rejects_with (rf <*> ra) e.
Proof.
  destruct rf, ra; simpl; auto; try contradiction.
  intros H. apply in_or_app. right. exact H.
Qed.

Lemma rejects_and_then {A B : Type} (r : Res A) (f : A -> Res B) e :
  rejects_with r e -> rejects_with (and_then r f) e.
Proof. destruct r; simpl; auto; contradiction. Qed.

Lemma rejects_at_loc {A : Type} (k : LocItem) (r : Res A) e :
  rejects_with r e -> rejects_with (at_loc k r) (prefix_loc k e).
Proof.
  destruct r; simpl; auto. intros H. apply in_map. exact H.
Qed.

Lemma rejects_validate_items {A : Type} (item : Validator A) e (l : list Json) :
  forall n i j, nth_error l i = Some j -> rejects_with (item j) e ->
    rejects_with (validate_items item n l) (prefix_loc (LIdx (n + i)) e).
Proof.
  induction l as [ | x r IH]; intros n [ | i] j Hn Hr; simpl in Hn; try discriminate;
    cbn [validate_items].
  - injection Hn as ->. apply rejects_collect_l, rejects_collect_r.
    rewrite Nat.add_0_r. apply rejects_at_loc. exact Hr.
  - apply rejects_collect_r. replace (n + S i)%nat with (S n + i)%nat by lia.
    eapply IH; eassumption.
Qed.

Lemma rejects_list_of {A : Type} (item : Validator A) min_length e l i j :
  nth_error l i = Some j -> rejects_with (item j) e ->
  rejects_with (list_of min_length item (JList l)) (prefix_loc (LIdx i) e).
Proof.
  intros Hn Hr. unfold list_of. apply rejects_and_then.
  apply (rejects_validate_items item e l 0 i Hn Hr).
Qed.

Lemma rejects_required {A : Type} (name : string) (v : Validator A) m j e :
  lookup (to_camel name) m = Some j -> rejects_with (v j) e ->
  rejects_with (required name v m) (prefix_loc (LKey (to_camel name)) e).
Proof.
  intros Hl Hr. unfold required, required_as, find_field. rewrite Hl.
  apply rejects_at_loc. exact Hr.
Qed.

Lemma rejects_workflow_step (wm : list (string * Json)) sl k sj e :
  lookup "steps" wm = Some (JList sl) -> nth_error sl k = Some sj ->
  rejects_with (Step.model_validate sj) e ->
  rejects_with (Workflow.model_validate (JMap wm))
    (prefix_loc (LKey "steps") (prefix_loc (LIdx k) e)).
Proof.
  intros Hl Hn Hr. unfold Workflow.model_validate, model.
  do 5 apply rejects_collect_l. apply rejects_collect_r.
  apply (@rejects_required _ "steps" _ wm (JList sl)); [exact Hl | ].
  unfold field_validator. apply rejects_and_then.
  eapply rejects_list_of; eassumption.
Qed.

Lemma rejects_document_step (data : Json) i k sj e :
  at_path (step_path i k) data = Some sj ->
  rejects_with (Step.model_validate sj) e ->
  rejects_with (validate_arazzo_data data) (under (step_path i k) e).
Proof.
  unfold step_path, at_path. intros Hp Hr.
  destruct data as [ | | | | | | m]; try discriminate.
  destruct (lookup "workflows" m) as [[ | | | | | wl | ] | ] eqn:Hw; try discriminate.
  destruct (nth_error wl i) as [[ | | | | | | wm] | ] eqn:Hi; try discriminate.
  destruct (lookup "steps" wm) as [[ | | | | | sl | ] | ] eqn:Hs; try discriminate.
  destruct (nth_error sl k) as [x | ] eqn:Hk; try discriminate.
  injection Hp as ->.
  unfold validate_arazzo_data, ArazzoSpecification.model_validate, model.
  do 2 apply rejects_collect_l. apply rejects_collect_r.
  apply (@rejects_required _ "workflows" _ m (JList wl)
           (prefix_loc (LIdx i) (prefix_loc (LKey "steps") (prefix_loc (LIdx k) e))));
    [exact Hw | ].
  unfold field_validator. apply rejects_and_then.
  eapply rejects_list_of; [exact Hi | ].
  eapply rejects_workflow_step; eassumption.
Qed.

(* ================================================================== *)
(** * Step targets *)
(* ================================================================== *)

Lemma present_targets_length (s : Step.t) :
  List.length
    (filter (fun t : option string => negb (is_None t))
       [Step.operation_id s; Step.operation_path s; Step.workflow_id s])
  = targets_set s.
Proof.
  unfold targets_set.
  destruct (Step.operation_id s), (Step.operation_path s), (Step.workflow_id s);
    reflexivity.
Qed.

Lemma check_step_target_missing (s : Step.t) :
  targets_set s = 0%nat ->
  Step.check_conditional_step_target s
  = fail (PydanticCustomError "step_missing_target_type" []).
Proof.
  intros H. unfold Step.check_conditional_step_target.
  rewrite present_targets_length, H. reflexivity.
Qed.

Lemma check_step_target_exclusive (s : Step.t) :
  (1 < targets_set s)%nat ->
  Step.check_conditional_step_target s
  = fail (PydanticCustomError "step_exclusive_target_type" []).
Proof.
  intros H. unfold Step.check_conditional_step_target.
  rewrite present_targets_length.
  destruct (targets_set s =? 0)%nat eqn:E0; [apply Nat.eqb_eq in E0; lia | ].
  destruct (1 <? targets_set s)%nat eqn:E1; [reflexivity | ].
  apply Nat.ltb_ge in E1. lia.
Qed.

Lemma check_step_target_Ok (s : Step.t) :
  Step.check_conditional_step_target s = Ok s -> targets_set s = 1%nat.
Proof.
  unfold Step.check_conditional_step_target. rewrite present_targets_length.
  destruct (targets_set s =? 0)%nat eqn:E0; [discriminate | ].
  destruct (1 <? targets_set s)%nat eqn:E1; [discriminate | ].
  intros _. apply Nat.eqb_neq in E0. apply Nat.ltb_ge in E1. lia.
Qed.

(** C1, as the code has it.  Every step of a validated document sets exactly
    one of operationId, operationPath and workflowId.  A step whose fields
    are valid and which sets none of them is rejected with
    [step_missing_target_type], one that sets more than one with
    [step_exclusive_target_type]; the error is that of the step's own
    validation, and the document that contains the step does not validate:
    its report, when one is returned, holds the error at the step's path.
    A step whose fields are not valid is rejected with the errors of its
    fields alone, for the check of the targets runs on valid fields only. *)
Theorem step_target_exactly_one :
  (forall data doc,
     validate_arazzo_data data = Ok doc ->
     Forall (fun s => targets_set s = 1%nat) (steps_of doc))
  /\ (forall j s,
        Step.validate_fields j = Ok s ->
        (targets_set s = 0%nat ->
         Step.model_validate j
         = fail (PydanticCustomError "step_missing_target_type" []))
        /\ ((1 < targets_set s)%nat ->
            Step.model_validate j
            = fail (PydanticCustomError "step_exclusive_target_type" [])))
  /\ (forall data i k j s,
        at_path (step_path i k) data = Some j ->
        Step.validate_fields j = Ok s ->
        (targets_set s = 0%nat ->
         rejects_with (validate_arazzo_data data)
           (mkError (PydanticCustomError "step_missing_target_type" [])
                    (step_path i k)))
        /\ ((1 < targets_set s)%nat ->
            rejects_with (validate_arazzo_data data)
              (mkError (PydanticCustomError "step_exclusive_target_type" [])
                       (step_path i k))))
  /\ (forall j es, Step.validate_fields j = Invalid es -> Step.model_validate j = Invalid es).
Proof.
  assert (Hnode : forall j s,
             Step.validate_fields j = Ok s ->
             (targets_set s = 0%nat ->
              Step.model_validate j
              = fail (PydanticCustomError "step_missing_target_type" []))
             /\ ((1 < targets_set s)%nat ->
                 Step.model_validate j
                 = fail (PydanticCustomError "step_exclusive_target_type" []))).
  { intros j s Hf. unfold Step.model_validate. rewrite Hf. simpl. split; intros H.
    - apply check_step_target_missing; exact H.
    - apply check_step_target_exclusive; exact H. }
  split; [ | split; [exact Hnode | split] ].
  - intros data doc H. apply steps_validated in H.
    eapply Forall_impl; [ | exact H]. intros s Hs.
    apply Step_validated in Hs. apply check_step_target_Ok. apply Hs.
  - intros data i k j s Hp Hf. destruct (Hnode j s Hf) as [H0 H2].
    split; intros H.
    + change (mkError (PydanticCustomError "step_missing_target_type" []) (step_path i k))
        with (under (step_path i k)
                (mkError (PydanticCustomError "step_missing_target_type" []) [])).
      eapply rejects_document_step; [exact Hp | ]. rewrite (H0 H). left. reflexivity.
    + change (mkError (PydanticCustomError "step_exclusive_target_type" []) (step_path i k))
        with (under (step_path i k)
                (mkError (PydanticCustomError "step_exclusive_target_type" []) [])).
      eapply rejects_document_step; [exact Hp | ]. rewrite (H2 H). left. reflexivity.
  - intros j es Hf. unfold Step.model_validate. rewrite Hf. reflexivity.
Qed.

Lemma step_target_exactly_one_witness :
  (exists doc, validate_arazzo_data simple_document = Ok doc
               /\ Forall (fun s => targets_set s = 1%nat) (steps_of doc))
  /\ Step.model_validate step_without_target
     = fail (PydanticCustomError "step_missing_target_type" [])
  /\ Step.model_validate step_with_two_targets
     = fail (PydanticCustomError "step_exclusive_target_type" [])
  /\ rejects_with (validate_arazzo_data invalid_step_data)
       (mkError (PydanticCustomError "step_missing_target_type" []) (step_path 0 0))
  /\ rejects_with (validate_arazzo_data two_targets_data)
       (mkError (PydanticCustomError "step_exclusive_target_type" []) (step_path 0 1)).
Proof.
  destruct step_target_exactly_one as (Hdoc & Hnode & Hpath & _).
  split; [ | split; [ | split; [ | split] ] ].
  - eexists. split; [vm_compute; reflexivity | ].
    apply (Hdoc simple_document). vm_compute. reflexivity.
  - refine (proj1 (Hnode step_without_target _ _) _);
      [vm_compute; reflexivity | reflexivity].
  - refine (proj2 (Hnode step_with_two_targets _ _) _);
      [vm_compute; reflexivity | vm_compute; lia].
  - refine (proj1 (Hpath invalid_step_data 0%nat 0%nat step_without_target _ _ _) _);
      [reflexivity | vm_compute; reflexivity | reflexivity].
  - refine (proj2 (Hpath two_targets_data 0%nat 1%nat step_with_two_targets _ _ _) _);
      [reflexivity | vm_compute; reflexivity | vm_compute; lia].
Defined.

(** C1 as the specification words it fails for a step that sets none of the
    three targets and whose fields are not valid: here the step has no
    stepId.  The document is rejected, but its report holds the missing
    field alone and no [step_missing_target_type]. *)
Lemma step_target_counterexample :
  at_path (step_path 0 0) step_without_id_data = Some step_without_id
  /\ at_path (step_path 0 0 ++ [LKey "operationId"]) step_without_id_data = None
  /\ at_path (step_path 0 0 ++ [LKey "operationPath"]) step_without_id_data = None
  /\ at_path (step_path 0 0 ++ [LKey "workflowId"]) step_without_id_data = None
  /\ validate_arazzo_data step_without_id_data
     = Invalid [mkError missing (step_path 0 0 ++ [LKey "stepId"])]
  /\ ~ reports_kind (validate_arazzo_data step_without_id_data)
         (PydanticCustomError "step_missing_target_type" []).
Proof.
  repeat split; try reflexivity.
  vm_compute. intros (e & [<- | []] & H). discriminate H.
Qed.

(* ================================================================== *)
(** * Parameters of operation steps *)
(* ================================================================== *)

Lemma check_operation_parameters_None l :
  forall n, Step.check_operation_parameters n l = None ->
            Forall (fun x => untagged x = false) l.
Proof.
  induction l as [ | [p | r] t IH]; intros n H; cbn [Step.check_operation_parameters] in H.
  - constructor.
  - destruct (is_None (ParameterObject.in_ p)) eqn:E; [discriminate | ].
    constructor; [exact E | eapply IH; exact H].
  - constructor; [reflexivity | eapply IH; exact H].
Qed.

Lemma check_operation_parameters_first l :
  forall n i, first_untagged l i ->
              Step.check_operation_parameters n l = Some (parameter_in_required (n + i)).
Proof.
  induction l as [ | x t IH]; intros n i [(y & Hy & Hu) Hmin].
  - destruct i; discriminate.
  - destruct i as [ | i].
    + simpl in Hy. injection Hy as ->. destruct y as [p | r]; [ | discriminate].
      cbn [Step.check_operation_parameters]. simpl in Hu. rewrite Hu.
      rewrite Nat.add_0_r. reflexivity.
    + assert (Hx : untagged x = false) by (apply (Hmin 0%nat); [lia | reflexivity]).
      assert (Ht : first_untagged t i).
      { split; [exists y; auto | ].
        intros i' z Hlt Hz. apply (Hmin (S i')); [lia | exact Hz]. }
      replace (n + S i)%nat with (S n + i)%nat by lia.
      destruct x as [p | r]; cbn [Step.check_operation_parameters].
      * simpl in Hx. rewrite Hx. apply IH; exact Ht.
      * apply IH; exact Ht.
Qed.

Lemma untagged_lefts l :
  Forall (fun x => untagged x = false) l ->
  Forall (fun p => ParameterObject.in_ p <> None) (lefts l).
Proof.
  induction 1 as [ | [p | r] t Hx _ IH]; simpl; auto.
  constructor; [ | exact IH]. simpl in Hx. intros E. rewrite E in Hx. discriminate.
Qed.

Lemma first_untagged_nonempty l i :
  first_untagged l i -> truthy_list (Some l) = true.
Proof.
  intros [(x & Hx & _) _]. destruct l; [destruct i; discriminate | reflexivity].
Qed.

(** C2, as the code has it.  In a validated document, every plain Parameter
    of a step whose operationId or operationPath is a non-empty string
    carries a location tag.  When the fields of such a step are valid, it
    sets one target and some plain Parameter lacks the tag, the step is
    rejected with [parameter_in_required_for_operation] for the first such
    index, and the document that contains the step reports that error at
    the step's path. *)
Theorem operation_parameters_tagged :
  (forall data doc,
     validate_arazzo_data data = Ok doc ->
     Forall (fun s =>
               truthy (Step.operation_id s) || truthy (Step.operation_path s) = true ->
               Forall (fun p => ParameterObject.in_ p <> None)
                      (lefts (opt_list (Step.parameters s))))
            (steps_of doc))
  /\ (forall j s i,
        Step.validate_fields j = Ok s ->
        targets_set s = 1%nat ->
        truthy (Step.operation_id s) || truthy (Step.operation_path s) = true ->
        first_untagged (opt_list (Step.parameters s)) i ->
        Step.model_validate j = fail (parameter_in_required i))
  /\ (forall data w k j s i,
        at_path (step_path w k) data = Some j ->
        Step.validate_fields j = Ok s ->
        targets_set s = 1%nat ->
        truthy (Step.operation_id s) || truthy (Step.operation_path s) = true ->
        first_untagged (opt_list (Step.parameters s)) i ->
        rejects_with (validate_arazzo_data data)
          (mkError (parameter_in_required i) (step_path w k))).
Proof.
  assert (Hnode : forall j s i,
             Step.validate_fields j = Ok s ->
             targets_set s = 1%nat ->
             truthy (Step.operation_id s) || truthy (Step.operation_path s) = true ->
             first_untagged (opt_list (Step.parameters s)) i ->
             Step.model_validate j = fail (parameter_in_required i)).
  { intros j s i Hf H1 Hop Hi. unfold Step.model_validate. rewrite Hf. simpl.
    unfold Step.check_conditional_step_target.
    rewrite present_targets_length, H1. simpl. rewrite Hop.
    destruct (Step.parameters s) as [l | ] eqn:Hl;
      [ | destruct Hi as [(x & Hx & _) _]; destruct i; discriminate].
    simpl in Hi. rewrite (first_untagged_nonempty Hi).
    rewrite (check_operation_parameters_first 0 Hi). reflexivity. }
  split; [ | split; [exact Hnode | ] ].
  - intros data doc H. apply steps_validated in H.
    eapply Forall_impl; [ | exact H]. intros s Hs Hop.
    apply Step_validated in Hs. destruct Hs as [Hc _ _ _ _ _].
    unfold Step.check_conditional_step_target in Hc.
    rewrite present_targets_length in Hc.
    destruct (targets_set s =? 0)%nat; [discriminate Hc | ].
    destruct (1 <? targets_set s)%nat; [discriminate Hc | ].
    rewrite Hop in Hc.
    destruct (Step.parameters s) as [l | ]; [ | constructor].
    destruct l as [ | x l]; [constructor | ].
    cbn [truthy_list opt_list] in Hc |- *.
    destruct (Step.check_operation_parameters 0 (x :: l)) eqn:E; [discriminate Hc | ].
    apply check_operation_parameters_None in E.
    apply (untagged_lefts E).
  - intros data w k j s i Hp Hf H1 Hop Hi.
    change (mkError (parameter_in_required i) (step_path w k))
      with (under (step_path w k) (mkError (parameter_in_required i) [])).
    eapply rejects_document_step; [exact Hp | ].
    rewrite (Hnode j s i Hf H1 Hop Hi). left. reflexivity.
Qed.

Lemma operation_parameters_tagged_witness :
  (exists doc, validate_arazzo_data get_pet_data = Ok doc
               /\ Forall (fun s =>
                            truthy (Step.operation_id s) || truthy (Step.operation_path s)
                            = true ->
                            Forall (fun p => ParameterObject.in_ p <> None)
                                   (lefts (opt_list (Step.parameters s))))
                         (steps_of doc))
  /\ Step.model_validate step_param_missing_in = fail (parameter_in_required 0)
  /\ rejects_with (validate_arazzo_data invalid_step_param_data)
       (mkError (parameter_in_required 0) (step_path 0 0)).
Proof.
  destruct operation_parameters_tagged as (Hdoc & Hnode & Hpath).
  split; [ | split].
  - eexists. split; [vm_compute; reflexivity | ].
    apply (Hdoc get_pet_data). vm_compute. reflexivity.
  - refine (Hnode step_param_missing_in _ 0%nat _ _ _ _);
      [vm_compute; reflexivity | reflexivity | reflexivity | ].
    split; [eexists; split; reflexivity | intros i' x Hlt; lia].
  - refine (Hpath invalid_step_param_data 0%nat 0%nat step_param_missing_in _ 0%nat
              _ _ _ _ _);
      [reflexivity | vm_compute; reflexivity | reflexivity | reflexivity | ].
    split; [eexists; split; reflexivity | intros i' x Hlt; lia].
Defined.

(** C2 as the specification words it fails in two ways.  A step with an
    operationId and two plain Parameters without location tag is rejected
    with an error that references index 0 and none that references index 1.
    And a document whose step has the empty string as operationId validates
    although the step's plain Parameter has no location tag. *)
Lemma operation_parameters_counterexample :
  (exists s p,
     Step.validate_fields step_two_untagged = Ok s
     /\ targets_set s = 1%nat
     /\ Step.operation_id s = Some "getSomething"
     /\ nth_error (opt_list (Step.parameters s)) 1 = Some (inl p)
     /\ ParameterObject.in_ p = None
     /\ Step.model_validate step_two_untagged = fail (parameter_in_required 0)
     /\ ~ rejects_with (Step.model_validate step_two_untagged)
            (mkError (parameter_in_required 1) []))
  /\ (exists doc s p,
        validate_arazzo_data empty_operation_id_data = Ok doc
        /\ In s (steps_of doc)
        /\ Step.operation_id s = Some ""
        /\ In (inl p) (opt_list (Step.parameters s))
        /\ ParameterObject.in_ p = None).
Proof.
  split.
  - do 2 eexists. split; [vm_compute; reflexivity | ].
    repeat split; try reflexivity.
    vm_compute. intros [H | []]. discriminate H.
  - do 3 eexists. split; [vm_compute; reflexivity | ].
    split; [left; reflexivity | ].
    split; [reflexivity | ].
    split; [left; reflexivity | reflexivity].
Qed.

(* ================================================================== *)
(** * Retrying failure actions *)
(* ================================================================== *)










(* ================================================================== *)
(** * Criteria *)
(* ================================================================== *)

Lemma expression_typed_code (c : Criterion.t) :
  Criterion.is_expression_tag (Criterion.type c)
  || Criterion.is_expression_object (Criterion.type c)
  = expression_typed c.
Proof.
  unfold expression_typed. destruct (Criterion.type c) as [[ | | | ] | e]; reflexivity.
Qed.

Lemma check_dependent_required_Ok (c : Criterion.t) :
  Criterion.check_dependent_required c = Ok c ->
  expression_typed c = true -> Criterion.context c <> None.
Proof.
  unfold Criterion.check_dependent_required. rewrite expression_typed_code.
  intros H Hty E. rewrite Hty, E in H. discriminate H.
Qed.

Lemma check_dependent_required_missing (c : Criterion.t) :
  expression_typed c = true -> Criterion.context c = None ->
  Criterion.check_dependent_required c = fail (missing_context c).
Proof.
  unfold Criterion.check_dependent_required. rewrite expression_typed_code.
  intros Hty E. rewrite Hty, E. reflexivity.
Qed.

Lemma check_conditional_version_Ok (e : CriterionExpressionType.t) :
  CriterionExpressionType.check_conditional_version e = Ok e -> version_recognized e.
Proof.
  unfold CriterionExpressionType.check_conditional_version, version_recognized.
  destruct (CriterionExpressionType.type e).
  - change (CriterionExpressionType.ExpressionType_eqb CriterionExpressionType.JSONPATH
              CriterionExpressionType.JSONPATH) with true.
    cbn [andb].
    match goal with |- context [negb (?a =? ?b)] => destruct (a =? b) eqn:E end;
      [ | discriminate].
    intros _. apply String.eqb_eq in E. exact E.
  - change (CriterionExpressionType.ExpressionType_eqb CriterionExpressionType.XPATH
              CriterionExpressionType.JSONPATH) with false.
    change (CriterionExpressionType.ExpressionType_eqb CriterionExpressionType.XPATH
              CriterionExpressionType.XPATH) with true.
    cbn [andb].
    match goal with |- context [negb (str_in ?a ?b)] => destruct (str_in a b) eqn:E end;
      [ | discriminate].
    intros _. apply str_in_In in E. exact E.
Qed.

Lemma check_conditional_version_jsonpath (e : CriterionExpressionType.t) :
  CriterionExpressionType.type e = CriterionExpressionType.JSONPATH ->
  CriterionExpressionType.version e <> "draft-goessner-dispatch-jsonpath-00" ->
  CriterionExpressionType.check_conditional_version e = fail invalid_jsonpath_version.
Proof.
  unfold CriterionExpressionType.check_conditional_version. intros Hty Hv.
  rewrite Hty.
  change (CriterionExpressionType.ExpressionType_eqb CriterionExpressionType.JSONPATH
            CriterionExpressionType.JSONPATH) with true.
  cbn [andb]. apply String.eqb_neq in Hv.
  change (CriterionExpressionType.JsonPathVersion_value
            CriterionExpressionType.DRAFT_GOESSNER)
    with "draft-goessner-dispatch-jsonpath-00".
  rewrite Hv. reflexivity.
Qed.

Lemma check_conditional_version_xpath (e : CriterionExpressionType.t) :
  CriterionExpressionType.type e = CriterionExpressionType.XPATH ->
  ~ In (CriterionExpressionType.version e) ["xpath-10"; "xpath-20"; "xpath-30"] ->
  CriterionExpressionType.check_conditional_version e = fail invalid_xpath_version.
Proof.
  unfold CriterionExpressionType.check_conditional_version. intros Hty Hv.
  rewrite Hty.
  change (CriterionExpressionType.ExpressionType_eqb CriterionExpressionType.XPATH
            CriterionExpressionType.JSONPATH) with false.
  change (CriterionExpressionType.ExpressionType_eqb CriterionExpressionType.XPATH
            CriterionExpressionType.XPATH) with true.
  cbn [andb].
  match goal with |- context [negb (str_in ?a ?b)] => destruct (str_in a b) eqn:E end.
  - apply str_in_In in E. contradiction.
  - reflexivity.
Qed.

(** C4.  In a validated document, every criterion whose resolved type is
    jsonpath or xpath, given as the plain tag or as an expression-type
    object, has a context; such a criterion with valid fields and no context
    is rejected with [missing_context_for_expression_type].  Every
    expression-type object of the document carries the jsonpath version
    token if its type is jsonpath, and one of the three xpath version tokens
    if its type is xpath; one with valid fields and another version is
    rejected with [invalid_jsonpath_version], respectively
    [invalid_xpath_version]. *)
Theorem criterion_context_and_version :
  (forall data doc,
     validate_arazzo_data data = Ok doc ->
     Forall (fun c => expression_typed c = true -> Criterion.context c <> None)
            (criteria_of doc)
     /\ Forall version_recognized (expression_types_of doc))
  /\ (forall j c,
        Criterion.validate_fields j = Ok c ->
        expression_typed c = true ->
        Criterion.context c = None ->
        Criterion.model_validate j = fail (missing_context c))
  /\ (forall j e,
        CriterionExpressionType.validate_fields j = Ok e ->
        CriterionExpressionType.type e = CriterionExpressionType.JSONPATH ->
        CriterionExpressionType.version e <> "draft-goessner-dispatch-jsonpath-00" ->
        CriterionExpressionType.model_validate j = fail invalid_jsonpath_version)
  /\ (forall j e,
        CriterionExpressionType.validate_fields j = Ok e ->
        CriterionExpressionType.type e = CriterionExpressionType.XPATH ->
        ~ In (CriterionExpressionType.version e) ["xpath-10"; "xpath-20"; "xpath-30"] ->
        CriterionExpressionType.model_validate j = fail invalid_xpath_version).
Proof.
  split; [ | split; [ | split] ].
  - intros data doc H. split.
    + apply criteria_validated in H. eapply Forall_impl; [ | exact H].
      intros c Hc. apply Criterion_validated in Hc. destruct Hc as [Hc _].
      apply check_dependent_required_Ok. exact Hc.
    + apply expression_types_validated in H. eapply Forall_impl; [ | exact H].
      intros e He. apply CriterionExpressionType_validated in He.
      apply check_conditional_version_Ok. exact He.
  - intros j c Hf Hty E. unfold Criterion.model_validate. rewrite Hf. simpl.
    apply check_dependent_required_missing; assumption.
  - intros j e Hf Hty Hv. unfold CriterionExpressionType.model_validate.
    rewrite Hf. simpl. apply check_conditional_version_jsonpath; assumption.
  - intros j e Hf Hty Hv. unfold CriterionExpressionType.model_validate.
    rewrite Hf. simpl. apply check_conditional_version_xpath; assumption.
Qed.

Lemma criterion_context_and_version_witness :
  (exists doc, validate_arazzo_data get_pet_data = Ok doc
               /\ Forall (fun c => expression_typed c = true -> Criterion.context c <> None)
                         (criteria_of doc)
               /\ Forall version_recognized (expression_types_of doc))
  /\ Criterion.model_validate criterion_jsonpath_without_context
     = fail (PydanticCustomError "missing_context_for_expression_type"
               [("type_value", CStr "jsonpath")])
  /\ Criterion.model_validate criterion_object_without_context
     = fail (PydanticCustomError "missing_context_for_expression_type"
               [("type_value", CStr "xpath")])
  /\ CriterionExpressionType.model_validate jsonpath_unknown_version
     = fail invalid_jsonpath_version
  /\ CriterionExpressionType.model_validate xpath_unknown_version
     = fail invalid_xpath_version.
Proof.
  destruct criterion_context_and_version as (Hdoc & Hctx & Hjson & Hxpath).
  split; [ | split; [ | split; [ | split] ] ].
  - eexists. split; [vm_compute; reflexivity | ].
    apply (Hdoc get_pet_data). vm_compute. reflexivity.
  - etransitivity;
      [refine (Hctx criterion_jsonpath_without_context _ _ _ _);
       [vm_compute; reflexivity | reflexivity | reflexivity]
      | reflexivity].
  - etransitivity;
      [refine (Hctx criterion_object_without_context _ _ _ _);
       [vm_compute; reflexivity | reflexivity | reflexivity]
      | reflexivity].
  - refine (Hjson jsonpath_unknown_version _ _ _ _);
      [vm_compute; reflexivity | reflexivity | discriminate].
  - refine (Hxpath xpath_unknown_version _ _ _ _);
      [vm_compute; reflexivity | reflexivity | ].
    simpl. intros [H | [H | [H | []]]]; discriminate H.
Defined.

(* ================================================================== *)
(** * Minimum lengths *)
(* ================================================================== *)


(** C5 fails for the criteria of a FailureAction.  [SuccessAction.criteria]
    is declared with [min_length=1] and an empty list is rejected as too
    short; [FailureAction.criteria] carries the same description and no
    minimum length, and a document whose failure action has an explicitly
    empty criteria list validates. *)
Theorem failure_action_criteria_may_be_empty :
  rejects_with (SuccessAction.model_validate success_action_empty_criteria)
    (mkError too_short [LKey "criteria"])
  /\ exists doc a,
       validate_arazzo_data empty_failure_criteria_data = Ok doc
       /\ In a (failure_actions_of doc)
       /\ FailureAction.criteria a = Some [].
Proof.
  split.
  - vm_compute. left. reflexivity.
  - do 2 eexists. split; [vm_compute; reflexivity | ].
    split; [left; reflexivity | reflexivity].
Qed.

(* ================================================================== *)
(** * Names and URLs of source descriptions *)
(* ================================================================== *)

Lemma spec_name_class_code (c : ascii) :
  spec_name_class c = true -> SourceDescription.name_class c = true.
Proof.
  unfold spec_name_class, SourceDescription.name_class.
  rewrite !orb_true_iff. tauto.
Qed.

Lemma name_class_spec (c : ascii) :
  SourceDescription.name_class c = true -> is_backslash c = false ->
  spec_name_class c = true.
Proof.
  unfold spec_name_class, SourceDescription.name_class, is_backslash.
  rewrite !orb_true_iff. intros H Hb. rewrite Hb in H.
  intuition discriminate.
Qed.

(** The pattern of the code accepts what the pattern of the specification
    accepts, and differs from it by the backslash only. *)
Lemma name_pattern_spec (s : string) :
  (spec_name_pattern s = true -> SourceDescription.name_pattern s = true)
  /\ (SourceDescription.name_pattern s = true ->
      string_existsb is_backslash s = false ->
      spec_name_pattern s = true).
Proof.
  unfold spec_name_pattern, SourceDescription.name_pattern.
  rewrite !andb_true_iff. split.
  - intros [Hne Hall]. split; [exact Hne | ]. clear Hne.
    induction s as [ | c r IH]; simpl in *; [reflexivity | ].
    apply andb_true_iff in Hall. destruct Hall as [Hc Hr].
    rewrite (spec_name_class_code _ Hc). simpl. apply IH. exact Hr.
  - intros [Hne Hall] Hb. split; [exact Hne | ]. clear Hne.
    induction s as [ | c r IH]; simpl in *; [reflexivity | ].
    apply andb_true_iff in Hall. destruct Hall as [Hc Hr].
    apply orb_false_iff in Hb. destruct Hb as [Hbc Hbr].
    rewrite (name_class_spec _ Hc Hbc). simpl. apply IH; assumption.
Qed.

(** A name is accepted exactly when the pattern of the code matches it. *)
Lemma source_name_accepted (name : string) (rest : list (string * Json)) :
  required "name" (pattern SourceDescription.name_pattern)
    (("name", JStr name) :: rest)
  = if SourceDescription.name_pattern name then Ok name
    else Invalid [mkError string_pattern_mismatch [LKey "name"]].
Proof.
  unfold required, required_as, find_field, pattern. simpl.
  destruct (SourceDescription.name_pattern name); reflexivity.
Qed.

(** A url with a whitespace character is rejected. *)
Lemma url_whitespace_rejected (v : string) :
  string_existsb is_space v = true ->
  SourceDescription.validate_uri_reference v
  = fail (value_error url_must_not_contain_whitespace).
Proof.
  intros H. unfold SourceDescription.validate_uri_reference. rewrite H. reflexivity.
Qed.

(** C6 fails for names with a backslash.  The pattern is written in a raw
    string with a doubled backslash, so the character class holds the
    backslash besides the hyphen: the name [pet\store] does not match
    [^[A-Za-z0-9_-]+$], and the document that uses it validates. *)
Theorem source_name_pattern_admits_backslash :
  spec_name_pattern "pet\store" = false
  /\ SourceDescription.name_pattern "pet\store" = true
  /\ exists doc,
       validate_arazzo_data backslash_name_data = Ok doc
       /\ map SourceDescription.name (ArazzoSpecification.source_descriptions doc)
          = ["pet\store"].
Proof.
  split; [reflexivity | ]. split; [reflexivity | ].
  eexists. split; [vm_compute; reflexivity | reflexivity].
Qed.

(* ================================================================== *)
(** * Uniqueness *)
(* ================================================================== *)

Lemma unique_list_NoDup {A : Type} `{PyItem A} (item : Validator A) n
  (o : option (list A)) :
  unique_list item n o -> NoDup (opt_list o).
Proof. intros (_ & Hnd & _). eapply NoDup_map_inv. exact Hnd. Qed.

(** X4.  No list that is declared unique holds two equal entries in a
    validated document: the names of the source descriptions, the ids of
    the workflows and the ids of the steps of a workflow are distinct, and
    so are the entries of every value-keyed list. *)
Lemma uniqueness_of_validated (data : Json) (doc : ArazzoSpecification.t) :
  validate_arazzo_data data = Ok doc ->
  NoDup (map SourceDescription.name (ArazzoSpecification.source_descriptions doc))
  /\ NoDup (map Workflow.workflow_id (ArazzoSpecification.workflows doc))
  /\ Forall (fun w =>
               NoDup (map Step.step_id (Workflow.steps w))
               /\ NoDup (opt_list (Workflow.depends_on w))
               /\ NoDup (opt_list (Workflow.success_actions w))
               /\ NoDup (opt_list (Workflow.failure_actions w))
               /\ NoDup (opt_list (Workflow.parameters w)))
            (ArazzoSpecification.workflows doc)
  /\ Forall (fun s =>
               NoDup (opt_list (Step.parameters s))
               /\ NoDup (opt_list (Step.success_criteria s))
               /\ NoDup (opt_list (Step.on_success s))
               /\ NoDup (opt_list (Step.on_failure s))
               /\ match Step.request_body s with
                  | Some b => NoDup (opt_list (RequestBody.replacements b))
                  | None => True
                  end)
            (steps_of doc)
  /\ Forall (fun a => NoDup (opt_list (SuccessAction.criteria a)))
            (success_actions_of doc)
  /\ Forall (fun a => NoDup (opt_list (FailureAction.criteria a)))
            (failure_actions_of doc).
Proof.
  intros H. pose proof (Document_validated _ H) as [(_ & Hns & _) (Hw & Hnw & _) _].
  split; [exact Hns | ]. split; [exact Hnw | ]. split; [ | split; [ | split] ].
  - eapply Forall_impl; [ | exact Hw]. intros w Hv.
    apply Workflow_validated in Hv. destruct Hv as [Hd (_ & Hs & _) Hsa Hfa Hp].
    repeat split; try assumption; eapply unique_list_NoDup; eassumption.
  - apply steps_validated in H. eapply Forall_impl; [ | exact H]. intros s Hv.
    apply Step_validated in Hv. destruct Hv as [_ Hp Hb Hc Hs Hf].
    repeat split; try (eapply unique_list_NoDup; eassumption).
    destruct (Step.request_body s); [ | exact I].
    eapply unique_list_NoDup; eassumption.
  - apply success_actions_validated in H. eapply Forall_impl; [ | exact H].
    intros a Hv. apply SuccessAction_validated in Hv. destruct Hv as [_ Hc].
    eapply unique_list_NoDup; eassumption.
  - apply failure_actions_validated in H. eapply Forall_impl; [ | exact H].
    intros a Hv. apply FailureAction_validated in Hv. destruct Hv as [_ _ _ Hc].
    eapply unique_list_NoDup; eassumption.
Qed.

Lemma py_set_In (l : list string) (x : string) : In x (py_set l) <-> In x l.
Proof.
  induction l as [ | y r IH]; simpl; [tauto | ].
  destruct (str_in y r) eqn:E; simpl; rewrite IH.
  - apply str_in_In in E. split; [tauto | ]. intros [<- | Hx]; assumption.
  - tauto.
Qed.

Lemma py_set_NoDup (l : list string) : NoDup (py_set l).
Proof.
  induction l as [ | y r IH]; simpl; [constructor | ].
  destruct (str_in y r) eqn:E; [exact IH | ].
  constructor; [ | exact IH]. rewrite py_set_In. intros Hin.
  apply str_in_In in Hin. congruence.
Qed.

Lemma insert_sorted_In (x y : string) (l : list string) :
  In y (insert_sorted x l) <-> y = x \/ In y l.
Proof.
  induction l as [ | z r IH]; simpl; [intuition congruence | ].
  destruct (String.leb x z); simpl; [intuition congruence | ].
  rewrite IH. intuition congruence.
Qed.

Lemma sorted_In (l : list string) (x : string) : In x (sorted l) <-> In x l.
Proof.
  unfold sorted. induction l as [ | y r IH]; simpl; [tauto | ].
  rewrite insert_sorted_In, IH. intuition congruence.
Qed.

(** The loop collects the identifiers that occur a second time. *)
Lemma duplicate_ids_spec (ids : list string) :
  forall seen x,
    In x (duplicate_ids seen ids)
    <-> (In x seen /\ In x ids) \/ (2 <= count_occ string_dec ids x)%nat.
Proof.
  induction ids as [ | y r IH]; intros seen x; cbn [duplicate_ids].
  - simpl. split; [intros [] | intros [[_ []] | H]; lia].
  - pose proof (count_occ_In string_dec r x) as Hcount.
    destruct (str_in y seen) eqn:E.
    + apply str_in_In in E. cbn [In]. rewrite IH. simpl count_occ.
      destruct (string_dec y x) as [-> | Hne].
      * split; [intros _; left; tauto | intros _; left; reflexivity].
      * split.
        -- intros [Heq | [[Hs Hr] | Hc]]; [congruence | left; tauto | right; exact Hc].
        -- intros [[Hs [Heq | Hr]] | Hc]; [congruence | right; left; tauto | right; right; exact Hc].
    + assert (Hy : ~ In y seen).
      { intros Hin. apply str_in_In in Hin. congruence. }
      rewrite IH. simpl count_occ. cbn [In].
      destruct (string_dec y x) as [-> | Hne].
      * split.
        -- intros [[_ Hr] | Hc]; right; [apply Hcount in Hr | ]; lia.
        -- intros [[Hs _] | Hc]; [contradiction | ].
           left. split; [left; reflexivity | apply Hcount; lia].
      * split.
        -- intros [[[Heq | Hs] Hr] | Hc]; [congruence | left; tauto | right; exact Hc].
        -- intros [[Hs [Heq | Hr]] | Hc]; [congruence | left; tauto | right; exact Hc].
Qed.

(** An identifier-keyed list with a repeated identifier is rejected, and the
    error lists, once each, exactly the identifiers that occur more than
    once. *)
Lemma unique_ids_reports_every_duplicate {A : Type} list_name (id : A -> string)
  (v : list A) :
  ~ NoDup (map id v) ->
  exists ds,
    unique_ids list_name id v = fail (value_error (must_contain_unique_ids list_name ds))
    /\ NoDup ds
    /\ forall x, In x ds <-> (2 <= count_occ string_dec (map id v) x)%nat.
Proof.
  intros Hdup. unfold unique_ids.
  destruct (List.length (map id v) =? List.length (py_set (map id v)))%nat eqn:E.
  - apply Nat.eqb_eq in E. symmetry in E. apply py_set_NoDup_iff in E. contradiction.
  - simpl. eexists. split; [reflexivity | ]. split; [apply py_set_NoDup | ].
    intros x. rewrite py_set_In, duplicate_ids_spec. simpl. tauto.
Qed.

Lemma duplicates_found_str (v : list string) :
  forall seen, duplicates_found (map JStr seen) v = duplicate_ids seen v.
Proof.
  induction v as [ | x r IH]; intros seen; cbn [duplicates_found duplicate_ids];
    [reflexivity | ].
  assert (E : in_seen (hashable_item x) (map JStr seen) = str_in x seen).
  { apply eq_true_iff_eq. rewrite in_seen_In, str_in_In. simpl.
    rewrite in_map_iff. split.
    - intros (y & Hy & Hin). injection Hy as <-. exact Hin.
    - intros Hin. exists x. auto. }
  rewrite E. destruct (str_in x seen).
  - rewrite IH. reflexivity.
  - rewrite <- IH. reflexivity.
Qed.

(** A value-keyed list of strings (dependsOn) with a repeated entry is
    rejected, and the error lists, once each, exactly the entries that occur
    more than once. *)
Lemma unique_strings_report_every_duplicate (v : list string) field_name :
  ~ NoDup v ->
  exists ds,
    validate_unique_items v field_name
    = fail (value_error (must_contain_unique_items field_name (sorted ds)))
    /\ NoDup ds
    /\ forall x, In x (sorted ds) <-> (2 <= count_occ string_dec v x)%nat.
Proof.
  intros Hdup. unfold validate_unique_items.
  change (@nil Json) with (map JStr []). rewrite duplicates_found_str.
  destruct (duplicate_ids [] v) as [ | d ds] eqn:E.
  - exfalso. apply Hdup. apply NoDup_count_occ with (decA := string_dec). intros x.
    destruct (le_lt_dec (count_occ string_dec v x) 1) as [Hle | Hlt]; [exact Hle | ].
    assert (Hin : In x (duplicate_ids [] v)) by (apply duplicate_ids_spec; right; lia).
    rewrite E in Hin. destruct Hin.
  - exists (py_set (d :: ds)). split; [reflexivity | ]. split; [apply py_set_NoDup | ].
    intros x. rewrite sorted_In, py_set_In, <- E, duplicate_ids_spec. simpl. tauto.
Qed.

(** A value-keyed list of models with a repeated entry is not reported:
    building the set of duplicates raises [TypeError]. *)
Lemma duplicate_models_raise {A : Type} `{BaseModel A} (v : list A) field_name :
  ~ NoDup v ->
  validate_unique_items v field_name = Raised (TypeError "unhashable type").
Proof.
  intros Hdup. unfold validate_unique_items.
  destruct (duplicates_found [] v) as [ | d ds] eqn:E; [ | reflexivity].
  exfalso. apply Hdup. apply duplicates_found_nil in E. destruct E as [Hnd _].
  eapply NoDup_map_inv. exact Hnd.
Qed.

(** C7 fails for the value-keyed lists of models.  A step that lists the
    same parameter twice is not rejected with an error that lists the
    duplicate: [set(duplicates_found)] raises [TypeError] on the unhashable
    model, and the exception leaves [validate_arazzo_data].  The lists of
    strings and the identifier-keyed lists, which build the same set from
    strings, do report each duplicate. *)
Theorem duplicate_models_escape_as_TypeError :
  validate_arazzo_data duplicate_parameters_data = Raised (TypeError "unhashable type")
  /\ validate_arazzo_data duplicate_depends_on_data
     = Invalid [mkError (value_error (must_contain_unique_items "depends_on" ["a"; "b"]))
                        [LKey "workflows"; LIdx 0; LKey "dependsOn"]]
  /\ validate_arazzo_data invalid_duplicate_step_id
     = Invalid [mkError (value_error (must_contain_unique_ids "steps" ["stepA"; "stepB"]))
                        [LKey "workflows"; LIdx 0; LKey "steps"]].
Proof.
  split; [vm_compute; reflexivity | ].
  split; vm_compute; reflexivity.
Qed.

(* ================================================================== *)
(** * A document without info.version *)
(* ================================================================== *)

Lemma lookup_set_key_same k v m old :
  lookup k m = Some old -> lookup k (set_key k v m) = Some v.
Proof.
  induction m as [ | [k' v'] r IH]; simpl; [discriminate | ].
  destruct (k =? k') eqn:E.
  - intros _. rewrite String.eqb_sym, E. simpl. rewrite E. reflexivity.
  - intros H. rewrite String.eqb_sym, E. simpl. rewrite E. apply IH. exact H.
Qed.

Lemma lookup_set_key_other k k' v m :
  (k' =? k) = false -> lookup k' (set_key k v m) = lookup k' m.
Proof.
  intros Hne. induction m as [ | [k0 v0] r IH]; simpl; [reflexivity | ].
  destruct (k0 =? k) eqn:E; simpl.
  - apply String.eqb_eq in E. subst k0. rewrite Hne. reflexivity.
  - rewrite IH. reflexivity.
Qed.

Lemma lookup_remove_key_same k m : lookup k (remove_key k m) = None.
Proof.
  induction m as [ | [k0 v0] r IH]; simpl; [reflexivity | ].
  destruct (k0 =? k) eqn:E; simpl; [exact IH | ].
  rewrite String.eqb_sym, E. exact IH.
Qed.

Lemma lookup_remove_key_other k k' m :
  (k' =? k) = false -> lookup k' (remove_key k m) = lookup k' m.
Proof.
  intros Hne. induction m as [ | [k0 v0] r IH]; simpl; [reflexivity | ].
  destruct (k0 =? k) eqn:E; simpl.
  - apply String.eqb_eq in E. subst k0. rewrite Hne. exact IH.
  - rewrite IH. reflexivity.
Qed.

Lemma find_field_set_key_other alias name k v m :
  (alias =? k) = false -> (name =? k) = false ->
  find_field alias name (set_key k v m) = find_field alias name m.
Proof.
  intros Ha Hn. unfold find_field.
  rewrite !lookup_set_key_other by assumption. reflexivity.
Qed.

Lemma find_field_remove_key_other alias name k m :
  (alias =? k) = false -> (name =? k) = false ->
  find_field alias name (remove_key k m) = find_field alias name m.
Proof.
  intros Ha Hn. unfold find_field.
  rewrite !lookup_remove_key_other by assumption. reflexivity.
Qed.

Lemma required_set_key_other {A : Type} name (v : Validator A) k x m :
  (to_camel name =? k) = false -> (name =? k) = false ->
  required name v (set_key k x m) = required name v m.
Proof.
  intros Ha Hn. unfold required, required_as.
  rewrite find_field_set_key_other by assumption. reflexivity.
Qed.

Lemma default_set_key_other {A : Type} name (d : A) (v : Validator A) k x m :
  (to_camel name =? k) = false -> (name =? k) = false ->
  default name d v (set_key k x m) = default name d v m.
Proof.
  intros Ha Hn. unfold default, default_as.
  rewrite find_field_set_key_other by assumption. reflexivity.
Qed.

Lemma required_remove_key_other {A : Type} name (v : Validator A) k m :
  (to_camel name =? k) = false -> (name =? k) = false ->
  required name v (remove_key k m) = required name v m.
Proof.
  intros Ha Hn. unfold required, required_as.
  rewrite find_field_remove_key_other by assumption. reflexivity.
Qed.

Lemma default_remove_key_other {A : Type} name (d : A) (v : Validator A) k m :
  (to_camel name =? k) = false -> (name =? k) = false ->
  default name d v (remove_key k m) = default name d v m.
Proof.
  intros Ha Hn. unfold default, default_as.
  rewrite find_field_remove_key_other by assumption. reflexivity.
Qed.

(** An [info] that validates, once its version is taken out, fails with the
    one error that the version is missing. *)
Lemma Info_without_version (info : list (string * Json)) (i : Info.t) :
  Info.model_validate (JMap info) = Ok i ->
  Info.model_validate (JMap (remove_key "version" info))
  = Invalid [mkError missing [LKey "version"]].
Proof.
  unfold Info.model_validate, model. intros H. invert_fields H.
  rewrite (required_remove_key_other "title") by reflexivity.
  rewrite (default_remove_key_other "summary") by reflexivity.
  rewrite (default_remove_key_other "description") by reflexivity.
  repeat match goal with Hf : _ = Ok _ |- _ => rewrite Hf; clear Hf end.
  unfold required at 1, required_as, find_field.
  change (to_camel "version") with "version".
  rewrite lookup_remove_key_same. reflexivity.
Qed.

(** C8.  Take any document that validates and remove the key [version] from
    its [info] mapping: validation fails with exactly one error, the missing
    required field at [info.version], and with none for any other field. *)
Theorem missing_info_version_single_error :
  forall m info doc,
    lookup "info" m = Some (JMap info) ->
    validate_arazzo_data (JMap m) = Ok doc ->
    validate_arazzo_data (without_info_version m info)
    = Invalid [mkError missing [LKey "info"; LKey "version"]].
Proof.
  intros m info doc Hinfo H.
  unfold validate_arazzo_data, ArazzoSpecification.model_validate, model,
    without_info_version in *.
  invert_fields H.
  rewrite (required_set_key_other "arazzo") by reflexivity.
  rewrite (required_set_key_other "source_descriptions") by reflexivity.
  rewrite (required_set_key_other "workflows") by reflexivity.
  rewrite (default_set_key_other "components") by reflexivity.
  assert (Hi : required "info" Info.model_validate
                 (set_key "info" (JMap (remove_key "version" info)) m)
               = Invalid [mkError missing [LKey "info"; LKey "version"]]).
  { match goal with
    | Hf : required "info" Info.model_validate m = Ok ?i |- _ =>
        rename Hf into Hok
    end.
    unfold required, required_as, find_field in Hok |- *.
    change (to_camel "info") with "info" in Hok |- *.
    rewrite Hinfo in Hok. apply at_loc_Ok in Hok.
    rewrite (@lookup_set_key_same "info" _ m _ Hinfo).
    rewrite (Info_without_version _ Hok). reflexivity. }
  rewrite Hi.
  repeat match goal with
         | Hf : required _ _ m = Ok _ |- _ => rewrite Hf; clear Hf
         | Hf : default _ _ _ m = Ok _ |- _ => rewrite Hf; clear Hf
         end.
  reflexivity.
Qed.

Lemma missing_info_version_single_error_witness :
  validate_arazzo_data invalid_data_missing_info_version
  = Invalid [mkError missing [LKey "info"; LKey "version"]].
Proof.
  refine (@missing_info_version_single_error data_with_info_version complete_info
            _ _ _);
    [reflexivity | vm_compute; reflexivity].
Defined.

(* ================================================================== *)
(** * Validating again *)
(* ================================================================== *)

(** The set order is read in one place only, the message of an
    identifier-keyed validator that has found duplicates: what a validator
    accepts, and the value it returns, are the same under every order. *)

Lemma collect_agree {A B : Type} (rf rf' : Res (A -> B)) (ra ra' : Res A) (b : B) :
  (forall f, rf = Ok f -> rf' = Ok f) ->
  (forall a, ra = Ok a -> ra' = Ok a) ->
  rf <*> ra = Ok b -> rf' <*> ra' = Ok b.
Proof.
  intros Hf Ha H. apply collect_Ok in H. destruct H as (f & a & Ef & Ea & ->).
  rewrite (Hf f Ef), (Ha a Ea). reflexivity.
Qed.

Ltac agree_fields H :=
  lazymatch type of H with
  | collect _ _ = Ok _ =>
      refine (collect_agree _ _ H);
      [ let f := fresh "f" in
        let Hf := fresh "Hf" in
        intros f Hf; agree_fields Hf
      | let a := fresh "a" in
        let Ha := fresh "Ha" in
        intros a Ha; try exact Ha ]
  | _ => exact H
  end.

Lemma required_agree {A : Type} name (v v' : Validator A) m (a : A) :
  agree v v' -> required name v m = Ok a -> required name v' m = Ok a.
Proof.
  intros Hv. unfold required, required_as.
  destruct (find_field (to_camel name) name m) as [[k j] | ]; [ | discriminate].
  intros H. apply at_loc_Ok in H. rewrite (Hv _ _ H). reflexivity.
Qed.

Lemma field_validator_agree {A : Type} (v v' : Validator A) (f f' : A -> Res A) :
  agree v v' -> (forall a x, f a = Ok x -> f' a = Ok x) ->
  agree (field_validator v f) (field_validator v' f').
Proof.
  intros Hv Hf j x H. unfold field_validator in *. apply and_then_Ok in H.
  destruct H as (a & Ha & E). rewrite (Hv _ _ Ha). simpl. apply Hf. exact E.
Qed.

Lemma validate_items_agree {A : Type} (item item' : Validator A) :
  agree item item' ->
  forall l i xs, validate_items item i l = Ok xs -> validate_items item' i l = Ok xs.
Proof.
  intros Hitem l. induction l as [ | j r IH]; intros i xs H;
    cbn [validate_items] in *; [exact H | ].
  refine (collect_agree _ _ H).
  - intros f Hf. refine (collect_agree _ _ Hf); [intros g Hg; exact Hg | ].
    intros a Ha. apply at_loc_Ok in Ha. rewrite (Hitem _ _ Ha). reflexivity.
  - intros a Ha. apply IH. exact Ha.
Qed.

Lemma list_of_agree {A : Type} n (item item' : Validator A) :
  agree item item' -> agree (list_of n item) (list_of n item').
Proof.
  intros Hitem j x H. unfold list_of in *. destruct j; try discriminate H.
  apply and_then_Ok in H. destruct H as (v & Hv & E).
  rewrite (validate_items_agree Hitem _ _ Hv). exact E.
Qed.

Lemma unique_ids_agree (first second : SetOrder) {A : Type} list_name
  (id : A -> string) (v x : list A) :
  @unique_ids first A list_name id v = Ok x -> @unique_ids second A list_name id v = Ok x.
Proof.
  unfold unique_ids.
  destruct (negb (List.length (map id v) =? List.length (py_set (map id v)))%nat);
    [discriminate | intros H; exact H].
Qed.

Lemma Workflow_agree (first second : SetOrder) :
  agree (@Workflow.model_validate first) (@Workflow.model_validate second).
Proof.
  intros j w H. unfold Workflow.model_validate, model in *.
  destruct j; try discriminate H. agree_fields H.
  revert Ha. apply required_agree. apply field_validator_agree.
  - intros j' x' Hx. exact Hx.
  - intros v x. apply unique_ids_agree.
Qed.

Lemma validate_arazzo_data_agree (first second : SetOrder) :
  agree (@validate_arazzo_data first) (@validate_arazzo_data second).
Proof.
  intros j doc H. unfold validate_arazzo_data, ArazzoSpecification.model_validate, model in *.
  destruct j; try discriminate H. agree_fields H.
  - revert Ha. apply required_agree. apply field_validator_agree.
    + intros j' x' Hx. exact Hx.
    + intros v x. apply unique_ids_agree.
  - revert Ha. apply required_agree. apply field_validator_agree.
    + apply list_of_agree. apply Workflow_agree.
    + intros v x. apply unique_ids_agree.
Qed.

(** C9.  When [validate_arazzo_data] succeeds on an input, a second call on
    the same input succeeds too, and the two object graphs are identical,
    whatever order the sets of the two calls are iterated in: the hash seed
    of the process, the one thing that can differ from one call to another,
    has no part in the outcome of a validation that succeeds.  It has one in
    the report of a validation that fails. *)
Theorem revalidation_identical :
  (forall (first second : SetOrder) data doc,
     @validate_arazzo_data first data = Ok doc ->
     validate_twice first second data = Ok (doc, doc))
  /\ (exists (first second : SetOrder) data,
        @validate_arazzo_data first data <> @validate_arazzo_data second data).
Proof.
  split.
  - intros first second data doc H. unfold validate_twice. rewrite H. simpl.
    rewrite (validate_arazzo_data_agree first second _ H). reflexivity.
  - exists insertion_order, reversed_order, invalid_duplicate_step_id.
    vm_compute. discriminate.
Qed.

Lemma revalidation_identical_witness :
  exists doc, validate_twice insertion_order reversed_order get_pet_data = Ok (doc, doc).
Proof.
  eexists. refine (proj1 revalidation_identical insertion_order reversed_order get_pet_data _ _).
  vm_compute. reflexivity.
Defined.

(* ================================================================== *)
(** * Empty strings as targets of actions *)
(* ================================================================== *)

Lemma truthy_one_empty (w s : string) :
  one_empty w s ->
  truthy (Some w) || truthy (Some s) = true
  /\ truthy (Some w) && truthy (Some s) = false.
Proof.
  unfold truthy. intros [[-> Hs] | [Hw ->]].
  - apply String.eqb_neq in Hs. rewrite Hs. split; reflexivity.
  - apply String.eqb_neq in Hw. rewrite Hw. split; reflexivity.
Qed.

(** C10, as the code has it.  The target of an action is judged by the
    truth value of the string.  A SuccessAction of type goto, or a
    FailureAction of type goto or retry, with valid fields, whose workflowId
    and stepId are both the empty string is rejected with
    [goto_missing_target], respectively [goto_retry_missing_target].  When
    both are present and exactly one is the empty string, no target error is
    raised: the SuccessAction of type goto and the FailureAction of type
    goto validate, and the FailureAction of type retry validates when it
    has a retryAfter. *)
Theorem empty_string_targets :
  (forall j a,
     SuccessAction.validate_fields j = Ok a ->
     SuccessAction.type a = SuccessAction.GOTO ->
     SuccessAction.workflow_id a = Some "" ->
     SuccessAction.step_id a = Some "" ->
     SuccessAction.model_validate j
     = fail (PydanticCustomError "goto_missing_target" [("type", CStr "goto")]))
  /\ (forall j a,
        FailureAction.validate_fields j = Ok a ->
        FailureAction.type a = FailureAction.GOTO
        \/ FailureAction.type a = FailureAction.RETRY ->
        FailureAction.workflow_id a = Some "" ->
        FailureAction.step_id a = Some "" ->
        FailureAction.model_validate j
        = fail (failure_error "goto_retry_missing_target" a))
  /\ (forall j a w s,
        SuccessAction.validate_fields j = Ok a ->
        SuccessAction.type a = SuccessAction.GOTO ->
        SuccessAction.workflow_id a = Some w ->
        SuccessAction.step_id a = Some s ->
        one_empty w s ->
        SuccessAction.model_validate j = Ok a)
  /\ (forall j a w s,
        FailureAction.validate_fields j = Ok a ->
        FailureAction.type a = FailureAction.GOTO
        \/ (FailureAction.type a = FailureAction.RETRY
            /\ FailureAction.retry_after a <> None) ->
        FailureAction.workflow_id a = Some w ->
        FailureAction.step_id a = Some s ->
        one_empty w s ->
        FailureAction.model_validate j = Ok a).
Proof.
  split; [ | split; [ | split] ].
  - intros j a Hf Hty Hw Hs. unfold SuccessAction.model_validate. rewrite Hf. simpl.
    unfold SuccessAction.check_conditional_goto. rewrite Hty, Hw, Hs. reflexivity.
  - intros j a Hf Hty Hw Hs. unfold FailureAction.model_validate. rewrite Hf. simpl.
    unfold FailureAction.check_conditional_goto_retry, failure_error.
    rewrite Hw, Hs. destruct Hty as [-> | ->]; reflexivity.
  - intros j a w s Hf Hty Hw Hs Hone. unfold SuccessAction.model_validate.
    rewrite Hf. simpl. unfold SuccessAction.check_conditional_goto.
    rewrite Hty, Hw, Hs. destruct (truthy_one_empty Hone) as [-> ->]. reflexivity.
  - intros j a w s Hf Hty Hw Hs Hone. unfold FailureAction.model_validate.
    rewrite Hf. simpl. unfold FailureAction.check_conditional_goto_retry.
    rewrite Hw, Hs. destruct (truthy_one_empty Hone) as [-> ->].
    destruct Hty as [-> | [-> Hq] ]; [reflexivity | ].
    destruct (FailureAction.retry_after a); [reflexivity | congruence].
Qed.

Lemma empty_string_targets_witness :
  SuccessAction.model_validate goto_both_empty
  = fail (PydanticCustomError "goto_missing_target" [("type", CStr "goto")])
  /\ FailureAction.model_validate retry_both_empty
     = fail (PydanticCustomError "goto_retry_missing_target" [("type", CStr "retry")])
  /\ (exists a, SuccessAction.model_validate goto_one_empty = Ok a)
  /\ (exists a, FailureAction.model_validate retry_one_empty = Ok a).
Proof.
  destruct empty_string_targets as (Hsa & Hfa & Hsa1 & Hfa1).
  split; [ | split; [ | split] ].
  - refine (Hsa goto_both_empty _ _ _ _ _);
      [vm_compute; reflexivity | reflexivity | reflexivity | reflexivity].
  - etransitivity;
      [refine (Hfa retry_both_empty _ _ _ _ _);
       [vm_compute; reflexivity | right; reflexivity | reflexivity | reflexivity]
      | reflexivity].
  - eexists. refine (Hsa1 goto_one_empty _ "" "s1" _ _ _ _ _);
      [vm_compute; reflexivity | reflexivity | reflexivity | reflexivity | ].
    left. split; [reflexivity | discriminate].
  - eexists. refine (Hfa1 retry_one_empty _ "" "s1" _ _ _ _ _);
      [vm_compute; reflexivity | | reflexivity | reflexivity | ].
    + right. split; [reflexivity | discriminate].
    + left. split; [reflexivity | discriminate].
Defined.

(** C10 as it is worded fails for a FailureAction of type retry: with an
    empty workflowId, a stepId and no retryAfter, both target fields are
    present and one of them is the empty string, no target error is raised,
    and the action is rejected all the same, with
    [retry_missing_retry_after]. *)
Lemma empty_string_targets_counterexample :
  exists a,
    FailureAction.validate_fields retry_one_empty_without_delay = Ok a
    /\ FailureAction.type a = FailureAction.RETRY
    /\ FailureAction.workflow_id a = Some ""
    /\ FailureAction.step_id a = Some "s1"
    /\ FailureAction.model_validate retry_one_empty_without_delay
       = fail (PydanticCustomError "retry_missing_retry_after" [("type", CStr "retry")]).
Proof.
  eexists. split; [vm_compute; reflexivity | ].
  repeat split; reflexivity.
Qed.

(* ================================================================== *)
(** * Targets of success actions *)
(* ================================================================== *)

Lemma check_conditional_goto_iff (a : SuccessAction.t) :
  SuccessAction.check_conditional_goto a = Ok a
  <-> SuccessAction.type a = SuccessAction.END
      \/ one_target (SuccessAction.workflow_id a) (SuccessAction.step_id a).
Proof.
  unfold SuccessAction.check_conditional_goto, one_target.
  destruct (SuccessAction.type a);
    [change (SuccessAction.ActionType_eqb SuccessAction.END SuccessAction.GOTO) with false
    | change (SuccessAction.ActionType_eqb SuccessAction.GOTO SuccessAction.GOTO) with true];
    cbv iota.
  - split; auto.
  - destruct (truthy (SuccessAction.workflow_id a)),
      (truthy (SuccessAction.step_id a)); simpl; unfold fail;
      split; try discriminate; auto; intros [H | H]; discriminate H.
Qed.

(** X1.  In a validated document every SuccessAction of type goto names
    exactly one non-empty target.  The whole-node check accepts an action
    exactly when its type is end, whatever targets it carries, or exactly
    one of workflowId and stepId is a non-empty string; a goto action with
    valid fields and two non-empty targets is rejected with
    [goto_exclusive_target]. *)
Theorem success_action_goto_targets :
  (forall data doc,
     validate_arazzo_data data = Ok doc ->
     Forall (fun a =>
               SuccessAction.type a = SuccessAction.GOTO ->
               one_target (SuccessAction.workflow_id a) (SuccessAction.step_id a))
            (success_actions_of doc))
  /\ (forall a,
        SuccessAction.check_conditional_goto a = Ok a
        <-> SuccessAction.type a = SuccessAction.END
            \/ one_target (SuccessAction.workflow_id a) (SuccessAction.step_id a))
  /\ (forall j a,
        SuccessAction.validate_fields j = Ok a ->
        SuccessAction.type a = SuccessAction.GOTO ->
        truthy (SuccessAction.workflow_id a) = true ->
        truthy (SuccessAction.step_id a) = true ->
        SuccessAction.model_validate j = fail (success_error "goto_exclusive_target" a)).
Proof.
  split; [ | split; [exact check_conditional_goto_iff | ] ].
  - intros data doc H. apply success_actions_validated in H.
    eapply Forall_impl; [ | exact H]. intros a Ha Hty.
    apply SuccessAction_validated in Ha. destruct Ha as [Hc _].
    apply check_conditional_goto_iff in Hc. destruct Hc as [Hend | Hone];
      [congruence | exact Hone].
  - intros j a Hf Hty Hw Hs. unfold SuccessAction.model_validate. rewrite Hf. simpl.
    unfold SuccessAction.check_conditional_goto, success_error.
    rewrite Hty, Hw, Hs. reflexivity.
Qed.

Lemma success_action_goto_targets_witness :
  (exists doc, validate_arazzo_data goto_data = Ok doc
               /\ Forall (fun a =>
                            SuccessAction.type a = SuccessAction.GOTO ->
                            one_target (SuccessAction.workflow_id a)
                                       (SuccessAction.step_id a))
                         (success_actions_of doc))
  /\ (exists a, SuccessAction.model_validate end_action_with_targets = Ok a
                /\ SuccessAction.workflow_id a = Some "other"
                /\ SuccessAction.step_id a = Some "s2")
  /\ SuccessAction.model_validate goto_both_set
     = fail (PydanticCustomError "goto_exclusive_target" [("type", CStr "goto")]).
Proof.
  destruct success_action_goto_targets as (Hdoc & Hiff & Hboth).
  split; [ | split].
  - eexists. split; [vm_compute; reflexivity | ].
    apply (Hdoc goto_data). vm_compute. reflexivity.
  - eexists. split; [vm_compute; reflexivity | split; reflexivity].
  - etransitivity;
      [refine (Hboth goto_both_set _ _ _ _ _);
       [vm_compute; reflexivity | reflexivity | reflexivity | reflexivity]
      | reflexivity].
Defined.

(* ================================================================== *)
(** * Targets and delays of failure actions *)
(* ================================================================== *)

Lemma check_conditional_goto_retry_iff (a : FailureAction.t) :
  FailureAction.check_conditional_goto_retry a = Ok a
  <-> match FailureAction.type a with
      | FailureAction.END => True
      | FailureAction.GOTO =>
          one_target (FailureAction.workflow_id a) (FailureAction.step_id a)
      | FailureAction.RETRY =>
          one_target (FailureAction.workflow_id a) (FailureAction.step_id a)
          /\ FailureAction.retry_after a <> None
      end.
Proof.
  unfold FailureAction.check_conditional_goto_retry, one_target.
  destruct (FailureAction.type a);
    [change (FailureAction.ActionType_eqb FailureAction.END FailureAction.GOTO) with false;
     change (FailureAction.ActionType_eqb FailureAction.END FailureAction.RETRY) with false
    | change (FailureAction.ActionType_eqb FailureAction.GOTO FailureAction.GOTO) with true;
      change (FailureAction.ActionType_eqb FailureAction.GOTO FailureAction.RETRY) with false
    | change (FailureAction.ActionType_eqb FailureAction.RETRY FailureAction.GOTO) with false;
      change (FailureAction.ActionType_eqb FailureAction.RETRY FailureAction.RETRY) with true];
    cbn [orb and_then].
  - split; auto.
  - destruct (truthy (FailureAction.workflow_id a)),
      (truthy (FailureAction.step_id a)); simpl; unfold fail;
      split; try discriminate; auto.
  - destruct (truthy (FailureAction.workflow_id a)),
      (truthy (FailureAction.step_id a)), (FailureAction.retry_after a);
      simpl; unfold fail; split; intros H;
      try discriminate H;
      try (match type of H with
           | _ /\ _ => destruct H as [H1 H2]; first [discriminate H1 | congruence]
           end);
      try (split; [reflexivity | discriminate]);
      try reflexivity.
Qed.

(** X2.  In a validated document every FailureAction of type goto or retry
    names exactly one non-empty target.  The whole-node check accepts an
    action of type end always, one of type goto exactly when one of
    workflowId and stepId is a non-empty string, and one of type retry
    exactly when, besides, retryAfter is present; retryLimit plays no part.
    An action of type goto or retry with valid fields and two non-empty
    targets is rejected with [goto_retry_exclusive_target]. *)
Theorem failure_action_targets :
  (forall data doc,
     validate_arazzo_data data = Ok doc ->
     Forall (fun a =>
               FailureAction.type a <> FailureAction.END ->
               one_target (FailureAction.workflow_id a) (FailureAction.step_id a))
            (failure_actions_of doc))
  /\ (forall a,
        FailureAction.check_conditional_goto_retry a = Ok a
        <-> match FailureAction.type a with
            | FailureAction.END => True
            | FailureAction.GOTO =>
                one_target (FailureAction.workflow_id a) (FailureAction.step_id a)
            | FailureAction.RETRY =>
                one_target (FailureAction.workflow_id a) (FailureAction.step_id a)
                /\ FailureAction.retry_after a <> None
            end)
  /\ (forall j a,
        FailureAction.validate_fields j = Ok a ->
        FailureAction.type a <> FailureAction.END ->
        truthy (FailureAction.workflow_id a) = true ->
        truthy (FailureAction.step_id a) = true ->
        FailureAction.model_validate j
        = fail (failure_error "goto_retry_exclusive_target" a)).
Proof.
  split; [ | split; [exact check_conditional_goto_retry_iff | ] ].
  - intros data doc H. apply failure_actions_validated in H.
    eapply Forall_impl; [ | exact H]. intros a Ha Hty.
    apply FailureAction_validated in Ha. destruct Ha as [Hc _ _ _].
    apply check_conditional_goto_retry_iff in Hc.
    destruct (FailureAction.type a); [congruence | exact Hc | apply Hc].
  - intros j a Hf Hty Hw Hs. unfold FailureAction.model_validate. rewrite Hf. simpl.
    unfold FailureAction.check_conditional_goto_retry, failure_error.
    rewrite Hw, Hs. destruct (FailureAction.type a); [congruence | reflexivity | reflexivity].
Qed.

Lemma failure_action_targets_witness :
  (exists doc, validate_arazzo_data retry_data = Ok doc
               /\ Forall (fun a =>
                            FailureAction.type a <> FailureAction.END ->
                            one_target (FailureAction.workflow_id a)
                                       (FailureAction.step_id a))
                         (failure_actions_of doc))
  /\ (exists a, FailureAction.model_validate failure_end_bare = Ok a)
  /\ FailureAction.model_validate failure_goto_both_set
     = fail (PydanticCustomError "goto_retry_exclusive_target" [("type", CStr "goto")]).
Proof.
  destruct failure_action_targets as (Hdoc & Hiff & Hboth).
  split; [ | split].
  - eexists. split; [vm_compute; reflexivity | ].
    apply (Hdoc retry_data). vm_compute. reflexivity.
  - eexists. vm_compute. reflexivity.
  - etransitivity;
      [refine (Hboth failure_goto_both_set _ _ _ _ _);
       [vm_compute; reflexivity | discriminate | reflexivity | reflexivity]
      | reflexivity].
Defined.

(* ================================================================== *)
(** * What a step is accepted for *)
(* ================================================================== *)

Lemma check_operation_parameters_Forall l :
  forall n, Forall (fun x => untagged x = false) l ->
            Step.check_operation_parameters n l = None.
Proof.
  induction l as [ | [p | r] t IH]; intros n H; cbn [Step.check_operation_parameters];
    inversion H; subst; auto.
  simpl in H2. rewrite H2. apply IH. assumption.
Qed.

Lemma check_operation_parameters_kind l :
  forall n e, Step.check_operation_parameters n l = Some e ->
              exists i, e = parameter_in_required i.
Proof.
  induction l as [ | [p | r] t IH]; intros n e H; cbn [Step.check_operation_parameters] in H.
  - discriminate.
  - destruct (is_None (ParameterObject.in_ p)).
    + injection H as <-. exists n. reflexivity.
    + eapply IH; exact H.
  - eapply IH; exact H.
Qed.

(** X3.  The whole-node check of a step accepts it exactly when it sets one
    target and, if its operationId or operationPath is a non-empty string,
    none of its parameters is a plain Parameter without location tag.  So a
    step with valid fields that targets a workflow is accepted whatever its
    parameters are, and the only errors the check raises are the two target
    errors and [parameter_in_required_for_operation]. *)
Theorem step_check_accepts_iff :
  (forall s,
     Step.check_conditional_step_target s = Ok s
     <-> targets_set s = 1%nat
         /\ (truthy (Step.operation_id s) || truthy (Step.operation_path s) = true ->
             Forall (fun x => untagged x = false) (opt_list (Step.parameters s))))
  /\ (forall j s w,
        Step.validate_fields j = Ok s ->
        Step.operation_id s = None ->
        Step.operation_path s = None ->
        Step.workflow_id s = Some w ->
        Step.model_validate j = Ok s)
  /\ (forall s es,
        Step.check_conditional_step_target s = Invalid es ->
        exists kind,
          es = [mkError kind []]
          /\ (kind = PydanticCustomError "step_missing_target_type" []
              \/ kind = PydanticCustomError "step_exclusive_target_type" []
              \/ exists i, kind = parameter_in_required i)).
Proof.
  assert (Hiff : forall s,
             Step.check_conditional_step_target s = Ok s
             <-> targets_set s = 1%nat
                 /\ (truthy (Step.operation_id s) || truthy (Step.operation_path s) = true ->
                     Forall (fun x => untagged x = false) (opt_list (Step.parameters s)))).
  { intros s. split.
    - intros H. split; [apply check_step_target_Ok; exact H | ].
      intros Hop. unfold Step.check_conditional_step_target in H.
      rewrite present_targets_length in H.
      destruct (targets_set s =? 0)%nat; [discriminate H | ].
      destruct (1 <? targets_set s)%nat; [discriminate H | ].
      rewrite Hop in H.
      destruct (Step.parameters s) as [l | ]; [ | constructor].
      destruct l as [ | x l]; [constructor | ].
      cbn [truthy_list opt_list] in H |- *.
      destruct (Step.check_operation_parameters 0 (x :: l)) eqn:E; [discriminate H | ].
      eapply check_operation_parameters_None; exact E.
    - intros [H1 Hall]. unfold Step.check_conditional_step_target.
      rewrite present_targets_length, H1. simpl.
      destruct (truthy_list (Step.parameters s)) eqn:Hp; [ | reflexivity].
      destruct (truthy (Step.operation_id s) || truthy (Step.operation_path s)) eqn:Hop.
      + specialize (Hall eq_refl).
        destruct (Step.parameters s) as [l | ]; [ | discriminate Hp].
        simpl in Hall. rewrite (check_operation_parameters_Forall 0 Hall). reflexivity.
      + destruct (truthy (Step.workflow_id s)); reflexivity. }
  split; [exact Hiff | split].
  - intros j s w Hf Hop Hpath Hw. unfold Step.model_validate. rewrite Hf. simpl.
    apply Hiff. unfold targets_set. rewrite Hop, Hpath, Hw. simpl.
    split; [reflexivity | discriminate].
  - intros s es. unfold Step.check_conditional_step_target.
    rewrite present_targets_length.
    destruct (targets_set s =? 0)%nat.
    { intros H. injection H as <-. eexists. split; [reflexivity | auto]. }
    destruct (1 <? targets_set s)%nat.
    { intros H. injection H as <-. eexists. split; [reflexivity | auto]. }
    destruct (truthy_list (Step.parameters s)); [ | discriminate].
    destruct (truthy (Step.operation_id s) || truthy (Step.operation_path s)).
    + destruct (Step.check_operation_parameters 0 _) as [e | ] eqn:E; [ | discriminate].
      intros H. injection H as <-. exists e. split; [reflexivity | ].
      right. right. eapply check_operation_parameters_kind; exact E.
    + destruct (truthy (Step.workflow_id s)); discriminate.
Qed.

Lemma step_check_accepts_iff_witness :
  exists s, Step.model_validate step_update_user = Ok s
            /\ Exists (fun x => untagged x = true) (opt_list (Step.parameters s)).
Proof.
  destruct step_check_accepts_iff as (_ & Hwf & _).
  eexists. split.
  - refine (Hwf step_update_user _ "updateUserDetailsWorkflow" _ _ _ _);
      [vm_compute; reflexivity | reflexivity | reflexivity | reflexivity].
  - left. reflexivity.
Defined.

(* ================================================================== *)
(** * What the uniqueness validators accept and report *)
(* ================================================================== *)

Lemma uniqueness_of_validated_witness :
  exists doc,
    validate_arazzo_data lists_data = Ok doc
    /\ NoDup (map SourceDescription.name (ArazzoSpecification.source_descriptions doc))
    /\ NoDup (map Workflow.workflow_id (ArazzoSpecification.workflows doc))
    /\ Forall (fun w =>
                 NoDup (map Step.step_id (Workflow.steps w))
                 /\ NoDup (opt_list (Workflow.depends_on w))
                 /\ NoDup (opt_list (Workflow.success_actions w))
                 /\ NoDup (opt_list (Workflow.failure_actions w))
                 /\ NoDup (opt_list (Workflow.parameters w)))
              (ArazzoSpecification.workflows doc)
    /\ Forall (fun s =>
                 NoDup (opt_list (Step.parameters s))
                 /\ NoDup (opt_list (Step.success_criteria s))
                 /\ NoDup (opt_list (Step.on_success s))
                 /\ NoDup (opt_list (Step.on_failure s))
                 /\ match Step.request_body s with
                    | Some b => NoDup (opt_list (RequestBody.replacements b))
                    | None => True
                    end)
              (steps_of doc)
    /\ Forall (fun a => NoDup (opt_list (SuccessAction.criteria a)))
              (success_actions_of doc)
    /\ Forall (fun a => NoDup (opt_list (FailureAction.criteria a)))
              (failure_actions_of doc).
Proof.
  eexists. split; [vm_compute; reflexivity | ].
  apply (@uniqueness_of_validated lists_data). vm_compute. reflexivity.
Defined.

Lemma unique_ids_NoDup {A : Type} list_name (id : A -> string) (v : list A) :
  NoDup (map id v) -> unique_ids list_name id v = Ok v.
Proof.
  intros H. unfold unique_ids.
  apply py_set_NoDup_iff in H. rewrite H, Nat.eqb_refl. reflexivity.
Qed.

Lemma unique_ids_keyed {A : Type} list_name (id : A -> string) :
  keyed_by (unique_ids list_name id) list_name id.
Proof.
  intros v. split; [apply unique_ids_NoDup | ].
  intros H. destruct (@unique_ids_reports_every_duplicate A list_name id v H)
    as (ds & E & Hnd & Hin).
  exists ds. split; [exact E | split; assumption].
Qed.

(** X5.  The three identifier-keyed validators compare a list by one field
    only (stepId, workflowId, name).  Each returns the list it was given
    when the identifiers are distinct; otherwise it raises a [ValueError]
    that lists, once each, exactly the identifiers that occur more than
    once. *)
Theorem identifier_keyed_uniqueness :
  keyed_by Workflow.validate_steps_uniqueness "steps" Step.step_id
  /\ keyed_by ArazzoSpecification.validate_workflows_uniqueness "workflows"
       Workflow.workflow_id
  /\ keyed_by ArazzoSpecification.validate_source_descriptions_uniqueness
       "source_descriptions" SourceDescription.name.
Proof.
  split; [ | split]; apply unique_ids_keyed.
Qed.

Lemma identifier_keyed_uniqueness_witness :
  (exists ds,
     Workflow.validate_steps_uniqueness steps_with_duplicate_ids
     = fail (value_error (must_contain_unique_ids "steps" ds))
     /\ duplicates_of (map Step.step_id steps_with_duplicate_ids) ds)
  /\ Workflow.validate_steps_uniqueness [typed_step "stepA" "opA"; typed_step "stepB" "opA"]
     = Ok [typed_step "stepA" "opA"; typed_step "stepB" "opA"].
Proof.
  destruct identifier_keyed_uniqueness as (Hsteps & _ & _).
  split.
  - apply (proj2 (Hsteps steps_with_duplicate_ids)).
    intros H. inversion H as [ | x l Hx _ ]; subst. apply Hx. vm_compute. tauto.
  - apply (proj1 (Hsteps [typed_step "stepA" "opA"; typed_step "stepB" "opA"])).
    repeat constructor; simpl; intuition discriminate.
Defined.

Lemma duplicates_found_NoDup {A : Type} `{PyItem A} (v : list A) :
  forall seen,
    NoDup (map hashable_item v) ->
    (forall x, In x v -> ~ In (hashable_item x) seen) ->
    duplicates_found seen v = [].
Proof.
  induction v as [ | item r IH]; intros seen Hnd Hseen; cbn [duplicates_found];
    [reflexivity | ].
  cbn [map] in Hnd. inversion Hnd as [ | k l Hk Hr ]; subst.
  destruct (in_seen (hashable_item item) seen) eqn:E.
  - apply in_seen_In in E. exfalso. apply (Hseen item); [left; reflexivity | exact E].
  - apply IH; [exact Hr | ]. intros x Hx [Heq | Hin].
    + apply Hk. rewrite Heq. apply in_map. exact Hx.
    + apply (Hseen x); [right; exact Hx | exact Hin].
Qed.

Lemma validate_unique_items_NoDup {A : Type} `{PyItem A} (v : list A) field_name :
  NoDup (map hashable_item v) -> validate_unique_items v field_name = Ok v.
Proof.
  intros Hnd. unfold validate_unique_items.
  rewrite (@duplicates_found_NoDup _ _ v [] Hnd); [reflexivity | intros x _ []].
Qed.

Lemma insert_sorted_ascending (x : string) (l : list string) :
  ascending l -> ascending (insert_sorted x l).
Proof.
  unfold ascending. induction l as [ | y r IH]; intros Hs; simpl.
  - repeat constructor.
  - destruct (String.leb x y) eqn:E.
    + constructor; [exact Hs | constructor; exact E].
    + inversion Hs as [ | a b Hr Hhd ]; subst. constructor; [apply IH; exact Hr | ].
      assert (Hyx : String.leb y x = true).
      { destruct (String.leb_total x y) as [Hxy | Hyx]; [congruence | exact Hyx]. }
      destruct r as [ | z r']; simpl.
      * constructor. exact Hyx.
      * destruct (String.leb x z); constructor; [exact Hyx | ].
        inversion Hhd; subst. assumption.
Qed.

Lemma sorted_ascending (l : list string) : ascending (sorted l).
Proof.
  unfold sorted. induction l as [ | x r IH]; simpl.
  - constructor.
  - apply insert_sorted_ascending. exact IH.
Qed.

Lemma insert_sorted_NoDup (x : string) (l : list string) :
  ~ In x l -> NoDup l -> NoDup (insert_sorted x l).
Proof.
  induction l as [ | y r IH]; intros Hx Hnd; simpl.
  - constructor; [intros [] | constructor].
  - destruct (String.leb x y).
    + constructor; assumption.
    + inversion Hnd as [ | a b Hy Hr ]; subst. constructor.
      * rewrite insert_sorted_In. intros [-> | Hin]; [apply Hx; left; reflexivity | auto].
      * apply IH; [intros Hin; apply Hx; right; exact Hin | exact Hr].
Qed.

Lemma sorted_NoDup (l : list string) : NoDup l -> NoDup (sorted l).
Proof.
  unfold sorted. induction 1 as [ | x r Hx Hr IH]; simpl.
  - constructor.
  - apply insert_sorted_NoDup; [ | exact IH].
    change (fold_right insert_sorted [] r) with (sorted r).
    rewrite sorted_In. exact Hx.
Qed.

Lemma NoDup_map_JStr (l : list string) : NoDup l -> NoDup (map JStr l).
Proof.
  induction 1 as [ | x r Hx Hr IH]; simpl; constructor; [ | exact IH].
  rewrite in_map_iff. intros (y & E & Hy). injection E as ->. contradiction.
Qed.

(** X6.  The validator of dependsOn returns a list of distinct strings, and
    an absent list, as it was given.  For a list with a repeated entry it
    raises a [ValueError] that lists, in ascending order and once each,
    exactly the entries that occur more than once. *)
Theorem depends_on_uniqueness :
  Workflow.validate_depends_on_uniqueness None = Ok None
  /\ forall v,
       (NoDup v -> Workflow.validate_depends_on_uniqueness (Some v) = Ok (Some v))
       /\ (~ NoDup v ->
           exists ds,
             Workflow.validate_depends_on_uniqueness (Some v)
             = fail (value_error (must_contain_unique_items "depends_on" ds))
             /\ ascending ds
             /\ duplicates_of v ds).
Proof.
  split; [reflexivity | ]. intros v. split.
  - intros Hnd. unfold Workflow.validate_depends_on_uniqueness, unique_if_present.
    rewrite validate_unique_items_NoDup; [reflexivity | ].
    simpl. apply NoDup_map_JStr. exact Hnd.
  - intros Hdup.
    destruct (@unique_strings_report_every_duplicate v "depends_on" Hdup)
      as (ds & E & Hnd & Hin).
    exists (sorted ds). unfold Workflow.validate_depends_on_uniqueness, unique_if_present.
    rewrite E. split; [reflexivity | ]. split; [apply sorted_ascending | ].
    split; [apply sorted_NoDup; exact Hnd | exact Hin].
Qed.

Lemma depends_on_uniqueness_witness :
  Workflow.validate_depends_on_uniqueness (Some ["b"; "a"]) = Ok (Some ["b"; "a"])
  /\ exists ds,
       Workflow.validate_depends_on_uniqueness (Some ["b"; "a"; "b"; "a"; "b"])
       = fail (value_error (must_contain_unique_items "depends_on" ds))
       /\ ascending ds
       /\ duplicates_of ["b"; "a"; "b"; "a"; "b"] ds.
Proof.
  destruct depends_on_uniqueness as (_ & H).
  split.
  - apply (proj1 (H ["b"; "a"])). repeat constructor; simpl; intuition discriminate.
  - apply (proj2 (H ["b"; "a"; "b"; "a"; "b"])).
    intros Hnd. inversion Hnd as [ | x l Hx _ ]; subst. apply Hx. simpl. tauto.
Defined.

(** X7.  On a list of models [validate_unique_items] compares the entries
    by their serialisation.  It returns the list it was given when the
    serialisations are distinct; as soon as two are equal it raises
    [TypeError], whatever the field, and never a [ValueError]. *)
Theorem model_list_uniqueness :
  forall (A : Type) (M : BaseModel A) (v : list A) (field_name : string),
    (NoDup (map model_dump_json v) -> validate_unique_items v field_name = Ok v)
    /\ (~ NoDup (map model_dump_json v) ->
        validate_unique_items v field_name = Raised (TypeError "unhashable type")).
Proof.
  intros A M v field_name. split.
  - intros Hnd. apply validate_unique_items_NoDup. exact Hnd.
  - intros Hdup. unfold validate_unique_items.
    destruct (duplicates_found [] v) as [ | d ds] eqn:E; [ | reflexivity].
    exfalso. apply Hdup. apply duplicates_found_nil in E. apply E.
Qed.

Lemma model_list_uniqueness_witness :
  validate_unique_items [reusable "a"; reusable "b"] "parameters"
  = Ok [reusable "a"; reusable "b"]
  /\ validate_unique_items [reusable "a"; reusable "b"; reusable "a"] "parameters"
     = Raised (TypeError "unhashable type").
Proof.
  split.
  - apply (proj1 (model_list_uniqueness ReusableObject.dump
                    [reusable "a"; reusable "b"] "parameters")).
    repeat constructor; simpl; intuition discriminate.
  - apply (proj2 (model_list_uniqueness ReusableObject.dump
                    [reusable "a"; reusable "b"; reusable "a"] "parameters")).
    intros Hnd. inversion Hnd as [ | x l Hx _ ]; subst. apply Hx. simpl. tauto.
Defined.

(* ================================================================== *)
(** * Missing keys and unknown keys *)
(* ================================================================== *)

Lemma required_remove_key_same {A : Type} name (v : Validator A) m :
  lookup name (remove_key (to_camel name) m) = None ->
  required name v (remove_key (to_camel name) m)
  = Invalid [mkError missing [LKey (to_camel name)]].
Proof.
  intros Hn. unfold required, required_as, find_field.
  rewrite lookup_remove_key_same, Hn. reflexivity.
Qed.

(** Rewrites the fields that a removed key leaves alone, and then the
    results that are known for them. *)
Ltac other_fields_unchanged :=
  repeat (first [ rewrite required_remove_key_other by reflexivity
                | rewrite default_remove_key_other by reflexivity ]);
  repeat match goal with
         | Hf : required _ _ _ = Ok _ |- _ => rewrite Hf; clear Hf
         | Hf : default _ _ _ _ = Ok _ |- _ => rewrite Hf; clear Hf
         end.

Lemma Info_without_title (info : list (string * Json)) (i : Info.t) :
  Info.model_validate (JMap info) = Ok i ->
  Info.model_validate (JMap (remove_key "title" info))
  = Invalid [mkError missing [LKey "title"]].
Proof.
  unfold Info.model_validate, model. intros H. invert_fields H.
  rewrite (required_remove_key_same "title")
    by (change (to_camel "title") with "title"; apply lookup_remove_key_same).
  change (to_camel "title") with "title".
  other_fields_unchanged. reflexivity.
Qed.

(** X8.  What is not a mapping is rejected with the one error [model_type].
    Removing one of the required keys arazzo, info, workflows or
    sourceDescriptions from a document that validates leaves exactly one
    error, the missing field at that key, and removing the title from its
    info leaves exactly the missing field at [info.title]. *)
Theorem missing_required_fields :
  (forall j, (forall m, j <> JMap m) -> validate_arazzo_data j = fail model_type)
  /\ (forall m doc k,
        validate_arazzo_data (JMap m) = Ok doc ->
        In k ["arazzo"; "info"; "workflows"] ->
        validate_arazzo_data (JMap (remove_key k m))
        = Invalid [mkError missing [LKey k]])
  /\ (forall m doc,
        validate_arazzo_data (JMap m) = Ok doc ->
        lookup "source_descriptions" m = None ->
        validate_arazzo_data (JMap (remove_key "sourceDescriptions" m))
        = Invalid [mkError missing [LKey "sourceDescriptions"]])
  /\ (forall m info doc,
        lookup "info" m = Some (JMap info) ->
        validate_arazzo_data (JMap m) = Ok doc ->
        validate_arazzo_data (JMap (set_key "info" (JMap (remove_key "title" info)) m))
        = Invalid [mkError missing [LKey "info"; LKey "title"]]).
Proof.
  split; [ | split; [ | split] ].
  - intros j Hj. destruct j; try reflexivity. exfalso. eapply Hj. reflexivity.
  - intros m doc k H Hk.
    unfold validate_arazzo_data, ArazzoSpecification.model_validate, model in *.
    invert_fields H.
    destruct Hk as [<- | [<- | [<- | [] ] ] ].
    + rewrite (required_remove_key_same "arazzo")
        by (change (to_camel "arazzo") with "arazzo"; apply lookup_remove_key_same).
      change (to_camel "arazzo") with "arazzo".
      other_fields_unchanged. reflexivity.
    + rewrite (required_remove_key_same "info")
        by (change (to_camel "info") with "info"; apply lookup_remove_key_same).
      change (to_camel "info") with "info".
      other_fields_unchanged. reflexivity.
    + rewrite (required_remove_key_same "workflows")
        by (change (to_camel "workflows") with "workflows"; apply lookup_remove_key_same).
      change (to_camel "workflows") with "workflows".
      other_fields_unchanged. reflexivity.
  - intros m doc H Hname.
    unfold validate_arazzo_data, ArazzoSpecification.model_validate, model in *.
    invert_fields H.
    rewrite (required_remove_key_same "source_descriptions")
      by (change (to_camel "source_descriptions") with "sourceDescriptions";
          rewrite lookup_remove_key_other by reflexivity; exact Hname).
    change (to_camel "source_descriptions") with "sourceDescriptions".
    other_fields_unchanged. reflexivity.
  - intros m info doc Hinfo H.
    unfold validate_arazzo_data, ArazzoSpecification.model_validate, model in *.
    invert_fields H.
    rewrite (required_set_key_other "arazzo") by reflexivity.
    rewrite (required_set_key_other "source_descriptions") by reflexivity.
    rewrite (required_set_key_other "workflows") by reflexivity.
    rewrite (default_set_key_other "components") by reflexivity.
    assert (Hi : required "info" Info.model_validate
                   (set_key "info" (JMap (remove_key "title" info)) m)
                 = Invalid [mkError missing [LKey "info"; LKey "title"]]).
    { match goal with
      | Hf : required "info" Info.model_validate m = Ok ?i |- _ => rename Hf into Hok
      end.
      unfold required, required_as, find_field in Hok |- *.
      change (to_camel "info") with "info" in Hok |- *.
      rewrite Hinfo in Hok. apply at_loc_Ok in Hok.
      rewrite (@lookup_set_key_same "info" _ m _ Hinfo).
      rewrite (Info_without_title _ Hok). reflexivity. }
    rewrite Hi.
    repeat match goal with
           | Hf : required _ _ m = Ok _ |- _ => rewrite Hf; clear Hf
           | Hf : default _ _ _ m = Ok _ |- _ => rewrite Hf; clear Hf
           end.
    reflexivity.
Qed.

Lemma missing_required_fields_witness :
  validate_arazzo_data JNull = fail model_type
  /\ validate_arazzo_data (JMap (remove_key "workflows" simple_entries))
     = Invalid [mkError missing [LKey "workflows"]]
  /\ validate_arazzo_data (JMap (remove_key "sourceDescriptions" simple_entries))
     = Invalid [mkError missing [LKey "sourceDescriptions"]]
  /\ validate_arazzo_data
       (JMap (set_key "info" (JMap [("version", JStr "1.0.0")]) simple_entries))
     = Invalid [mkError missing [LKey "info"; LKey "title"]].
Proof.
  destruct missing_required_fields as (Hnot & Hkey & Hsrc & Htitle).
  split; [ | split; [ | split] ].
  - apply Hnot. discriminate.
  - refine (Hkey simple_entries _ "workflows" _ _);
      [vm_compute; reflexivity | simpl; tauto].
  - refine (Hsrc simple_entries _ _ _); [vm_compute; reflexivity | reflexivity].
  - refine (Htitle simple_entries
              [("title", JStr "Invalid Step Test"); ("version", JStr "1.0.0")] _ _ _);
      [reflexivity | vm_compute; reflexivity].
Defined.

Lemma lookup_app_other (a k : string) (v : Json) (m : list (string * Json)) :
  (a =? k) = false -> lookup a (m ++ [(k, v)]) = lookup a m.
Proof.
  intros Hne. induction m as [ | [k0 v0] r IH]; simpl.
  - rewrite Hne. reflexivity.
  - destruct (a =? k0); [reflexivity | exact IH].
Qed.

Lemma find_field_app_other alias name k v m :
  (alias =? k) = false -> (name =? k) = false ->
  find_field alias name (m ++ [(k, v)]) = find_field alias name m.
Proof.
  intros Ha Hn. unfold find_field. rewrite !lookup_app_other by assumption. reflexivity.
Qed.

Lemma required_app_other {A : Type} name (f : Validator A) k v m :
  (to_camel name =? k) = false -> (name =? k) = false ->
  required name f (m ++ [(k, v)]) = required name f m.
Proof.
  intros Ha Hn. unfold required, required_as.
  rewrite find_field_app_other by assumption. reflexivity.
Qed.

Lemma default_app_other {A : Type} name (d : A) (f : Validator A) k v m :
  (to_camel name =? k) = false -> (name =? k) = false ->
  default name d f (m ++ [(k, v)]) = default name d f m.
Proof.
  intros Ha Hn. unfold default, default_as.
  rewrite find_field_app_other by assumption. reflexivity.
Qed.

Lemma str_in_app (x : string) (l1 l2 : list string) :
  str_in x (l1 ++ l2) = str_in x l1 || str_in x l2.
Proof. unfold str_in. apply existsb_app. Qed.

Lemma used_key_declared (m : list (string * Json)) (f : string * string) (k : string) :
  str_in k [fst f; snd f] = false -> str_in k (used_key m f) = false.
Proof.
  unfold used_key, find_field. simpl. intros H.
  apply orb_false_iff in H. destruct H as [Ha H]. apply orb_false_iff in H.
  destruct H as [Hn _].
  destruct (lookup (fst f) m); simpl; [rewrite Ha; reflexivity | ].
  destruct (lookup (snd f) m); simpl; [rewrite Hn; reflexivity | reflexivity].
Qed.

Lemma used_keys_app fields k v m :
  str_in k (declared_keys fields) = false ->
  flat_map (used_key (m ++ [(k, v)])) fields = flat_map (used_key m) fields
  /\ str_in k (flat_map (used_key m) fields) = false.
Proof.
  induction fields as [ | f r IH]; intros H; [split; reflexivity | ].
  unfold declared_keys in H. cbn [flat_map] in H |- *. fold (declared_keys r) in H.
  rewrite str_in_app in H. apply orb_false_iff in H. destruct H as [Hf Hr].
  destruct (IH Hr) as [IH1 IH2]. split.
  - rewrite IH1. f_equal. unfold used_key.
    simpl in Hf. apply orb_false_iff in Hf. destruct Hf as [Ha Hf].
    apply orb_false_iff in Hf. destruct Hf as [Hn _].
    rewrite find_field_app_other; [reflexivity | | ];
      rewrite String.eqb_sym; assumption.
  - rewrite str_in_app, IH2, (used_key_declared m f k Hf). reflexivity.
Qed.

Lemma extras_app fields k v m :
  str_in k (declared_keys fields) = false ->
  extras fields (m ++ [(k, v)]) = extras fields m ++ [(k, v)].
Proof.
  intros H. unfold extras. destruct (used_keys_app fields k v m H) as [E Hk].
  rewrite E, filter_app. simpl. rewrite Hk. reflexivity.
Qed.

(** X9.  A key that is none of the declared ones never changes the outcome:
    added to the mapping of a document that validates, whatever its value,
    the document validates to the same object, with the entry kept, last and
    as it was given, among the extension entries. *)
Theorem unknown_keys_are_kept :
  forall m doc k v,
    validate_arazzo_data (JMap m) = Ok doc ->
    str_in k (declared_keys ArazzoSpecification.fields) = false ->
    validate_arazzo_data (JMap (m ++ [(k, v)]))
    = Ok (with_model_extra doc (ArazzoSpecification.model_extra doc ++ [(k, v)])).
Proof.
  intros m doc k v H Hk.
  unfold validate_arazzo_data, ArazzoSpecification.model_validate, model in *.
  rewrite (extras_app _ k v m Hk).
  assert (Hd : forall x, str_in x (declared_keys ArazzoSpecification.fields) = true ->
                         (x =? k) = false).
  { intros x Hx. destruct (x =? k) eqn:E; [ | reflexivity].
    apply String.eqb_eq in E. subst x. congruence. }
  rewrite (required_app_other "arazzo") by (apply Hd; reflexivity).
  rewrite (required_app_other "info") by (apply Hd; reflexivity).
  rewrite (required_app_other "source_descriptions") by (apply Hd; reflexivity).
  rewrite (required_app_other "workflows") by (apply Hd; reflexivity).
  rewrite (default_app_other "components") by (apply Hd; reflexivity).
  invert_fields H.
  repeat match goal with
         | Hf : required _ _ m = Ok _ |- _ => rewrite Hf; clear Hf
         | Hf : default _ _ _ m = Ok _ |- _ => rewrite Hf; clear Hf
         end.
  match goal with Hf : Ok _ = Ok _ |- _ => injection Hf as <- end.
  reflexivity.
Qed.

Lemma unknown_keys_are_kept_witness :
  exists doc,
    validate_arazzo_data (JMap simple_entries) = Ok doc
    /\ validate_arazzo_data
         (JMap (simple_entries ++ [("x-custom-extension", JList [JBool true; JNull])]))
       = Ok (with_model_extra doc [("x-custom-extension", JList [JBool true; JNull])]).
Proof.
  eexists. split; [vm_compute; reflexivity | ].
  refine (@unknown_keys_are_kept simple_entries _ "x-custom-extension"
            (JList [JBool true; JNull]) _ _);
    [vm_compute; reflexivity | reflexivity].
Defined.

(* ================================================================== *)
(** * Lengths and numbers *)
(* ================================================================== *)

Lemma rejects_default {A : Type} (name : string) (d : A) (v : Validator A) m j e :
  lookup (to_camel name) m = Some j -> rejects_with (v j) e ->
  rejects_with (default name d v m) (prefix_loc (LKey (to_camel name)) e).
Proof.
  intros Hl Hr. unfold default, default_as, find_field. rewrite Hl.
  apply rejects_at_loc. exact Hr.
Qed.








(* ================================================================== *)
(** * The version of the specification *)
(* ================================================================== *)

Lemma drop_digits_split (r : string) :
  exists ds,
    r = (ds ++ ArazzoSpecification.drop_digits r)%string
    /\ string_forallb is_digit ds = true.
Proof.
  induction r as [ | c r IH]; simpl.
  - exists "". split; reflexivity.
  - destruct (is_digit c) eqn:E.
    + destruct IH as (ds & Hr & Hds). exists (String c ds). simpl.
      rewrite <- Hr, E, Hds. split; reflexivity.
    + exists "". split; reflexivity.
Qed.

Lemma drop_digits_app (ds rest : string) :
  string_forallb is_digit ds = true ->
  ArazzoSpecification.drop_digits rest = rest ->
  ArazzoSpecification.drop_digits (ds ++ rest) = rest.
Proof.
  induction ds as [ | c ds IH]; simpl; intros Hds Hrest; [exact Hrest | ].
  apply andb_true_iff in Hds. destruct Hds as [Hc Hds]. rewrite Hc. apply IH; assumption.
Qed.

Lemma drop_digits_idem (r : string) :
  ArazzoSpecification.drop_digits (ArazzoSpecification.drop_digits r)
  = ArazzoSpecification.drop_digits r.
Proof.
  induction r as [ | c r IH]; simpl; [reflexivity | ].
  destruct (is_digit c) eqn:E; [exact IH | ]. simpl. rewrite E. reflexivity.
Qed.

Lemma arazzo_pattern_prefix (s : string) :
  ArazzoSpecification.arazzo_pattern s = true ->
  exists d r,
    s = String "1" (String "." (String "0" (String "." (String d r))))
    /\ ArazzoSpecification.arazzo_pattern s
       = is_digit d
         && match ArazzoSpecification.drop_digits r with
            | EmptyString => true
            | String "-" (String c t) =>
                string_forallb ArazzoSpecification.not_newline (String c t)
            | _ => false
            end.
Proof.
  destruct s as [ | c1 s]; [discriminate | ].
  destruct c1 as [[] [] [] [] [] [] [] []]; try discriminate.
  destruct s as [ | c2 s]; [discriminate | ].
  destruct c2 as [[] [] [] [] [] [] [] []]; try discriminate.
  destruct s as [ | c3 s]; [discriminate | ].
  destruct c3 as [[] [] [] [] [] [] [] []]; try discriminate.
  destruct s as [ | c4 s]; [discriminate | ].
  destruct c4 as [[] [] [] [] [] [] [] []]; try discriminate.
  destruct s as [ | d r]; [discriminate | ].
  intros _. exists d, r. split; reflexivity.
Qed.

Lemma arazzo_pattern_iff (s : string) :
  ArazzoSpecification.arazzo_pattern s = true <-> version_form s.
Proof.
  split.
  - intros H. destruct (arazzo_pattern_prefix s H) as (d & r & -> & E).
    rewrite E in H. apply andb_true_iff in H. destruct H as [Hd Htail].
    destruct (drop_digits_split r) as (ds & Hr & Hds).
    exists (String d ds), (ArazzoSpecification.drop_digits r).
    split; [simpl; rewrite <- Hr; reflexivity | ].
    split; [discriminate | ].
    split; [simpl; rewrite Hd, Hds; reflexivity | ].
    destruct (ArazzoSpecification.drop_digits r) as [ | c t]; [left; reflexivity | ].
    right. destruct c as [[] [] [] [] [] [] [] []]; try discriminate Htail.
    destruct t as [ | c' t']; [discriminate Htail | ].
    eexists. split; [reflexivity | split; [discriminate | exact Htail] ].
  - intros (ds & rest & -> & Hne & Hds & Hrest).
    destruct ds as [ | d ds]; [congruence | ].
    simpl in Hds. apply andb_true_iff in Hds. destruct Hds as [Hd Hds].
    change (ArazzoSpecification.arazzo_pattern ("1.0." ++ String d ds ++ rest))
      with (is_digit d
            && match ArazzoSpecification.drop_digits (ds ++ rest) with
               | EmptyString => true
               | String "-" (String c t) =>
                   string_forallb ArazzoSpecification.not_newline (String c t)
               | _ => false
               end).
    rewrite Hd. simpl andb.
    destruct Hrest as [-> | (suffix & -> & Hs & Hnl)].
    + rewrite drop_digits_app; [reflexivity | exact Hds | reflexivity].
    + rewrite drop_digits_app; [ | exact Hds | reflexivity].
      destruct suffix as [ | c t]; [congruence | exact Hnl].
Qed.



(* ================================================================== *)
(** * Entries that carry a reference *)
(* ================================================================== *)






















(* ================================================================== *)
(** * Source descriptions *)
(* ================================================================== *)

Lemma SourceDescription_validated (sd : SourceDescription.t) :
  validated SourceDescription.model_validate sd -> source_well_formed sd.
Proof.
  intros [j H]. unfold SourceDescription.model_validate in H.
  apply model_Ok in H. destruct H as (m & -> & H). invert_fields H.
  split; simpl.
  - match goal with
    | Hn : required "name" _ m = Ok ?n |- _ =>
        apply required_Ok in Hn; destruct Hn as [j Hn];
        unfold pattern in Hn; apply and_then_Ok in Hn;
        destruct Hn as (s & _ & Hn);
        destruct (SourceDescription.name_pattern s) eqn:E; [ | discriminate Hn];
        injection Hn as <-; exact E
    end.
  - match goal with
    | Hu : required "url" _ m = Ok ?u |- _ =>
        apply required_Ok in Hu; apply field_validator_Ok in Hu;
        destruct Hu as (s & _ & Hu);
        unfold SourceDescription.validate_uri_reference in Hu;
        destruct (string_existsb is_space s) eqn:E; [discriminate Hu | ];
        injection Hu as <-; exact E
    end.
Qed.

(** X14.  The url of a source description is only checked for whitespace:
    every source description of a validated document has a url without
    whitespace and a name that the pattern of the code matches, and the url
    is stored as it was given.  A source description whose url holds a
    whitespace character is rejected with the [ValueError] of
    [validate_uri_reference] at the key url, and one whose type is a string
    other than arazzo and openapi with [enum] at the key type. *)
Theorem source_descriptions_checked :
  (forall data doc,
     validate_arazzo_data data = Ok doc ->
     Forall source_well_formed (ArazzoSpecification.source_descriptions doc))
  /\ (forall v,
        string_existsb is_space v = false ->
        SourceDescription.validate_uri_reference v = Ok v)
  /\ (forall m u,
        lookup "url" m = Some (JStr u) ->
        string_existsb is_space u = true ->
        rejects_with (SourceDescription.model_validate (JMap m))
          (mkError (value_error url_must_not_contain_whitespace) [LKey "url"]))
  /\ (forall m t,
        lookup "type" m = Some (JStr t) ->
        t <> "arazzo" -> t <> "openapi" ->
        rejects_with (SourceDescription.model_validate (JMap m))
          (mkError enum [LKey "type"])).
Proof.
  split; [ | split; [ | split] ].
  - intros data doc H. apply Document_validated in H. destruct H as [(Hs & _) _ _].
    eapply Forall_impl; [ | exact Hs]. intros sd. apply SourceDescription_validated.
  - intros v H. unfold SourceDescription.validate_uri_reference. rewrite H. reflexivity.
  - intros m u Hl Hsp. unfold SourceDescription.model_validate, model.
    do 2 apply rejects_collect_l. apply rejects_collect_r.
    apply (@rejects_required _ "url" _ m (JStr u)
             (mkError (value_error url_must_not_contain_whitespace) []));
      [exact Hl | ].
    unfold field_validator. simpl.
    rewrite (url_whitespace_rejected u Hsp). left. reflexivity.
  - intros m t Hl Ha Ho. unfold SourceDescription.model_validate, model.
    apply rejects_collect_l. apply rejects_collect_r.
    apply (@rejects_default _ "type" _ _ m (JStr t) (mkError enum [])); [exact Hl | ].
    unfold optional, enumeration, SourceDescription.SourceType_members. simpl.
    apply String.eqb_neq in Ha. apply String.eqb_neq in Ho. rewrite Ha, Ho.
    left. reflexivity.
Qed.

Lemma source_descriptions_checked_witness :
  (exists doc, validate_arazzo_data lists_data = Ok doc
               /\ Forall source_well_formed
                         (ArazzoSpecification.source_descriptions doc))
  /\ rejects_with
       (SourceDescription.model_validate (JMap (source_with_url "http://api example.com")))
       (mkError (value_error url_must_not_contain_whitespace) [LKey "url"])
  /\ rejects_with
       (SourceDescription.model_validate
          (JMap (("type", JStr "OpenAPI") :: source_with_url "http://api.example.com")))
       (mkError enum [LKey "type"]).
Proof.
  destruct source_descriptions_checked as (Hdoc & _ & Hurl & Hty).
  split; [ | split].
  - eexists. split; [vm_compute; reflexivity | ].
    apply (Hdoc lists_data). vm_compute. reflexivity.
  - refine (Hurl _ "http://api example.com" _ _); reflexivity.
  - refine (Hty _ "OpenAPI" _ _ _); [reflexivity | discriminate | discriminate].
Defined.

(* ================================================================== *)
(** * Criteria without a type *)
(* ================================================================== *)

(** X15.  A criterion whose mapping has no type is a simple criterion, and
    a criterion whose type is one of the plain tags simple and regex needs
    no context: with valid fields it validates. *)
Theorem plain_criteria_need_no_context :
  (forall m c,
     Criterion.validate_fields (JMap m) = Ok c ->
     lookup "type" m = None ->
     Criterion.type c = inl Criterion.SIMPLE)
  /\ (forall j c,
        Criterion.validate_fields j = Ok c ->
        Criterion.type c = inl Criterion.SIMPLE
        \/ Criterion.type c = inl Criterion.REGEX ->
        Criterion.model_validate j = Ok c).
Proof.
  split.
  - intros m c H Hl. unfold Criterion.validate_fields, model in H. invert_fields H.
    simpl.
    match goal with
    | Hty : default "type" _ _ m = Ok ?ty |- _ =>
        unfold default, default_as, find_field in Hty;
        change (to_camel "type") with "type" in Hty;
        rewrite Hl in Hty; injection Hty as <-; reflexivity
    end.
  - intros j c Hf Hty. unfold Criterion.model_validate. rewrite Hf. simpl.
    unfold Criterion.check_dependent_required.
    destruct Hty as [-> | ->]; reflexivity.
Qed.

Lemma plain_criteria_need_no_context_witness :
  exists c,
    Criterion.model_validate (JMap condition_only) = Ok c
    /\ Criterion.type c = inl Criterion.SIMPLE
    /\ Criterion.context c = None.
Proof.
  destruct plain_criteria_need_no_context as (Hdefault & Hplain).
  eexists. split; [ | split].
  - refine (Hplain (JMap condition_only) _ _ _);
      [vm_compute; reflexivity | left; reflexivity].
  - refine (Hdefault condition_only _ _ _); [vm_compute; reflexivity | reflexivity].
  - reflexivity.
Defined.

(* ================================================================== *)
(** * The least document that validates *)
(* ================================================================== *)

(** X16.  A document that holds nothing but the required fields validates
    as soon as its arazzo has the form of a version, the name of its source
    description matches the pattern of the code and the url holds no
    whitespace; title, version, workflowId, stepId and operationId may be
    any strings, the empty one included.  The object graph is the one that
    leaves every optional field absent. *)
Theorem minimal_document_validates :
  forall arazzo title version name url workflow_id step_id operation_id,
    version_form arazzo ->
    SourceDescription.name_pattern name = true ->
    string_existsb is_space url = false ->
    validate_arazzo_data
      (minimal_document arazzo title version name url workflow_id step_id operation_id)
    = Ok (minimal_specification arazzo title version name url workflow_id step_id
            operation_id).
Proof.
  intros arazzo title version name url workflow_id step_id operation_id Hv Hn Hu.
  apply arazzo_pattern_iff in Hv.
  cbv -[ArazzoSpecification.arazzo_pattern SourceDescription.name_pattern
        string_existsb is_space].
  rewrite Hv, Hn, Hu. reflexivity.
Qed.

Lemma minimal_document_validates_witness :
  validate_arazzo_data
    (minimal_document "1.0.1" "" "" "petstore" "https://petstore.swagger.io/v2/swagger.json"
       "" "" "")
  = Ok (minimal_specification "1.0.1" "" "" "petstore"
          "https://petstore.swagger.io/v2/swagger.json" "" "" "").
Proof.
  refine (@minimal_document_validates "1.0.1" "" "" "petstore"
            "https://petstore.swagger.io/v2/swagger.json" "" "" "" _ _ _);
    [ | reflexivity | reflexivity].
  exists "1", "". repeat split; [discriminate | left; reflexivity].
Defined.
